(** * BCRA dashboard: the data retrieval and normalisation pipeline

    A shallow embedding of [bcra_api_client.py] (class [BCRAClient]) and of
    [fetch_datos] and [main] from [generate_dashboard.py], with the
    properties the specification states about them and further properties
    read off the code.

    What lies outside the repository is kept abstract and gathered in one
    record, [Env]: the HTTP session (what the server answers), the clock, and
    the parts of pandas the client calls (the date parser behind
    [pd.to_datetime], on a value alone and on a value within its column, the
    index permutation behind [sort_values], the frame pandas builds from a
    payload that is not a list of records, and the CSV writer).  Everything
    the repository itself decides is written out.  The sort numpy runs for
    the default [kind] of [sort_values] is written out as well, in [Numpy],
    and proved to sort: it is the sort of the concrete environments on
    which the builder is run. *)

From stdpp Require Import base option list strings pretty gmap sorting.
From Stdlib Require Import ZArith Lia.

Set Warnings "-register-all".
Local Open Scope string_scope.
Local Open Scope Z_scope.
Local Open Scope list_scope.

(** ** Python values and exceptions *)

Module Py.

(** A parsed JSON document, as [response.json()] returns it: [dict] with
    string keys, [list], [str], [int], [float], [bool] and [None].  A [dict]
    is an association list read by its first binding of a key. *)
Inductive json : Type :=
  | JNull
  | JBool (b : bool)
  | JInt (n : Z)
  | JFloat (digits exp10 : Z)
  | JStr (s : string)
  | JArr (items : list json)
  | JObj (fields : list (string * json)).

(** The exception classes that the client can meet.  All of them derive from
    [Exception]; the first three derive from [requests.RequestException]. *)
Inductive exn : Type :=
  | HTTPError (status_code : Z) (reason : string)
  | ConnectionError (msg : string)
  | JSONDecodeError
  | TypeError
  | KeyError (key : string)
  | ValueError
  | AttributeError
  | OSError.

Definition is_RequestException (e : exn) : bool :=
  match e with
  | HTTPError _ _ | ConnectionError _ | JSONDecodeError => true
  | _ => false
  end.


(** A computation that returns or raises. *)
Inductive result (A : Type) : Type :=
  | Ok (a : A)
  | Raise (e : exn).
Arguments Ok {A} a.
Arguments Raise {A} e.

#[global] Instance result_bind : MBind result := fun A B k m =>
  match m with
  | Ok a => k a
  | Raise e => Raise e
  end.

(** [try: body except Exception as e: handler e]. *)
Definition try_except {A} (body : result A) (handler : exn -> result A) : result A :=
  match body with
  | Ok a => Ok a
  | Raise e => handler e
  end.

(** [d.get(k)] on a [dict]: the first binding of [k]. *)
Fixpoint dict_get (k : string) (d : list (string * json)) : option json :=
  match d with
  | [] => None
  | (k', v) :: d' => if String.eqb k k' then Some v else dict_get k d'
  end.

Definition is_str (k : string) (v : json) : bool :=
  match v with
  | JStr s => String.eqb k s
  | _ => false
  end.

(** [k in v] for a string [k]: key membership on a [dict], element
    membership on a [list], substring test on a [str]; the other types are
    not containers and the operator raises [TypeError]. *)
Definition contains (k : string) (v : json) : result bool :=
  match v with
  | JObj fields => Ok (bool_decide (is_Some (dict_get k fields)))
  | JArr items => Ok (existsb (is_str k) items)
  | JStr s => Ok (bool_decide (is_Some (String.index 0 k s)))
  | JNull | JBool _ | JInt _ | JFloat _ _ => Raise TypeError
  end.

(** [v[k]] for a string [k]: only a [dict] can be indexed by a string. *)
Definition getitem (v : json) (k : string) : result json :=
  match v with
  | JObj fields =>
      match dict_get k fields with
      | Some x => Ok x
      | None => Raise (KeyError k)
      end
  | _ => Raise TypeError
  end.

Definition isinstance_dict (v : json) : bool :=
  match v with JObj _ => true | _ => false end.

Definition isinstance_list (v : json) : bool :=
  match v with JArr _ => true | _ => false end.

(** Truthiness of an [Optional[int]] and of an [Optional[str]]. *)
Definition truthy_int (x : option Z) : bool :=
  match x with
  | Some n => negb (n =? 0)
  | None => false
  end.

Definition truthy_str (x : option string) : bool :=
  match x with
  | Some s => negb (String.eqb s "")
  | None => false
  end.

End Py.

Export Py.

(** ** The [requests] session *)

Module Requests.

(** The final response of a GET: status line and the body as [json()] reads
    it ([None] when the body is not JSON). *)
Record response : Type := {
  status_code : Z;
  reason : string;
  json_body : option json
}.

(** What [session.get] does: it raises (connection refused, time-out, TLS
    failure, all [RequestException]s without a response), or it returns the
    final response. *)
Inductive http_outcome : Type :=
  | NetworkFailure (msg : string)
  | Response (r : response).

(** [Response.raise_for_status]: a 4xx status is a client error, a 5xx
    status a server error, and only these raise.  The [HTTPError] holds the
    response, of which the status code and the reason phrase are kept. *)
Definition raise_for_status (r : response) : result unit :=
  if (400 <=? status_code r) && (status_code r <? 500) then
    Raise (HTTPError (status_code r) (reason r))
  else if (500 <=? status_code r) && (status_code r <? 600) then
    Raise (HTTPError (status_code r) (reason r))
  else Ok tt.

(** [Response.json]. *)
Definition json_of (r : response) : result json :=
  match json_body r with
  | Some j => Ok j
  | None => Raise JSONDecodeError
  end.

End Requests.

Export Requests.

(** ** Data frames *)

Module Frame.

(** A [datetime64[ns]] value. *)
Inductive datetime64 : Type :=
  | Timestamp (ns : Z)
  | NaT.

(** What a cell of a frame holds: a Python object taken from a record, the
    missing-value marker of a record that lacks the column, or a converted
    date. *)
Inductive cell : Type :=
  | Obj (v : json)
  | NaN
  | Datetime (d : datetime64).

(** A frame: its column labels in order, and its rows in order, each with
    its index label and its value in every column. *)
Record DataFrame : Type := {
  columns : list string;
  rows : list (nat * gmap string cell)
}.

(** [pd.DataFrame()]. *)
Definition empty_frame : DataFrame := {| columns := []; rows := [] |}.

(** [df.empty]: some axis has length 0. *)
Definition empty (df : DataFrame) : bool :=
  bool_decide (rows df = []) || bool_decide (columns df = []).

(** The keys of the records in order of first appearance. *)
Definition add_key (acc : list string) (k : string) : list string :=
  if bool_decide (k ∈ acc) then acc else acc ++ [k].

Definition union_keys (records : list (list (string * json))) : list string :=
  foldl (fun acc r => foldl add_key acc r.*1) [] records.

Definition cell_of (o : option json) : cell :=
  match o with
  | Some v => Obj v
  | None => NaN
  end.

Definition row_of (cols : list string) (r : list (string * json)) : gmap string cell :=
  list_to_map ((fun c => (c, cell_of (dict_get c r))) <$> cols).

(** [pd.DataFrame(records)] for a list of [dict]s: one row per record,
    labelled 0, 1, ..., one column per key, [NaN] where a record lacks
    the key.  A cell [Obj v] stands for the value pandas holds for the field
    [v]; the numeric type pandas gives a whole column (an integer becomes a
    float in a column with a missing value) is not represented. *)
Definition DataFrame_records (records : list (list (string * json))) : DataFrame :=
  let cols := union_keys records in
  {| columns := cols;
     rows := imap (fun i r => (i, row_of cols r)) records |}.

(** The records of a list whose items are all [dict]s. *)
Definition as_record (v : json) : option (list (string * json)) :=
  match v with
  | JObj fields => Some fields
  | _ => None
  end.

Definition as_records (items : list json) : option (list (list (string * json))) :=
  mapM as_record items.

(** [kind] of [sort_values]. *)
Inductive sort_kind : Type := quicksort | mergesort | heapsort | stable.

(** [a[ix]] for an index array [ix]. *)
Definition take_indices {A} (a : list A) (ix : list nat) : list A :=
  omap (fun i => a !! i) ix.

(** The sort key of a row in a converted column; [None] is a missing value
    ([NaT]). *)
Definition sort_key (by_ : string) (r : nat * gmap string cell) : option Z :=
  match r.2 !! by_ with
  | Some (Datetime (Timestamp t)) => Some t
  | _ => None
  end.

Definition index (df : DataFrame) : list nat := (rows df).*1.

End Frame.

Export Frame.

(** ** The environment

    What the repository calls and does not define. *)
Record Env : Type := {
  (** [session.get(url, params=params)]. *)
  session_get : string -> list (string * string) -> http_outcome;
  (** [(datetime.now() - timedelta(days=d)).strftime('%Y-%m-%d')], for a
      number of days that keeps the date within the range of [datetime]. *)
  strftime_days_ago : Z -> string;
  (** [pd.to_datetime] on one Python object; [None] when pandas raises. *)
  to_datetime_scalar : json -> option datetime64;
  (** [pd.to_datetime] on one object of a column, given the cells of the
      column: pandas infers one format from the first value of the column
      and reads every value with it, so what a value becomes depends on the
      column it stands in; [None] when pandas raises on the value. *)
  to_datetime_in : list cell -> json -> option datetime64;
  (** [numpy.argsort(keys, kind=kind)]. *)
  argsort : sort_kind -> list Z -> list nat;
  (** [pd.DataFrame(v)] for a payload that is not a list of [dict]s. *)
  DataFrame_other : json -> result DataFrame;
  (** [os.makedirs('data', exist_ok=True); df.to_csv(path, index=False)]. *)
  to_csv : string -> DataFrame -> result unit;
  (** [Timestamp.strftime('%Y-%m-%d')]. *)
  strftime : Z -> string
}.

(** ** The pandas calls of the client *)

Module Pandas.

Section WithEnv.
Context (E : Env).

(** [pd.DataFrame(v)]. *)
Definition pd_DataFrame (v : json) : result DataFrame :=
  match v with
  | JArr items =>
      match as_records items with
      | Some records => Ok (DataFrame_records records)
      | None => DataFrame_other E v
      end
  | _ => DataFrame_other E v
  end.

(** [pd.to_datetime] on one cell taken alone: [None] and a missing value
    give [NaT], any other object is for the parser of the environment. *)
Definition to_datetime_cell (c : cell) : option datetime64 :=
  match c with
  | Obj JNull => Some NaT
  | Obj v => to_datetime_scalar E v
  | NaN => Some NaT
  | Datetime d => Some d
  end.

(** The same on a cell of the column [series]. *)
Definition to_datetime_cell_in (series : list cell) (c : cell) : option datetime64 :=
  match c with
  | Obj JNull => Some NaT
  | Obj v => to_datetime_in E series v
  | NaN => Some NaT
  | Datetime d => Some d
  end.

Definition convert_row (col : string) (r : nat * gmap string cell)
  : option (nat * gmap string cell) :=
  c ← r.2 !! col;
  d ← to_datetime_cell c;
  Some (r.1, <[col := Datetime d]> r.2).

Definition convert_row_in (series : list cell) (col : string) (r : nat * gmap string cell)
  : option (nat * gmap string cell) :=
  c ← r.2 !! col;
  d ← to_datetime_cell_in series c;
  Some (r.1, <[col := Datetime d]> r.2).

(** [df[col] = pd.to_datetime(df[col])] with the default [errors='raise'].
    The column is converted as a whole.  A cell that pandas refuses when it
    is taken alone is refused in every column, and raises for the whole
    column.  When no cell is refused alone, every cell is read within the
    column, under the one format pandas infers for it, and a cell that does
    not fit raises for the whole column as well: dates that parse one by
    one need not parse together.  [ValueError] stands for the error pandas
    raises ([ValueError] or one of its subclasses for a string that does
    not parse). *)
Definition to_datetime_column (col : string) (df : DataFrame) : result DataFrame :=
  let series := (fun r => default NaN (r.2 !! col)) <$> rows df in
  match mapM (convert_row col) (rows df) with
  | None => Raise ValueError
  | Some _ =>
      match mapM (convert_row_in series col) (rows df) with
      | Some rows' => Ok {| columns := columns df; rows := rows' |}
      | None => Raise ValueError
      end
  end.

(** [df.sort_values(by, kind=kind)] on a converted column, ascending, with
    [na_position='last']: the rows with a date are reordered by the
    permutation [argsort] returns for their dates, the rows without follow
    in their order. *)
Definition sort_values (by_ : string) (kind : sort_kind) (df : DataFrame) : DataFrame :=
  let dated := filter (fun r => is_Some (sort_key by_ r)) (rows df) in
  let missing := filter (fun r => ¬ is_Some (sort_key by_ r)) (rows df) in
  let indexer := argsort E kind (omap (sort_key by_) dated) in
  {| columns := columns df; rows := take_indices dated indexer ++ missing |}.

End WithEnv.

End Pandas.

Export Pandas.

(** ** [bcra_api_client.py]: class [BCRAClient] *)

Module BCRAClient.

Definition BASE_URL : string := "https://api.bcra.gob.ar/estadisticas/v4.0".

(** [f"{id_variable}"]. *)
Definition format_int (x : option Z) : string :=
  match x with
  | Some n => pretty n
  | None => "None"
  end.

(** [a and b], where evaluating [b] may raise. *)
Definition and_then (a : bool) (b : result bool) : result bool :=
  if a then b else Ok false.

(** [len(results) > 0] and [results[0]], both evaluated only once
    [isinstance(results, list)] holds. *)
Definition len_positive (results : json) : bool :=
  match results with
  | JArr (_ :: _) => true
  | _ => false
  end.

Definition item0 (results : json) : result json :=
  match results with
  | JArr (first :: _) => Ok first
  | _ => Raise TypeError
  end.

(** [isinstance(results, list) and len(results) > 0 and 'detalle' in results[0]]. *)
Definition first_has_detalle (results : json) : result bool :=
  and_then (isinstance_list results)
    (and_then (len_positive results)
       (first ← item0 results; contains "detalle" first)).

(** A line written to standard output. *)
Inductive line : Type :=
  | ErrorAlObtenerVariable (id_var : Z) (e : exn)
  | Consultando (nombre : string) (id_var : Z)
  | SinDatosPara (nombre : string)
  | Error (e : exn).

Section WithEnv.
Context (E : Env).

(** [self.session.get(url, params=params)]. *)
Definition get (url : string) (params : list (string * string)) : result response :=
  match session_get E url params with
  | NetworkFailure msg => Raise (ConnectionError msg)
  | Response r => Ok r
  end.

Definition metodologia_url (id_variable : option Z) : string :=
  if truthy_int id_variable then BASE_URL +:+ "/Metodologia/" +:+ format_int id_variable
  else BASE_URL +:+ "/Metodologia".

Definition get_metodologia (id_variable : option Z) : result json :=
  let url := metodologia_url id_variable in
  response ← get url [];
  _ ← raise_for_status response;
  json_of response.

Definition monetarias_url (id_variable : option Z) : string :=
  if truthy_int id_variable then BASE_URL +:+ "/Monetarias/" +:+ format_int id_variable
  else BASE_URL +:+ "/Monetarias".

Definition monetarias_params (desde hasta : option string) : list (string * string) :=
  (if truthy_str desde then [("desde", default "" desde)] else [])
  ++ (if truthy_str hasta then [("hasta", default "" hasta)] else []).

Definition get_variables_monetarias (id_variable : option Z) (desde hasta : option string)
  : result json :=
  let url := monetarias_url id_variable in
  let params := monetarias_params desde hasta in
  response ← get url params;
  _ ← raise_for_status response;
  json_of response.

Definition has_column (col : string) (df : DataFrame) : bool :=
  bool_decide (col ∈ columns df).

Definition get_datos_variable (id_variable dias_atras : Z) : result DataFrame :=
  let fecha_hasta := strftime_days_ago E 0 in
  let fecha_desde := strftime_days_ago E dias_atras in
  data ← get_variables_monetarias (Some id_variable) (Some fecha_desde) (Some fecha_hasta);
  has_results ← contains "results" data;
  if (has_results : bool) then
    results ← getitem data "results";
    in_dict ← and_then (isinstance_dict results) (contains "detalle" results);
    df ← (if (in_dict : bool) then
            detalle ← getitem results "detalle";
            pd_DataFrame E detalle
          else
            in_first ← first_has_detalle results;
            if (in_first : bool) then
              first ← item0 results;
              detalle ← getitem first "detalle";
              pd_DataFrame E detalle
            else pd_DataFrame E results);
    if negb (empty df) && has_column "fecha" df then
      df ← to_datetime_column E "fecha" df;
      Ok (sort_values E "fecha" quicksort df)
    else Ok df
  else Ok empty_frame.

(** The two halves of [get_datos_variable] after the call to the API, as the
    specification names them.  [normalize] is the choice of the payload
    (lines 115-123 without the calls to [pd.DataFrame]); where the source
    returns [pd.DataFrame()] the payload is the empty list.  [build] is the
    construction of the frame, the conversion of the dates and the sort
    (lines 119-127). *)
Definition normalize (data : json) : result json :=
  has_results ← contains "results" data;
  if (has_results : bool) then
    results ← getitem data "results";
    in_dict ← and_then (isinstance_dict results) (contains "detalle" results);
    if (in_dict : bool) then getitem results "detalle"
    else
      in_first ← first_has_detalle results;
      if (in_first : bool) then
        first ← item0 results;
        getitem first "detalle"
      else Ok results
  else Ok (JArr []).

Definition build (payload : json) : result DataFrame :=
  df ← pd_DataFrame E payload;
  if negb (empty df) && has_column "fecha" df then
    df ← to_datetime_column E "fecha" df;
    Ok (sort_values E "fecha" quicksort df)
  else Ok df.

(** The loop of [get_multiple_variables]: the dictionary built so far and
    the lines printed so far. *)
Fixpoint get_multiple_variables_loop (ids_variables : list Z) (dias_atras : Z)
    (resultados : gmap Z DataFrame) (out : list line)
  : result (gmap Z DataFrame * list line) :=
  match ids_variables with
  | [] => Ok (resultados, out)
  | id_var :: rest =>
      st ← try_except (A := gmap Z DataFrame * list line)
             (df ← get_datos_variable id_var dias_atras;
              Ok (<[id_var := df]> resultados, out))
             (fun e =>
                Ok (<[id_var := empty_frame]> resultados,
                    out ++ [ErrorAlObtenerVariable id_var e]));
      get_multiple_variables_loop rest dias_atras st.1 st.2
  end.

(** The dictionary returned, and what was printed. *)
Definition get_multiple_variables (ids_variables : list Z) (dias_atras : Z)
  : result (gmap Z DataFrame * list line) :=
  get_multiple_variables_loop ids_variables dias_atras ∅ [].

End WithEnv.

End BCRAClient.

Export BCRAClient.

(** ** [generate_dashboard.py]: [fetch_datos] *)

Module Dashboard.

Record info : Type := {
  nombre : string;
  unidad : string;
  archivo : string
}.

Definition VARIABLES : list (Z * info) :=
  [ (1, {| nombre := "Reservas Internacionales"; unidad := "USD millones"; archivo := "reservas" |});
    (4, {| nombre := "Tipo de Cambio (B 9791)"; unidad := "ARS/USD"; archivo := "tipo_cambio_oficial" |});
    (5, {| nombre := "TC Referencia (A 3500)"; unidad := "ARS/USD"; archivo := "tipo_cambio_referencia" |});
    (12, {| nombre := "Tasa Plazo Fijo"; unidad := "% TNA"; archivo := "tasa_plazo_fijo" |});
    (15, {| nombre := "Base Monetaria"; unidad := "millones ARS"; archivo := "base_monetaria" |}) ].

Definition DIAS_ATRAS : Z := 90.

(** An entry of the report input: [{nombre, unidad, fechas, valores, ultimo}]. *)
Record entry : Type := {
  entry_nombre : string;
  entry_unidad : string;
  fechas : list (option string);
  valores : list cell;
  ultimo : option cell
}.

(** [df[col]]. *)
Definition column (col : string) (df : DataFrame) : result (list cell) :=
  if bool_decide (col ∈ columns df) then Ok ((fun r => default NaN (r.2 !! col)) <$> rows df)
  else Raise (KeyError col).

Section WithEnv.
Context (E : Env).

(** [series.dt.strftime("%Y-%m-%d").tolist()]: the accessor exists on a
    column of dates only; a missing date gives a missing string. *)
Definition strftime_cell (c : cell) : option (option string) :=
  match c with
  | Datetime (Timestamp t) => Some (Some (strftime E t))
  | Datetime NaT => Some None
  | _ => None
  end.

Definition dt_strftime (series : list cell) : result (list (option string)) :=
  match mapM strftime_cell series with
  | Some l => Ok l
  | None => Raise AttributeError
  end.

(** The body of the [try] of [fetch_datos] for one variable. *)
Definition fetch_one (id_var : Z) (i : info) (datos : gmap Z entry) (out : list line)
  : result (gmap Z entry * list line) :=
  df ← get_datos_variable E id_var DIAS_ATRAS;
  if negb (empty df) then
    _ ← to_csv E ("data/" +:+ archivo i +:+ ".csv") df;
    fecha ← column "fecha" df;
    fechas ← dt_strftime fecha;
    valores ← column "valor" df;
    let ultimo := last valores in
    Ok (<[id_var := {| entry_nombre := nombre i; entry_unidad := unidad i;
                       fechas := fechas; valores := valores; ultimo := ultimo |}]> datos,
        out)
  else Ok (datos, out ++ [SinDatosPara (nombre i)]).

Fixpoint fetch_datos_loop (variables : list (Z * info)) (datos : gmap Z entry) (out : list line)
  : result (gmap Z entry * list line) :=
  match variables with
  | [] => Ok (datos, out)
  | (id_var, i) :: rest =>
      let out := out ++ [Consultando (nombre i) id_var] in
      st ← try_except (A := gmap Z entry * list line) (fetch_one id_var i datos out)
                      (fun e => Ok (datos, out ++ [Error e]));
      fetch_datos_loop rest st.1 st.2
  end.

Definition fetch_datos : result (gmap Z entry * list line) :=
  fetch_datos_loop VARIABLES ∅ [].

End WithEnv.

End Dashboard.

Export Dashboard.

(** ** [bcra_api_client.py]: [listar_variables] *)

Module Listing.

(** The columns [listar_variables] keeps, in the order it asks for them. *)
Definition COLUMNAS : list string := ["idVariable"; "descripcion"; "nombreCorto"].

(** [df[cols]] for a list of labels: the frame of those columns, in the
    order of the list, with the rows and their labels as they are; a label
    that is not a column raises [KeyError]. *)
Definition select_columns (cols : list string) (df : DataFrame) : result DataFrame :=
  match filter (fun c => c ∉ columns df) cols with
  | [] =>
      Ok {| columns := cols;
            rows := (fun r => (r.1, filter (fun kv => kv.1 ∈ cols) r.2)) <$> rows df |}
  | c :: _ => Raise (KeyError c)
  end.

Section WithEnv.
Context (E : Env).

Definition listar_variables : result DataFrame :=
  data ← get_metodologia E None;
  has_results ← contains "results" data;
  if (has_results : bool) then
    results ← getitem data "results";
    df ← pd_DataFrame E results;
    if negb (empty df) then
      let cols_disponibles := filter (fun c => c ∈ columns df) COLUMNAS in
      if bool_decide (cols_disponibles ≠ []) then select_columns cols_disponibles df
      else Ok df
    else Ok empty_frame
  else Ok empty_frame.

End WithEnv.

End Listing.

Export Listing.

(** ** [generate_dashboard.py]: [main] *)

Module Generate.

(** What [main] has done when it returns: it has called [generar_html] on
    the mapping, or it has printed that there are no data and written
    nothing. *)
Inductive action : Type :=
  | GenerarHtml (datos : gmap Z entry)
  | NoSeObtuvieronDatos.

Section WithEnv.
Context (E : Env).

(** [generar_html] (lines 67-229) formats the values and writes
    [index.html]; both can raise.  [main] is written for any such function
    of the mapping: it only decides whether to call it. *)
Context (generar_html : gmap Z entry -> result unit).

(** [main]; [if datos:] is the test that the dictionary is not empty, and
    there is no handler around the call of [generar_html]. *)
Definition main : result (action * list line) :=
  st ← fetch_datos E;
  if bool_decide (st.1 ≠ ∅) then
    _ ← generar_html st.1;
    Ok (GenerarHtml st.1, st.2)
  else Ok (NoSeObtuvieronDatos, st.2).

End WithEnv.

End Generate.

Export Generate.

(** ** What the specification says, in its words *)

Module Spec.

(** The resolution order of the Response Normalizer (section 4.2), on an
    envelope given by its top-level fields: no [results], the empty list;
    [results] a mapping containing [detalle], that nested value; [results] a
    non-empty list whose first element is a mapping containing [detalle],
    that nested value; otherwise [results] itself. *)
Definition normalize_spec (envelope : list (string * json)) : json :=
  match dict_get "results" envelope with
  | None => JArr []
  | Some results =>
      match results with
      | JObj fields =>
          match dict_get "detalle" fields with
          | Some detalle => detalle
          | None => results
          end
      | JArr (JObj fields :: _) =>
          match dict_get "detalle" fields with
          | Some detalle => detalle
          | None => results
          end
      | _ => results
      end
  end.

(** The first element of a list under [results] is one on which the test
    ['detalle' in results[0]] and the indexing that follows it are defined:
    a mapping, or a list or a string in which [in] finds no ['detalle']. *)
Definition probe_ok (first : json) : bool :=
  match first with
  | JObj _ => true
  | JArr items => negb (existsb (is_str "detalle") items)
  | JStr s => negb (bool_decide (is_Some (String.index 0 "detalle" s)))
  | _ => false
  end.

Definition first_probe_ok (envelope : list (string * json)) : bool :=
  match dict_get "results" envelope with
  | Some (JArr (first :: _)) => probe_ok first
  | _ => true
  end.

(** The three envelope shapes of section 4.2 for one list of records. *)
Definition records_json (records : list (list (string * json))) : json :=
  JArr (JObj <$> records).

Definition flat_envelope (records : list (list (string * json))) : json :=
  JObj [("results", records_json records)].

Definition mapping_envelope (records : list (list (string * json))) : json :=
  JObj [("results", JObj [("detalle", records_json records)])].

Definition singleton_envelope (records : list (list (string * json))) : json :=
  JObj [("results", JArr [JObj [("detalle", records_json records)]])].

(** The first record, if any, has no field named [detalle]. *)
Definition head_lacks_detalle (records : list (list (string * json))) : Prop :=
  match records with
  | [] => True
  | r :: _ => dict_get "detalle" r = None
  end.

(** A record whose [fecha], taken alone, pandas converts to a date. *)
Definition parsable (E : Env) (r : list (string * json)) : Prop :=
  ∃ v t, dict_get "fecha" r = Some v ∧ to_datetime_cell E (Obj v) = Some (Timestamp t).

(** A record whose [fecha] pandas refuses. *)
Definition unparsable (E : Env) (r : list (string * json)) : Prop :=
  ∃ v, dict_get "fecha" r = Some v ∧ to_datetime_cell E (Obj v) = None.

(** What [numpy.argsort] promises, for every [kind], of its result on an
    array of keys: a permutation of the positions that puts the keys in
    non-decreasing order. *)
Definition sorts_keys (f : list Z -> list nat) (keys : list Z) : Prop :=
  f keys ≡ₚ seq 0 (length keys) ∧ Sorted Z.le (take_indices keys (f keys)).

#[global] Instance sorts_keys_dec f keys : Decision (sorts_keys f keys).
Proof. unfold sorts_keys. apply _. Defined.

Definition argsort_sorts (f : list Z -> list nat) : Prop :=
  ∀ keys, sorts_keys f keys.

(** The dates of a frame, row by row. *)
Definition dates (df : DataFrame) : list (option Z) :=
  sort_key "fecha" <$> rows df.

(** The keys [sort_values] hands to [argsort]: the dates of the rows that
    have one, in the order of the rows. *)
Definition date_keys (df : DataFrame) : list Z :=
  omap (sort_key "fecha") (rows df).

(** Every row of the frame has a date: no [NaT]. *)
Definition all_dated (df : DataFrame) : Prop :=
  Forall (fun row => is_Some (sort_key "fecha" row)) (rows df).

(** Every row of the frame is the row of the record of its label, with a
    date in place of its [fecha]. *)
Definition rows_of_records (records : list (list (string * json))) (df : DataFrame) : Prop :=
  Forall (fun row => ∃ r d, records !! row.1 = Some r
                        ∧ row.2 = <["fecha" := Datetime d]> (row_of (union_keys records) r))
         (rows df).

(** Rows with equal dates stand in the order of their index labels, which
    is the order of the records they come from. *)
Definition stable_order (df : DataFrame) : Prop :=
  ∀ i j ri rj,
    (i < j)%nat -> rows df !! i = Some ri -> rows df !! j = Some rj ->
    sort_key "fecha" ri = sort_key "fecha" rj -> (ri.1 < rj.1)%nat.


(** The entry of the Result Map for one outcome of [get_datos_variable]. *)
Definition frame_or_empty (outcome : result DataFrame) : DataFrame :=
  match outcome with
  | Ok df => df
  | Raise _ => empty_frame
  end.

End Spec.

Export Spec.

(** ** The sort of numpy

    [numpy.argsort(keys)] with the default [kind='quicksort'], on keys
    without missing value, as numpy's [aquicksort] runs it: an introsort on
    the array [tosort] of positions, which starts as 0, 1, ..., n-1.  A
    range of more than 17 positions is partitioned around the median of its
    first, middle and last key, the larger part is put on a stack and the
    smaller one is partitioned on; a range of at most 17 positions is
    sorted by insertion; when the depth budget is spent a range is sorted
    as a heap.  Pointers into [tosort] are positions, of type [Z]; every
    loop has a bound that the length of the array covers. *)

Module Numpy.

Definition SMALL_QUICKSORT : Z := 16.

(** [npy_get_msb]: the position of the highest bit set. *)
Definition npy_get_msb (unum : Z) : Z := Z.log2 unum.

Section WithKeys.
Context (v : list Z).

(** [v[i]], [*p], [v[*p]], the store [*p = x] and the swap of [*p] and [*q]. *)
Definition value (i : nat) : Z := default 0 (v !! i).

Definition at_ (a : list nat) (p : Z) : nat := default 0%nat (a !! Z.to_nat p).

Definition key (a : list nat) (p : Z) : Z := value (at_ a p).

Definition put (a : list nat) (p : Z) (x : nat) : list nat := <[Z.to_nat p := x]> a.

Definition INTP_SWAP (a : list nat) (p q : Z) : list nat :=
  put (put a p (at_ a q)) q (at_ a p).

(** [do { ++pi; } while (v[*pi] < vp);] *)
Fixpoint scan_up (fuel : nat) (a : list nat) (pi vp : Z) : Z :=
  match fuel with
  | O => pi
  | S fuel => if key a (pi + 1) <? vp then scan_up fuel a (pi + 1) vp else pi + 1
  end.

(** [do { --pj; } while (vp < v[*pj]);] *)
Fixpoint scan_down (fuel : nat) (a : list nat) (pj vp : Z) : Z :=
  match fuel with
  | O => pj
  | S fuel => if vp <? key a (pj - 1) then scan_down fuel a (pj - 1) vp else pj - 1
  end.

(** [for (;;) { scan up; scan down; if (pi >= pj) break; swap; }] *)
Fixpoint partition (fuel : nat) (a : list nat) (pi pj vp : Z) : list nat * Z :=
  match fuel with
  | O => (a, pi)
  | S fuel =>
      let pi := scan_up (length a) a pi vp in
      let pj := scan_down (length a) a pj vp in
      if pj <=? pi then (a, pi) else partition fuel (INTP_SWAP a pi pj) pi pj vp
  end.

(** The body of [while ((pr - pl) > SMALL_QUICKSORT) { ... }] up to the
    push: the median of the first, middle and last key goes to [pr - 1],
    the range is partitioned around it, and it is put in its place, [pi]. *)
Definition split (a : list nat) (pl pr : Z) : list nat * Z :=
  let pm := pl + Z.shiftr (pr - pl) 1 in
  let a := if key a pm <? key a pl then INTP_SWAP a pm pl else a in
  let a := if key a pr <? key a pm then INTP_SWAP a pr pm else a in
  let a := if key a pm <? key a pl then INTP_SWAP a pm pl else a in
  let vp := key a pm in
  let a := INTP_SWAP a pm (pr - 1) in
  let '(a, pi) := partition (length a) a pl (pr - 1) vp in
  (INTP_SWAP a pi (pr - 1), pi).

(** [while ((pr - pl) > SMALL_QUICKSORT) { ... }]: the larger part is pushed
    on the stack with the depth left, the loop goes on with the smaller. *)
Fixpoint quick (fuel : nat) (a : list nat) (pl pr cdepth : Z) (stack : list (Z * Z * Z))
  : list nat * Z * Z * list (Z * Z * Z) :=
  match fuel with
  | O => (a, pl, pr, stack)
  | S fuel =>
      if SMALL_QUICKSORT <? pr - pl then
        let '(a, pi) := split a pl pr in
        if pi - pl <? pr - pi
        then quick fuel a pl (pi - 1) (cdepth - 1) ((pi + 1, pr, cdepth - 1) :: stack)
        else quick fuel a (pi + 1) pr (cdepth - 1) ((pl, pi - 1, cdepth - 1) :: stack)
      else (a, pl, pr, stack)
  end.

(** [while (pj > pl && vp < v[*pk]) { *pj-- = *pk--; }] *)
Fixpoint shift (fuel : nat) (a : list nat) (pl pj vp : Z) : list nat * Z :=
  match fuel with
  | O => (a, pj)
  | S fuel =>
      if (pl <? pj) && (vp <? key a (pj - 1))
      then shift fuel (put a pj (at_ a (pj - 1))) pl (pj - 1) vp
      else (a, pj)
  end.

(** [for (pi = pl + 1; pi <= pr; ++pi) { vi = *pi; ...; *pj = vi; }] *)
Fixpoint insertion (fuel : nat) (a : list nat) (pl pi pr : Z) : list nat :=
  match fuel with
  | O => a
  | S fuel =>
      if pi <=? pr then
        let vi := at_ a pi in
        let '(a', pj) := shift (length a) a pl pi (value vi) in
        insertion fuel (put a' pj vi) pl (pi + 1) pr
      else a
  end.

(** [aheapsort]: [a = tosort - 1], so the range is [a[1]], ..., [a[n]].
    The inner loop of both phases,
    [for (i, j; j <= n;) { ... } a[i] = tmp;]. *)
Fixpoint sift (fuel : nat) (a : list nat) (base n : Z) (tmp : nat) (i j : Z) : list nat :=
  match fuel with
  | O => put a (base + i) tmp
  | S fuel =>
      if j <=? n then
        let j := if (j <? n) && (key a (base + j) <? key a (base + j + 1)) then j + 1 else j in
        if value tmp <? key a (base + j)
        then sift fuel (put a (base + i) (at_ a (base + j))) base n tmp j (j + j)
        else put a (base + i) tmp
      else put a (base + i) tmp
  end.

(** [for (l = n >> 1; l > 0; --l) { tmp = a[l]; ... }] *)
Fixpoint heapify (fuel : nat) (a : list nat) (base n l : Z) : list nat :=
  match fuel with
  | O => a
  | S fuel =>
      if 0 <? l
      then heapify fuel (sift (length a) a base n (at_ a (base + l)) l (Z.shiftl l 1))
             base n (l - 1)
      else a
  end.

(** [for (; n > 1;) { tmp = a[n]; a[n] = a[1]; n -= 1; ... }] *)
Fixpoint extract (fuel : nat) (a : list nat) (base n : Z) : list nat :=
  match fuel with
  | O => a
  | S fuel =>
      if 1 <? n then
        let tmp := at_ a (base + n) in
        let a := put a (base + n) (at_ a (base + 1)) in
        extract fuel (sift (length a) a base (n - 1) tmp 1 2) base (n - 1)
      else a
  end.

Definition aheapsort (a : list nat) (tosort n : Z) : list nat :=
  let base := tosort - 1 in
  extract (length a) (heapify (length a) a base n (Z.shiftr n 1)) base n.

(** The outer loop: one range at a time, until the stack is empty. *)
Fixpoint run (fuel : nat) (a : list nat) (pl pr cdepth : Z) (stack : list (Z * Z * Z))
  : list nat :=
  match fuel with
  | O => a
  | S fuel =>
      let '(a, stack) :=
        if cdepth <? 0 then (aheapsort a pl (pr - pl + 1), stack)
        else
          let '(a, pl, pr, stack) := quick (length a) a pl pr cdepth stack in
          (insertion (length a) a pl (pl + 1) pr, stack) in
      match stack with
      | [] => a
      | (pl, pr, cdepth) :: stack => run fuel a pl pr cdepth stack
      end
  end.

Definition aquicksort : list nat :=
  let num := Z.of_nat (length v) in
  run (S (length v)) (seq 0 (length v)) 0 (num - 1) (npy_get_msb num * 2) [].

End WithKeys.

End Numpy.

(** ** What the loops of the sort keep

    The notions in which the correctness of [Numpy.aquicksort] is stated,
    loop by loop. *)

Module Introsort.

Import Numpy.

Section WithKeys.
Context (v : list Z).

(** [a'] is [a] reordered between [lo] and [hi]. *)
Definition reordered (a a' : list nat) (lo hi : Z) : Prop :=
  length a' = length a
  ∧ a' ≡ₚ a
  ∧ ∀ p, 0 ≤ p -> p < lo ∨ hi < p -> at_ a' p = at_ a p.

(** The keys are in non-decreasing order from [lo] to [hi]. *)
Definition sorted_on (a : list nat) (lo hi : Z) : Prop :=
  ∀ p q, lo ≤ p -> p ≤ q -> q ≤ hi -> key v a p ≤ key v a q.

(** The inner loop, for the element [vi] taken at [pi] from an array [a0]:
    the hole moves down from [pi], the keys above it are greater than the
    key of [vi]. *)
Definition shifted (a0 : list nat) (pl pi : Z) (vi : nat) (a : list nat) (pj : Z) : Prop :=
  length a = length a0
  ∧ pl ≤ pj ≤ pi
  ∧ put a pj vi ≡ₚ a0
  ∧ (∀ p, 0 ≤ p -> p < pj ∨ pi < p -> at_ a p = at_ a0 p)
  ∧ (∀ p, pj < p ≤ pi -> at_ a p = at_ a0 (p - 1) ∧ value v vi < key v a p).

(** The loop of the partition of the range from [pl] to [pr] around the
    key [vp], which stands at [pr - 1]. *)
Definition partitioning (pl pr vp : Z) (a : list nat) (pi pj : Z) : Prop :=
  pl ≤ pi ∧ pi < pj ∧ pj ≤ pr - 1
  ∧ (∀ p, pl ≤ p ≤ pi -> key v a p ≤ vp)
  ∧ (∀ p, pj ≤ p ≤ pr -> vp ≤ key v a p)
  ∧ key v a (pr - 1) = vp.

Definition child (c k : Z) : Prop := c = 2 * k ∨ c = 2 * k + 1.

(** The range is a heap from the node [l] on: no child has a greater key
    than its parent. *)
Definition heap_from (base n l : Z) (a : list nat) : Prop :=
  ∀ k c, l ≤ k -> child c k -> c ≤ n -> key v a (base + c) ≤ key v a (base + k).

(** The same but for the node [i], where the hole is. *)
Definition heap_except (base n l : Z) (a : list nat) (i : Z) : Prop :=
  ∀ k c, l ≤ k -> k ≠ i -> child c k -> c ≤ n -> key v a (base + c) ≤ key v a (base + k).

(** The element to place, and the children of the hole, fit under the
    parent of the hole. *)
Definition hole_fits (base n l : Z) (tmp : nat) (a : list nat) (i : Z) : Prop :=
  l < i ->
  ∃ pa, l ≤ pa ∧ child i pa
        ∧ value v tmp ≤ key v a (base + pa)
        ∧ ∀ c, child c i -> c ≤ n -> key v a (base + c) ≤ key v a (base + pa).

Definition lo (r : Z * Z * Z) : Z := r.1.1.

Definition hi (r : Z * Z * Z) : Z := r.1.2.

Definition inside (r : Z * Z * Z) (p : Z) : Prop := lo r ≤ p ≤ hi r.

Definition well_formed (n : Z) (r : Z * Z * Z) : Prop :=
  0 ≤ lo r ∧ hi r < n ∧ lo r ≤ hi r + 1.

Definition apart (r1 r2 : Z * Z * Z) : Prop := hi r1 < lo r2 ∨ hi r2 < lo r1.

Fixpoint separated (rs : list (Z * Z * Z)) : Prop :=
  match rs with
  | [] => True
  | r :: rs => Forall (apart r) rs ∧ separated rs
  end.

(** Two positions that no range holds together are in order. *)
Definition ordered_across (a : list nat) (rs : list (Z * Z * Z)) : Prop :=
  ∀ p q, 0 ≤ p -> p < q -> q < Z.of_nat (length a) ->
         (∀ r, r ∈ rs -> ¬ (inside r p ∧ inside r q)) ->
         key v a p ≤ key v a q.

(** The state of the sort: the array is the initial one reordered, and
    what is out of order lies within the ranges, the current one and those
    of the stack. *)
Definition pending (a0 a : list nat) (rs : list (Z * Z * Z)) : Prop :=
  length a = length a0
  ∧ a ≡ₚ a0
  ∧ Forall (well_formed (Z.of_nat (length a0))) rs
  ∧ separated rs
  ∧ ordered_across a rs.

(** The passes of the outer loop that the ranges can still take. *)
Definition weight (r : Z * Z * Z) : nat := Z.to_nat (Z.max 1 (hi r - lo r + 1)).

Definition budget (rs : list (Z * Z * Z)) : nat := sum_list (weight <$> rs).

End WithKeys.

End Introsort.

(** ** Concrete environments

    Instances of [Env] on which the theorems can be run: ISO dates, the
    sort of numpy, a file system that accepts every write. *)

Module Demo.

Definition digit (c : Ascii.ascii) : option Z :=
  let n := Z.of_nat (Ascii.nat_of_ascii c) in
  if (48 <=? n) && (n <=? 57) then Some (n - 48) else None.

Fixpoint number (acc : Z) (cs : list Ascii.ascii) : option Z :=
  match cs with
  | [] => Some acc
  | c :: cs' => d ← digit c; number (10 * acc + d) cs'
  end.

Definition is_leap (y : Z) : bool :=
  (y mod 4 =? 0) && (negb (y mod 100 =? 0) || (y mod 400 =? 0)).

Definition days_in_month (y m : Z) : Z :=
  if m =? 2 then (if is_leap y then 29 else 28)
  else if (m =? 4) || (m =? 6) || (m =? 9) || (m =? 11) then 30
  else 31.

(** Days since 1970-01-01 of a date of the proleptic Gregorian calendar. *)
Definition days_from_civil (y m d : Z) : Z :=
  let y' := if m <=? 2 then y - 1 else y in
  let era := y' / 400 in
  let yoe := y' - era * 400 in
  let doy := (153 * (if 2 <? m then m - 3 else m + 9) + 2) / 5 + d - 1 in
  let doe := yoe * 365 + yoe / 4 - yoe / 100 + doy in
  era * 146097 + doe - 719468.

Definition is_dash (c : Ascii.ascii) : bool :=
  Z.of_nat (Ascii.nat_of_ascii c) =? 45.

(** [YYYY-MM-DD] to nanoseconds since the epoch. *)
Definition parse_iso_date (s : string) : option datetime64 :=
  match String.list_ascii_of_string s with
  | [y1; y2; y3; y4; s1; m1; m2; s2; d1; d2] =>
      if is_dash s1 && is_dash s2 then
        y ← number 0 [y1; y2; y3; y4];
        m ← number 0 [m1; m2];
        d ← number 0 [d1; d2];
        if (1 <=? m) && (m <=? 12) && (1 <=? d) && (d <=? days_in_month y m)
        then Some (Timestamp (days_from_civil y m d * 86400000000000))
        else None
      else None
  | _ => None
  end.

Definition iso_to_datetime (v : json) : option datetime64 :=
  match v with
  | JStr s => parse_iso_date s
  | _ => None
  end.

Definition is_slash (c : Ascii.ascii) : bool :=
  Z.of_nat (Ascii.nat_of_ascii c) =? 47.

(** [MM/DD/YYYY] to nanoseconds since the epoch. *)
Definition parse_mdy_date (s : string) : option datetime64 :=
  match String.list_ascii_of_string s with
  | [m1; m2; s1; d1; d2; s2; y1; y2; y3; y4] =>
      if is_slash s1 && is_slash s2 then
        y ← number 0 [y1; y2; y3; y4];
        m ← number 0 [m1; m2];
        d ← number 0 [d1; d2];
        if (1 <=? m) && (m <=? 12) && (1 <=? d) && (d <=? days_in_month y m)
        then Some (Timestamp (days_from_civil y m d * 86400000000000))
        else None
      else None
  | _ => None
  end.

(** The two formats of the second environment, [%Y-%m-%d] and [%m/%d/%Y]. *)
Inductive date_format : Type := year_first | month_first.

Definition parse_as (f : date_format) (s : string) : option datetime64 :=
  match f with
  | year_first => parse_iso_date s
  | month_first => parse_mdy_date s
  end.

Definition guess_format (s : string) : option date_format :=
  match parse_iso_date s, parse_mdy_date s with
  | Some _, _ => Some year_first
  | None, Some _ => Some month_first
  | None, None => None
  end.

(** A value alone: read in the format it is written in. *)
Definition guessed_to_datetime (v : json) : option datetime64 :=
  match v with
  | JStr s => f ← guess_format s; parse_as f s
  | _ => None
  end.

(** The format of a column: that of its first value that is not missing. *)
Fixpoint column_format (series : list cell) : option date_format :=
  match series with
  | [] => None
  | Obj JNull :: rest | NaN :: rest => column_format rest
  | Obj (JStr s) :: _ => guess_format s
  | _ :: _ => None
  end.

(** A value within a column: read in the format of the column. *)
Definition inferred_to_datetime (series : list cell) (v : json) : option datetime64 :=
  match v with
  | JStr s => f ← column_format series; parse_as f s
  | _ => None
  end.

Definition env (server : string -> list (string * string) -> http_outcome)
    (sorter : list Z -> list nat) : Env :=
  {| session_get := server;
     strftime_days_ago := fun d => if d =? 0 then "2024-03-31" else "2024-01-01";
     to_datetime_scalar := iso_to_datetime;
     to_datetime_in := fun _ => iso_to_datetime;
     argsort := fun _ => sorter;
     DataFrame_other := fun _ => Raise ValueError;
     to_csv := fun _ _ => Ok tt;
     strftime := fun t => pretty t |}.

(** A server that answers every request with the same response. *)
Definition always (r : response) : string -> list (string * string) -> http_outcome :=
  fun _ _ => Response r.

Definition ok_response (body : json) : response :=
  {| status_code := 200; reason := "OK"; json_body := Some body |}.


Definition server_error : response :=
  {| status_code := 500; reason := "Internal Server Error"; json_body := None |}.

Definition record (fecha : string) (valor : Z) : list (string * json) :=
  [("fecha", JStr fecha); ("valor", JInt valor)].

(** Eighteen records of one and the same day, valued 0 to 17. *)
Definition same_day_records : list (list (string * json)) :=
  (fun n => record "2024-01-02" (Z.of_nat n)) <$> seq 0 18.

(** [DD] for a day of the month. *)
Definition two_digits (d : Z) : string :=
  if d <? 10 then "0" +:+ pretty d else pretty d.

(** Twenty records of January 2024, one per day from the 1st to the 20th,
    out of order: the record [n] is of the day [7 n mod 20 + 1]. *)
Definition january_records : list (list (string * json)) :=
  (fun n => record ("2024-01-" +:+ two_digits ((7 * Z.of_nat n) mod 20 + 1)) (Z.of_nat n))
    <$> seq 0 20.

(** A server on which identifier 4 fails with status 500, and every other
    request gets two records, the later one first. *)
Definition server_failing_on_4 : string -> list (string * string) -> http_outcome :=
  fun url _ =>
    if String.eqb url (BASE_URL +:+ "/Monetarias/4") then Response server_error
    else Response (ok_response
                     (mapping_envelope [record "2024-01-02" 5; record "2024-01-01" 3])).

(** A server on which identifier 4 gets a record whose date is not one. *)
Definition server_bad_date_on_4 : string -> list (string * string) -> http_outcome :=
  fun url _ =>
    if String.eqb url (BASE_URL +:+ "/Monetarias/4")
    then Response (ok_response (flat_envelope [record "2024-01-02" 5; record "sin fecha" 3]))
    else Response (ok_response
                     (mapping_envelope [record "2024-01-02" 5; record "2024-01-01" 3])).

(** A server that answers at the two collection URLs, each with its own
    body, and with status 404 anywhere else. *)
Definition collections_only : string -> list (string * string) -> http_outcome :=
  fun url _ =>
    if String.eqb url (BASE_URL +:+ "/Monetarias")
    then Response (ok_response (JObj [("results", JStr "Monetarias")]))
    else if String.eqb url (BASE_URL +:+ "/Metodologia")
    then Response (ok_response (JObj [("results", JStr "Metodologia")]))
    else Response {| status_code := 404; reason := "Not Found"; json_body := None |}.

(** The environment of the examples: the given server, the sort of
    numpy. *)
Definition serving (server : string -> list (string * string) -> http_outcome) : Env :=
  env server Numpy.aquicksort.

(** The environment of a client that is not served. *)
Definition offline : Env := serving (always server_error).

(** An environment that reads dates in two formats, one per column. *)
Definition reading_two_formats : Env :=
  {| session_get := always server_error;
     strftime_days_ago := fun d => if d =? 0 then "2024-03-31" else "2024-01-01";
     to_datetime_scalar := guessed_to_datetime;
     to_datetime_in := inferred_to_datetime;
     argsort := fun _ => Numpy.aquicksort;
     DataFrame_other := fun _ => Raise ValueError;
     to_csv := fun _ _ => Ok tt;
     strftime := fun t => pretty t |}.

(** Two records whose dates are written in different formats. *)
Definition two_formats_records : list (list (string * json)) :=
  [record "2024-01-02" 5; record "03/01/2024" 3].

(** Four records: two with a date, the later one first, one without the
    field and one with a null date. *)
Definition mixed_records : list (list (string * json)) :=
  [ record "2024-01-02" 5;
    [("valor", JInt 7)];
    record "2024-01-01" 3;
    [("fecha", JNull); ("valor", JInt 9)] ].

(** Two records of the metadata listing; the second has no description,
    and none has a short name. *)
Definition metodologia_records : list (list (string * json)) :=
  [ [("idVariable", JInt 1); ("categoria", JStr "Principales"); ("descripcion", JStr "Reservas")];
    [("categoria", JStr "Principales"); ("idVariable", JInt 4)] ].

End Demo.

(** ** Notions used to state what the code does *)

Module Behaviour.

(** The line [get_multiple_variables] prints for one request, if any. *)
Definition failure_line (E : Env) (dias_atras : Z) (id_var : Z) : option line :=
  match get_datos_variable E id_var dias_atras with
  | Ok _ => None
  | Raise e => Some (ErrorAlObtenerVariable id_var e)
  end.

(** A variable of the dashboard yields nothing: its fetch raises, or gives
    an empty frame. *)
Definition yields_nothing (E : Env) (id_var : Z) : Prop :=
  (∃ e, get_datos_variable E id_var DIAS_ATRAS = Raise e)
  ∨ (∃ df, get_datos_variable E id_var DIAS_ATRAS = Ok df ∧ empty df = true).

(** The entry the body of the loop of [fetch_datos] builds for a variable:
    the fetch returns a frame that is not empty, the CSV is written, the
    frame has a [fecha] column of dates and a [valor] column. *)
Definition produces (E : Env) (id_var : Z) (i : info) (e : entry) : Prop :=
  ∃ df fecha,
    get_datos_variable E id_var DIAS_ATRAS = Ok df
    ∧ empty df = false
    ∧ to_csv E ("data/" +:+ archivo i +:+ ".csv") df = Ok tt
    ∧ column "fecha" df = Ok fecha
    ∧ dt_strftime E fecha = Ok (fechas e)
    ∧ column "valor" df = Ok (valores e)
    ∧ ultimo e = last (valores e)
    ∧ entry_nombre e = nombre i
    ∧ entry_unidad e = unidad i.

End Behaviour.

Export Behaviour.

(** * Properties *)

(** ** The error monad and the Python operators *)

Lemma bind_Ok {A B} (a : A) (k : A -> result B) : (Ok a ≫= k) = k a.
Proof. reflexivity. Qed.

Lemma bind_Raise {A B} (e : exn) (k : A -> result B) : (Raise e ≫= k) = Raise e.
Proof. reflexivity. Qed.

Lemma contains_dict k fields :
  contains k (JObj fields) = Ok (bool_decide (is_Some (dict_get k fields))).
Proof. reflexivity. Qed.

Lemma contains_dict_Some k fields v :
  dict_get k fields = Some v -> contains k (JObj fields) = Ok true.
Proof. intros H. rewrite contains_dict, H. rewrite bool_decide_eq_true_2; eauto. Qed.

Lemma contains_dict_None k fields :
  dict_get k fields = None -> contains k (JObj fields) = Ok false.
Proof.
  intros H. rewrite contains_dict, H. rewrite bool_decide_eq_false_2; [done|].
  by intros [? ?].
Qed.

Lemma getitem_dict_Some k fields v :
  dict_get k fields = Some v -> getitem (JObj fields) k = Ok v.
Proof. intros H. simpl. by rewrite H. Qed.

Lemma dict_get_None k (d : list (string * json)) : dict_get k d = None ↔ k ∉ d.*1.
Proof.
  induction d as [|[k' v] d IH]; simpl.
  - split; [intros _; apply not_elem_of_nil | done].
  - destruct (String.eqb_spec k k') as [->|Hne].
    + split; [done | intros H; exfalso; apply H; left].
    + rewrite IH, not_elem_of_cons. tauto.
Qed.

Lemma dict_get_is_Some k (d : list (string * json)) : is_Some (dict_get k d) ↔ k ∈ d.*1.
Proof.
  destruct (dict_get k d) eqn:Hd.
  - split; [intros _ | eauto]. destruct (decide (k ∈ d.*1)) as [|Hn]; [done|].
    apply dict_get_None in Hn. congruence.
  - apply dict_get_None in Hd. split; [by intros [? ?] | done].
Qed.

(** ** The Response Normalizer *)

(** [probe_ok] is exactly the condition under which the test on the first
    element agrees with the specification's reading of it. *)
Lemma first_has_detalle_probe_ok first rest :
  probe_ok first = true ->
  first_has_detalle (JArr (first :: rest))
  = Ok (match first with
        | JObj fields => bool_decide (is_Some (dict_get "detalle" fields))
        | _ => false
        end).
Proof.
  unfold first_has_detalle, and_then, isinstance_list, len_positive, item0.
  rewrite bind_Ok.
  destruct first as [| | | | s | items | fields]; simpl; try discriminate; intros H.
  - by apply negb_true_iff in H as ->.
  - by apply negb_true_iff in H as ->.
  - reflexivity.
Qed.

(** C1, as the specification states it, fails: with a number as the first
    element of [results] the specification gives [results] itself, and the
    test ['detalle' in results[0]] raises [TypeError]. *)
Lemma normalize_scalar_first_raises :
  normalize (JObj [("results", JArr [JInt 1])]) = Raise TypeError
  ∧ normalize_spec [("results", JArr [JInt 1])] = JArr [JInt 1]
  ∧ normalize (JObj [("results", JArr [JInt 1])])
    ≠ Ok (normalize_spec [("results", JArr [JInt 1])]).
Proof. repeat split. discriminate. Qed.

(** C1 (amended): on every envelope in which the first element of a
    non-empty list [results] is a mapping (or a list or a string in which
    [in] finds no ['detalle']), the normalizer follows the specification's
    resolution order: no [results], the empty list; [results] a mapping
    containing [detalle], the nested value; [results] a non-empty list whose
    first element is a mapping containing [detalle], the nested value;
    otherwise [results] itself. *)
Theorem normalize_resolution_order (envelope : list (string * json)) :
  first_probe_ok envelope = true ->
  normalize (JObj envelope) = Ok (normalize_spec envelope).
Proof.
  unfold first_probe_ok, normalize, normalize_spec. intros Hprobe.
  destruct (dict_get "results" envelope) as [results|] eqn:Hres.
  - rewrite (contains_dict_Some _ _ _ Hres), bind_Ok.
    rewrite (getitem_dict_Some _ _ _ Hres), bind_Ok.
    destruct results as [| | | | s | items | fields]; try reflexivity.
    + (* a list *)
      destruct items as [|first rest]; [reflexivity|].
      unfold and_then, isinstance_dict. rewrite bind_Ok.
      rewrite (first_has_detalle_probe_ok _ _ Hprobe), bind_Ok.
      destruct first as [| | | | s | items | fields]; try reflexivity.
      destruct (dict_get "detalle" fields) as [detalle|] eqn:Hdet.
      * rewrite bool_decide_eq_true_2 by eauto. simpl item0. rewrite bind_Ok.
        apply (getitem_dict_Some _ _ _ Hdet).
      * rewrite bool_decide_eq_false_2 by (by intros [? ?]). reflexivity.
    + (* a mapping *)
      unfold and_then, isinstance_dict.
      destruct (dict_get "detalle" fields) as [detalle|] eqn:Hdet.
      * rewrite (contains_dict_Some _ _ _ Hdet), bind_Ok.
        apply (getitem_dict_Some _ _ _ Hdet).
      * rewrite (contains_dict_None _ _ Hdet), bind_Ok. reflexivity.
  - by rewrite (contains_dict_None _ _ Hres), bind_Ok.
Qed.

Lemma normalize_resolution_order_witness :
  normalize (JObj [("status", JInt 200);
                   ("results", JArr [JObj [("idVariable", JInt 1);
                                           ("detalle", JArr [JObj (Demo.record "2024-01-02" 5)])]])])
  = Ok (JArr [JObj (Demo.record "2024-01-02" 5)]).
Proof.
  exact (normalize_resolution_order
           [("status", JInt 200);
            ("results", JArr [JObj [("idVariable", JInt 1);
                                    ("detalle", JArr [JObj (Demo.record "2024-01-02" 5)])]])]
           eq_refl).
Defined.

(** One envelope for each case of the resolution order. *)
Lemma normalize_examples :
  normalize (JObj [("status", JInt 200)]) = Ok (JArr [])
  ∧ normalize (JObj [("results", JObj [("detalle", JArr [JObj (Demo.record "2024-01-02" 5)])])])
    = Ok (JArr [JObj (Demo.record "2024-01-02" 5)])
  ∧ normalize (JObj [("results", JArr [JObj [("detalle", JArr [])]; JObj []])]) = Ok (JArr [])
  ∧ normalize (JObj [("results", JArr [JObj (Demo.record "2024-01-02" 5)])])
    = Ok (JArr [JObj (Demo.record "2024-01-02" 5)])
  ∧ normalize (JObj [("results", JArr [])]) = Ok (JArr [])
  ∧ normalize (JObj [("results", JStr "sin datos")]) = Ok (JStr "sin datos").
Proof. repeat split. Qed.

(** Outside the amended claim: a first element on which the probe is not
    defined raises. *)
Lemma normalize_probe_raises :
  normalize (JObj [("results", JArr [JNull])]) = Raise TypeError
  ∧ normalize (JObj [("results", JArr [JStr "sin detalle"])]) = Raise TypeError
  ∧ normalize (JObj [("results", JArr [JArr [JStr "detalle"]])]) = Raise TypeError.
Proof. repeat split. Qed.

(** The four cases of the resolution order, read off the specification's
    definition. *)
Lemma normalize_spec_absent envelope :
  dict_get "results" envelope = None -> normalize_spec envelope = JArr [].
Proof. unfold normalize_spec. by intros ->. Qed.

Lemma normalize_spec_mapping envelope fields detalle :
  dict_get "results" envelope = Some (JObj fields) ->
  dict_get "detalle" fields = Some detalle ->
  normalize_spec envelope = detalle.
Proof. unfold normalize_spec. by intros -> ->. Qed.

Lemma normalize_spec_first envelope fields rest detalle :
  dict_get "results" envelope = Some (JArr (JObj fields :: rest)) ->
  dict_get "detalle" fields = Some detalle ->
  normalize_spec envelope = detalle.
Proof. unfold normalize_spec. by intros -> ->. Qed.

Lemma normalize_spec_flat envelope records :
  dict_get "results" envelope = Some (records_json records) ->
  head_lacks_detalle records ->
  normalize_spec envelope = records_json records.
Proof.
  unfold normalize_spec, records_json. intros -> Hhead.
  destruct records as [|r records]; [reflexivity|]. simpl in *. by rewrite Hhead.
Qed.

(** C5, as the specification states it, fails: a record list whose first
    record has a field named [detalle] is, as a flat list under [results],
    read as the nested shape. *)
Lemma flat_envelope_misread :
  normalize (flat_envelope [[("detalle", JInt 1)]]) = Ok (JInt 1)
  ∧ normalize (mapping_envelope [[("detalle", JInt 1)]])
    = Ok (records_json [[("detalle", JInt 1)]])
  ∧ normalize (flat_envelope [[("detalle", JInt 1)]])
    ≠ normalize (mapping_envelope [[("detalle", JInt 1)]]).
Proof. repeat split. discriminate. Qed.

(** C5 (amended): for every record list that is empty or whose first record
    has no field named [detalle], the flat list, the mapping with [detalle]
    and the list of one mapping with [detalle] all normalize to that list. *)
Theorem envelope_shapes_agree (records : list (list (string * json))) :
  head_lacks_detalle records ->
  normalize (flat_envelope records) = Ok (records_json records)
  ∧ normalize (mapping_envelope records) = Ok (records_json records)
  ∧ normalize (singleton_envelope records) = Ok (records_json records).
Proof.
  intros Hhead. split; [|split; reflexivity].
  destruct records as [|r records]; [reflexivity|].
  unfold flat_envelope, records_json, normalize. simpl in Hhead.
  rewrite (contains_dict_Some "results" _ (JArr (JObj <$> r :: records))) by reflexivity.
  rewrite bind_Ok, (getitem_dict_Some "results" _ (JArr (JObj <$> r :: records)))
    by reflexivity.
  rewrite bind_Ok. unfold and_then at 1. unfold isinstance_dict. rewrite bind_Ok.
  unfold first_has_detalle, and_then, isinstance_list, len_positive, item0.
  rewrite fmap_cons. cbv iota. repeat (rewrite bind_Ok; cbv beta).
  rewrite (contains_dict_None _ _ Hhead), bind_Ok. reflexivity.
Qed.

Lemma envelope_shapes_agree_witness :
  let records := [Demo.record "2024-01-02" 5; Demo.record "2024-01-01" 3] in
  normalize (flat_envelope records) = Ok (records_json records)
  ∧ normalize (mapping_envelope records) = Ok (records_json records)
  ∧ normalize (singleton_envelope records) = Ok (records_json records).
Proof.
  exact (envelope_shapes_agree [Demo.record "2024-01-02" 5; Demo.record "2024-01-01" 3] eq_refl).
Defined.

(** ** The Transport Layer *)

Section Transport.
Context (E : Env).

(** Both endpoints run the same three steps on the answer of the session. *)
Lemma get_variables_monetarias_steps id_variable desde hasta :
  get_variables_monetarias E id_variable desde hasta
  = match session_get E (monetarias_url id_variable) (monetarias_params desde hasta) with
    | NetworkFailure msg => Raise (ConnectionError msg)
    | Response r => raise_for_status r ≫= fun _ => json_of r
    end.
Proof.
  unfold get_variables_monetarias, get.
  by destruct (session_get E _ _).
Qed.

Lemma get_metodologia_steps id_variable :
  get_metodologia E id_variable
  = match session_get E (metodologia_url id_variable) [] with
    | NetworkFailure msg => Raise (ConnectionError msg)
    | Response r => raise_for_status r ≫= fun _ => json_of r
    end.
Proof.
  unfold get_metodologia, get.
  by destruct (session_get E _ _).
Qed.



Lemma steps_RequestException r e :
  (raise_for_status r ≫= fun _ => json_of r) = Raise e -> is_RequestException e = true.
Proof.
  unfold raise_for_status, json_of.
  repeat case_match; simpl; intros [= <-]; reflexivity.
Qed.

End Transport.





(** C10: the identifier 0 is falsy, so each endpoint called with it sends
    its request to the collection URL, without an identifier in the path:
    what the endpoint returns or raises is what the session answers at
    that URL (with the date parameters, for the data endpoint), passed
    through [raise_for_status] and [json], exactly as when no identifier
    is given. *)
Theorem id_zero_requests_collection (E : Env) (desde hasta : option string) :
  monetarias_url (Some 0) = BASE_URL +:+ "/Monetarias"
  ∧ metodologia_url (Some 0) = BASE_URL +:+ "/Metodologia"
  ∧ get_variables_monetarias E (Some 0) desde hasta
    = match session_get E (BASE_URL +:+ "/Monetarias") (monetarias_params desde hasta) with
      | NetworkFailure msg => Raise (ConnectionError msg)
      | Response r => raise_for_status r ≫= fun _ => json_of r
      end
  ∧ get_metodologia E (Some 0)
    = match session_get E (BASE_URL +:+ "/Metodologia") [] with
      | NetworkFailure msg => Raise (ConnectionError msg)
      | Response r => raise_for_status r ≫= fun _ => json_of r
      end
  ∧ monetarias_url (Some 0) = monetarias_url None
  ∧ metodologia_url (Some 0) = metodologia_url None
  ∧ get_variables_monetarias E (Some 0) desde hasta = get_variables_monetarias E None desde hasta
  ∧ get_metodologia E (Some 0) = get_metodologia E None.
Proof.
  split; [reflexivity|]. split; [reflexivity|].
  split; [apply get_variables_monetarias_steps|].
  split; [apply get_metodologia_steps|].
  repeat split.
Qed.

(** A server that knows the two collection URLs only: the identifier 0
    gets the answer of the collection, the identifier 1 does not. *)
Lemma id_zero_gets_the_collection :
  let E := Demo.serving Demo.collections_only in
  get_variables_monetarias E (Some 0) None None = Ok (JObj [("results", JStr "Monetarias")])
  ∧ get_metodologia E (Some 0) = Ok (JObj [("results", JStr "Metodologia")])
  ∧ get_variables_monetarias E (Some 1) None None = Raise (HTTPError 404 "Not Found")
  ∧ get_metodologia E (Some 1) = Raise (HTTPError 404 "Not Found").
Proof. repeat split. Qed.

(** For comparison, every other identifier is put in the path. *)
Lemma id_nonzero_in_path (n : Z) :
  n ≠ 0 ->
  monetarias_url (Some n) = BASE_URL +:+ "/Monetarias/" +:+ pretty n
  ∧ metodologia_url (Some n) = BASE_URL +:+ "/Metodologia/" +:+ pretty n.
Proof.
  intros Hn. unfold monetarias_url, metodologia_url, truthy_int.
  destruct (Z.eqb_spec n 0); [done|]. by split.
Qed.

(** ** Frames built from records *)

Section Frames.
Context (E : Env).

Lemma as_records_fmap records : as_records (JObj <$> records) = Some records.
Proof. unfold as_records. by apply mapM_fmap_Some. Qed.

Lemma pd_DataFrame_records records :
  pd_DataFrame E (records_json records) = Ok (DataFrame_records records).
Proof. unfold pd_DataFrame, records_json. by rewrite as_records_fmap. Qed.

Lemma elem_of_add_keys k acc ks : k ∈ foldl add_key acc ks ↔ k ∈ acc ∨ k ∈ ks.
Proof.
  revert acc. induction ks as [|k' ks IH]; intros acc; simpl.
  - rewrite elem_of_nil. tauto.
  - rewrite IH, elem_of_cons. unfold add_key. case_bool_decide as Hin.
    + split; [tauto|]. intros [?|[->|?]]; tauto.
    + rewrite elem_of_app, list_elem_of_singleton. tauto.
Qed.

Lemma elem_of_union_keys_from k acc (records : list (list (string * json))) :
  k ∈ foldl (fun acc r => foldl add_key acc r.*1) acc records
  ↔ k ∈ acc ∨ ∃ r, r ∈ records ∧ k ∈ r.*1.
Proof.
  revert acc. induction records as [|r records IH]; intros acc; simpl.
  - split; [tauto|]. intros [?|(r & Hr & _)]; [done|]. by apply elem_of_nil in Hr.
  - rewrite IH, elem_of_add_keys. split.
    + intros [[?|?]|(r' & Hr' & ?)]; [tauto | right; exists r | right; exists r'];
        split; try done; [left | by right].
    + intros [?|(r' & Hr' & ?)]; [tauto|].
      apply elem_of_cons in Hr' as [->|Hr']; [tauto|]. right. eauto.
Qed.

Lemma elem_of_union_keys k records :
  k ∈ union_keys records ↔ ∃ r, r ∈ records ∧ is_Some (dict_get k r).
Proof.
  unfold union_keys. rewrite elem_of_union_keys_from, elem_of_nil.
  split.
  - intros [[]|(r & ? & ?)]. exists r. by rewrite dict_get_is_Some.
  - intros (r & ? & ?). right. exists r. by rewrite <- dict_get_is_Some.
Qed.

Lemma row_of_lookup cols r c :
  c ∈ cols -> row_of cols r !! c = Some (cell_of (dict_get c r)).
Proof.
  unfold row_of. induction cols as [|c' cols IH]; simpl.
  - intros H. by apply elem_of_nil in H.
  - intros H. destruct (decide (c' = c)) as [->|Hne].
    + by rewrite lookup_insert_eq.
    + rewrite lookup_insert_ne by done. apply IH.
      apply elem_of_cons in H as [->|H]; done.
Qed.

Lemma rows_DataFrame_records_nil records :
  rows (DataFrame_records records) = [] ↔ records = [].
Proof. destruct records; simpl; split; done. Qed.

Lemma has_column_records k records :
  has_column k (DataFrame_records records) = true
  ↔ ∃ r, r ∈ records ∧ is_Some (dict_get k r).
Proof.
  unfold has_column. rewrite bool_decide_eq_true. apply elem_of_union_keys.
Qed.

(** Every row of the frame of a list of records holds, in each column, the
    field of its record. *)
Lemma rows_DataFrame_records records row :
  row ∈ rows (DataFrame_records records) ->
  ∃ i r, records !! i = Some r ∧ row = (i, row_of (union_keys records) r).
Proof.
  simpl. intros H. apply elem_of_lookup_imap_1 in H as (i & r & -> & Hr). eauto.
Qed.

Lemma elem_of_rows_DataFrame_records records i r :
  records !! i = Some r ->
  (i, row_of (union_keys records) r) ∈ rows (DataFrame_records records).
Proof.
  intros H. simpl.
  apply (elem_of_lookup_imap_2 (fun i r => (i, row_of (union_keys records) r)) _ _ _ H).
Qed.

End Frames.

(** ** The Time-Series Builder *)

(** C7: an empty record list builds the empty frame, without an error. *)
Theorem build_empty_records (E : Env) : build E (JArr []) = Ok empty_frame.
Proof. reflexivity. Qed.

(** The same through [get_datos_variable]: an envelope with an empty
    [results] gives the empty frame. *)
Lemma get_datos_variable_empty_results :
  get_datos_variable (Demo.serving (Demo.always (Demo.ok_response (JObj [("results", JArr [])]))))
    1 30
  = Ok empty_frame.
Proof. reflexivity. Qed.

(** C9: for every record list (non-empty or not) in which no record has a
    [fecha] field, the builder returns the frame of those records as it is:
    whatever the date parser and the sort of the environment do, they are
    not consulted, and nothing is raised. *)
Theorem build_without_fecha (E : Env) (records : list (list (string * json))) :
  (∀ r, r ∈ records -> dict_get "fecha" r = None) ->
  build E (records_json records) = Ok (DataFrame_records records).
Proof.
  intros Hno. unfold build. rewrite pd_DataFrame_records, bind_Ok.
  destruct (has_column "fecha" (DataFrame_records records)) eqn:Hcol.
  - apply has_column_records in Hcol as (r & Hr & [v Hv]).
    rewrite (Hno r Hr) in Hv. discriminate.
  - by rewrite andb_false_r.
Qed.

Lemma build_without_fecha_witness :
  build (Demo.serving (Demo.always Demo.server_error))
    (records_json [[("valor", JInt 5)]; [("valor", JInt 3); ("nota", JStr "x")]])
  = Ok (DataFrame_records [[("valor", JInt 5)]; [("valor", JInt 3); ("nota", JStr "x")]]).
Proof.
  apply (build_without_fecha (Demo.serving (Demo.always Demo.server_error))
           [[("valor", JInt 5)]; [("valor", JInt 3); ("nota", JStr "x")]]).
  intros r Hr. repeat (apply elem_of_cons in Hr as [->|Hr]; [reflexivity|]).
  by apply elem_of_nil in Hr.
Defined.

(** [get_datos_variable] is the call to the API, then the normalizer, then
    the builder. *)
Lemma get_datos_variable_pipeline (E : Env) (id_variable dias_atras : Z) :
  get_datos_variable E id_variable dias_atras
  = (data ← get_variables_monetarias E (Some id_variable)
               (Some (strftime_days_ago E dias_atras)) (Some (strftime_days_ago E 0));
     payload ← normalize data;
     build E payload).
Proof.
  unfold get_datos_variable, normalize, build.
  destruct (get_variables_monetarias E _ _ _) as [data|e]; rewrite ?bind_Ok, ?bind_Raise; [|done].
  destruct (contains "results" data) as [[]|e]; rewrite ?bind_Ok, ?bind_Raise; [|done|done].
  destruct (getitem data "results") as [results|e]; rewrite ?bind_Ok, ?bind_Raise; [|done].
  destruct (and_then _ _) as [[]|e]; rewrite ?bind_Ok, ?bind_Raise; [| |done].
  { destruct (getitem results "detalle"); by rewrite ?bind_Ok, ?bind_Raise. }
  destruct (first_has_detalle results) as [[]|e]; rewrite ?bind_Ok, ?bind_Raise; [|done|done].
  destruct (item0 results) as [first|e]; rewrite ?bind_Ok, ?bind_Raise; [|done].
  destruct (getitem first "detalle"); by rewrite ?bind_Ok, ?bind_Raise.
Qed.

(** ** The Batch Orchestrator *)

Section Batch.
Context (E : Env) (dias_atras : Z).

(** The loop never raises; it gives every identifier it meets the frame of
    its fetch, or the empty frame when the fetch raised, and leaves the
    other entries as they were. *)
Lemma get_multiple_variables_loop_spec ids :
  ∀ resultados out, ∃ m out',
    get_multiple_variables_loop E ids dias_atras resultados out = Ok (m, out')
    ∧ (∀ id, id ∈ ids ->
         m !! id = Some (frame_or_empty (get_datos_variable E id dias_atras)))
    ∧ (∀ id, id ∉ ids -> m !! id = resultados !! id).
Proof.
  induction ids as [|id ids IH]; intros resultados out; simpl.
  - exists resultados, out. split; [done|]. split; [|done].
    intros id H. by apply elem_of_nil in H.
  - set (st := try_except _ _).
    assert (Hst : ∃ out1, st = Ok (<[id := frame_or_empty (get_datos_variable E id dias_atras)]>
                                     resultados, out1)).
    { subst st. destruct (get_datos_variable E id dias_atras); simpl; eauto. }
    destruct Hst as [out1 ->]. rewrite bind_Ok. simpl.
    destruct (IH (<[id := frame_or_empty (get_datos_variable E id dias_atras)]> resultados) out1)
      as (m & out' & Hloop & Hin & Hout).
    exists m, out'. split; [done|]. split.
    + intros id' Hid'. destruct (decide (id' ∈ ids)) as [?|Hnot]; [by apply Hin|].
      apply elem_of_cons in Hid' as [->|?]; [|done].
      rewrite (Hout _ Hnot). by rewrite lookup_insert_eq.
    + intros id' Hid'. apply not_elem_of_cons in Hid' as [Hne Hnot].
      rewrite (Hout _ Hnot). by rewrite lookup_insert_ne.
Qed.

End Batch.

(** C2: for every list of distinct identifiers, whatever the fetch, the
    normalization and the conversion of dates do for each of them,
    [get_multiple_variables] returns (it does not raise) a map with exactly
    one entry per requested identifier, which is the frame of that
    identifier when its fetch returned and the empty frame when it raised. *)
Theorem batch_isolation (E : Env) (ids : list Z) (dias_atras : Z) :
  NoDup ids ->
  ∃ m out,
    get_multiple_variables E ids dias_atras = Ok (m, out)
    ∧ size m = length ids
    ∧ dom m = list_to_set ids
    ∧ (∀ id df, id ∈ ids -> get_datos_variable E id dias_atras = Ok df -> m !! id = Some df)
    ∧ (∀ id e, id ∈ ids -> get_datos_variable E id dias_atras = Raise e ->
         m !! id = Some empty_frame).
Proof.
  intros Hnodup.
  destruct (get_multiple_variables_loop_spec E dias_atras ids ∅ [])
    as (m & out & Hrun & Hin & Hout).
  assert (Hdom : dom m = list_to_set ids).
  { apply set_eq. intros id. rewrite elem_of_dom, elem_of_list_to_set.
    split.
    - intros Hsome. destruct (decide (id ∈ ids)) as [|Hnot]; [done|].
      rewrite (Hout _ Hnot), lookup_empty in Hsome. by destruct Hsome.
    - intros Hid. rewrite (Hin _ Hid). eauto. }
  exists m, out. split; [done|]. split; [|split; [done|split]].
  - rewrite <- size_dom, Hdom. by apply size_list_to_set.
  - intros id df Hid Hfetch. by rewrite (Hin _ Hid), Hfetch.
  - intros id e Hid Hfetch. by rewrite (Hin _ Hid), Hfetch.
Qed.

Lemma batch_isolation_witness :
  ∃ m out,
    get_multiple_variables (Demo.serving Demo.server_failing_on_4) [1; 4] 30 = Ok (m, out)
    ∧ size m = 2%nat
    ∧ dom m = list_to_set [1; 4]
    ∧ (∀ id df, id ∈ [1; 4] ->
         get_datos_variable (Demo.serving Demo.server_failing_on_4) id 30 = Ok df ->
         m !! id = Some df)
    ∧ (∀ id e, id ∈ [1; 4] ->
         get_datos_variable (Demo.serving Demo.server_failing_on_4) id 30 = Raise e ->
         m !! id = Some empty_frame).
Proof.
  apply (batch_isolation (Demo.serving Demo.server_failing_on_4) [1; 4] 30).
  apply (bool_decide_unpack _). reflexivity.
Defined.

(** The scenario of the specification: two identifiers, one endpoint answers
    500; the map has two entries, one populated, one empty, and the failure
    is printed. *)
Lemma two_identifiers_one_500 :
  ∃ m, get_multiple_variables (Demo.serving Demo.server_failing_on_4) [1; 4] 30
       = Ok (m, [ErrorAlObtenerVariable 4 (HTTPError 500 "Internal Server Error")])
       ∧ size m = 2%nat
       ∧ index <$> m !! 1 = Some [1; 0]%nat
       ∧ m !! 4 = Some empty_frame.
Proof. eexists. split; [reflexivity|]. by vm_compute. Qed.

(** ** The sort of numpy

    [Numpy.aquicksort] returns a permutation of the positions that puts
    the keys in non-decreasing order, whatever the keys. *)

Section NumpySort.
Import Numpy Introsort.
Context (v : list Z).

(** *** The array of positions *)

Lemma length_put a p x : length (put a p x) = length a.
Proof. apply length_insert. Qed.

Lemma at_put_eq a p x : 0 ≤ p < Z.of_nat (length a) -> at_ (put a p x) p = x.
Proof.
  intros Hp. unfold at_, put. rewrite list_lookup_insert_eq; [done|]. lia.
Qed.

Lemma at_put_ne a p q x : 0 ≤ p -> 0 ≤ q -> p ≠ q -> at_ (put a p x) q = at_ a q.
Proof.
  intros Hp Hq Hne. unfold at_, put. rewrite list_lookup_insert_ne; [done|]. lia.
Qed.

Lemma put_put a p x y : put (put a p x) p y = put a p y.
Proof. apply list_insert_insert_eq. Qed.

Lemma at_lookup a p : 0 ≤ p < Z.of_nat (length a) -> a !! Z.to_nat p = Some (at_ a p).
Proof.
  intros Hp. unfold at_. destruct (lookup_lt_is_Some_2 a (Z.to_nat p)) as [x ->]; [lia|done].
Qed.

Lemma insert_head_Permutation (t : list nat) j y h :
  t !! j = Some y -> y :: <[j := h]> t ≡ₚ h :: t.
Proof.
  revert j. induction t as [|z t IH]; intros [|j] Hj; simplify_eq/=.
  - apply perm_swap.
  - rewrite (perm_swap z y), (IH j Hj). apply perm_swap.
Qed.

Lemma insert_insert_Permutation (l : list nat) i j x y :
  l !! i = Some x -> l !! j = Some y -> <[j := x]> (<[i := y]> l) ≡ₚ l.
Proof.
  revert i j. induction l as [|h t IH]; intros [|i] [|j] Hi Hj; simplify_eq/=.
  - done.
  - by apply insert_head_Permutation.
  - by apply insert_head_Permutation.
  - by rewrite (IH i j).
Qed.

Lemma swap_Permutation a p q :
  0 ≤ p < Z.of_nat (length a) -> 0 ≤ q < Z.of_nat (length a) -> INTP_SWAP a p q ≡ₚ a.
Proof.
  intros Hp Hq. unfold INTP_SWAP, put.
  apply insert_insert_Permutation; by apply at_lookup.
Qed.

(** Moving a hole: the array with [x] in the hole is the same up to order. *)
Lemma move_hole a p q x :
  0 ≤ p < Z.of_nat (length a) -> 0 ≤ q < Z.of_nat (length a) -> p ≠ q ->
  put (put a q (at_ a p)) p x ≡ₚ put a q x.
Proof.
  intros Hp Hq Hne.
  rewrite <- (swap_Permutation (put a q x) q p) by (by rewrite length_put).
  unfold INTP_SWAP. rewrite put_put, at_put_eq by done.
  by rewrite at_put_ne by lia.
Qed.

Lemma reordered_refl a lo hi : reordered a a lo hi.
Proof. done. Qed.

Lemma reordered_trans a a' a'' lo hi :
  reordered a a' lo hi -> reordered a' a'' lo hi -> reordered a a'' lo hi.
Proof.
  intros (Hl & Hp & Ho) (Hl' & Hp' & Ho'). split; [congruence|]. split; [by etrans|].
  intros p Hp0 Hout. by rewrite Ho', Ho.
Qed.

Lemma reordered_mono a a' lo hi lo' hi' :
  lo' ≤ lo -> hi ≤ hi' -> reordered a a' lo hi -> reordered a a' lo' hi'.
Proof.
  intros Hlo Hhi (Hl & Hp & Ho). split; [done|]. split; [done|].
  intros p Hp0 Hout. apply Ho; lia.
Qed.

Lemma reordered_swap a p q lo hi :
  0 ≤ p < Z.of_nat (length a) -> 0 ≤ q < Z.of_nat (length a) ->
  lo ≤ p ≤ hi -> lo ≤ q ≤ hi ->
  reordered a (INTP_SWAP a p q) lo hi.
Proof.
  intros Hp Hq Hpr Hqr. split; [|split].
  - unfold INTP_SWAP. by rewrite !length_put.
  - by apply swap_Permutation.
  - intros r Hr Hout. unfold INTP_SWAP. rewrite !at_put_ne by lia. done.
Qed.

Lemma at_swap a p q r :
  0 ≤ p < Z.of_nat (length a) -> 0 ≤ q < Z.of_nat (length a) -> 0 ≤ r ->
  at_ (INTP_SWAP a p q) r = if decide (r = q) then at_ a p else if decide (r = p) then at_ a q else at_ a r.
Proof.
  intros Hp Hq Hr. unfold INTP_SWAP.
  destruct (decide (r = q)) as [->|Hrq].
  - by rewrite at_put_eq by (by rewrite length_put).
  - rewrite at_put_ne by lia. destruct (decide (r = p)) as [->|Hrp].
    + by rewrite at_put_eq.
    + by rewrite at_put_ne by lia.
Qed.

(** *** The insertion sort of a short range *)

Lemma shift_spec a0 pl pi vi fuel a pj :
  0 ≤ pl -> pi < Z.of_nat (length a0) ->
  shifted v a0 pl pi vi a pj ->
  (Z.to_nat (pj - pl) ≤ fuel)%nat ->
  ∃ a' pj', shift v fuel a pl pj (value v vi) = (a', pj')
            ∧ shifted v a0 pl pi vi a' pj'
            ∧ (pj' = pl ∨ key v a0 (pj' - 1) ≤ value v vi).
Proof.
  intros Hpl Hpi. revert a pj. induction fuel as [|fuel IH]; intros a pj Hinv Hfuel.
  - destruct Hinv as (Hlen & Hrange & Hrest). exists a, pj. split; [done|].
    split; [done|]. left. lia.
  - simpl. destruct Hinv as (Hlen & Hrange & Hperm & Hlow & Hhigh).
    destruct (Z.ltb_spec pl pj) as [Hlt|Hge]; simpl.
    + destruct (Z.ltb_spec (value v vi) (key v a (pj - 1))) as [Hmove|Hstop].
      * apply IH; [|lia]. split; [by rewrite length_put|]. split; [lia|]. split; [|split].
        -- rewrite move_hole by lia. done.
        -- intros p Hp Hout. rewrite at_put_ne by lia. apply Hlow; lia.
        -- intros p Hp. destruct (decide (p = pj)) as [->|Hne].
           ++ rewrite at_put_eq by lia. split; [apply Hlow; lia|].
              unfold key. rewrite at_put_eq by lia. apply Hmove.
           ++ unfold key. rewrite at_put_ne by lia. apply Hhigh. lia.
      * exists a, pj. split; [done|]. split; [done|]. right.
        unfold key in *. rewrite <- Hlow by lia. done.
    + exists a, pj. split; [done|]. split; [done|]. left. lia.
Qed.

(** One step of the outer loop. *)
Lemma insertion_step a0 pl pi :
  0 ≤ pl -> pl < pi -> pi < Z.of_nat (length a0) ->
  sorted_on v a0 pl (pi - 1) ->
  ∃ a' pj, shift v (length a0) a0 pl pi (value v (at_ a0 pi)) = (a', pj)
           ∧ reordered a0 (put a' pj (at_ a0 pi)) pl pi
           ∧ sorted_on v (put a' pj (at_ a0 pi)) pl pi.
Proof.
  intros Hpl Hlt Hpi Hsorted.
  destruct (shift_spec a0 pl pi (at_ a0 pi) (length a0) a0 pi Hpl Hpi) as
    (a' & pj & Hshift & (Hlen & Hrange & Hperm & Hlow & Hhigh) & Hstop).
  { split; [done|]. split; [lia|]. split; [|split].
    - unfold put. rewrite list_insert_id; [done|]. apply at_lookup. lia.
    - done.
    - intros p Hp. lia. }
  { lia. }
  exists a', pj. split; [done|].
  assert (Hat : ∀ p, 0 ≤ p ->
            at_ (put a' pj (at_ a0 pi)) p
            = if decide (p = pj) then at_ a0 pi
              else if decide (pj < p ≤ pi) then at_ a0 (p - 1) else at_ a0 p).
  { intros p Hp. destruct (decide (p = pj)) as [->|Hne].
    - rewrite at_put_eq by lia. done.
    - rewrite at_put_ne by lia. destruct (decide (pj < p ≤ pi)) as [Hin|Hout].
      + by apply Hhigh.
      + apply Hlow; lia. }
  split.
  - split; [by rewrite length_put|]. split; [done|].
    intros p Hp Hout. rewrite Hat by done.
    rewrite decide_False by lia. rewrite decide_False by lia. done.
  - intros p q Hp Hpq Hq. unfold key. rewrite !Hat by lia.
    assert (Hupper : ∀ r, pj < r ≤ pi -> value v (at_ a0 pi) < value v (at_ a0 (r - 1))).
    { intros r Hr. destruct (Hhigh r Hr) as [Heq Hk]. unfold key in Hk. by rewrite Heq in Hk. }
    assert (Hlower : ∀ r, pl ≤ r < pj -> value v (at_ a0 r) ≤ value v (at_ a0 pi)).
    { intros r Hr. destruct Hstop as [->|Hstop]; [lia|].
      etrans; [|exact Hstop]. apply (Hsorted r (pj - 1)); lia. }
    repeat case_decide; subst; try lia;
      first [ specialize (Hupper q); lia
            | apply Hlower; lia
            | apply (Hsorted (p - 1) (q - 1)); lia
            | apply (Hsorted p (q - 1)); lia
            | apply (Hsorted p q); lia ].
Qed.

Lemma insertion_spec fuel a pl pi pr :
  0 ≤ pl -> pl < pi -> pr < Z.of_nat (length a) ->
  sorted_on v a pl (pi - 1) ->
  (Z.to_nat (pr - pi + 1) ≤ fuel)%nat ->
  reordered a (insertion v fuel a pl pi pr) pl pr
  ∧ sorted_on v (insertion v fuel a pl pi pr) pl pr.
Proof.
  intros Hpl. revert a pi. induction fuel as [|fuel IH]; intros a pi Hlt Hpr Hsorted Hfuel.
  - simpl. split; [done|]. intros p q Hp Hpq Hq. apply Hsorted; lia.
  - simpl. destruct (Z.leb_spec pi pr) as [Hle|Hgt].
    + destruct (insertion_step a pl pi Hpl Hlt ltac:(lia) Hsorted)
        as (a' & pj & Hshift & Hre & Hsorted').
      rewrite Hshift.
      assert (Hlen : length (put a' pj (at_ a pi)) = length a) by apply Hre.
      destruct (IH (put a' pj (at_ a pi)) (pi + 1)) as [Hre2 Hsorted2].
      * lia.
      * lia.
      * by replace (pi + 1 - 1) with pi by lia.
      * lia.
      * split; [|done]. eapply reordered_trans; [|exact Hre2].
        eapply reordered_mono; [| |exact Hre]; lia.
    + split; [done|]. intros p q Hp Hpq Hq. apply Hsorted; lia.
Qed.

(** *** The partition of a long range *)

Lemma scan_up_spec vp s fuel a pi :
  pi < s -> vp ≤ key v a s -> (Z.to_nat (s - pi) ≤ fuel)%nat ->
  pi < scan_up v fuel a pi vp ≤ s
  ∧ vp ≤ key v a (scan_up v fuel a pi vp)
  ∧ ∀ p, pi < p < scan_up v fuel a pi vp -> key v a p < vp.
Proof.
  revert pi. induction fuel as [|fuel IH]; intros pi Hlt Hs Hfuel; [lia|]. simpl.
  destruct (Z.ltb_spec (key v a (pi + 1)) vp) as [Hless|Hstop].
  - assert (pi + 1 ≠ s) by (intros <-; lia).
    destruct (IH (pi + 1)) as (Hr & Hk & Hbelow); [lia|done|lia|].
    split; [lia|]. split; [done|]. intros p Hp.
    destruct (decide (p = pi + 1)) as [->|]; [done|]. apply Hbelow. lia.
  - split; [lia|]. split; [done|]. intros p Hp. lia.
Qed.

Lemma scan_down_spec vp s fuel a pj :
  s < pj -> key v a s ≤ vp -> (Z.to_nat (pj - s) ≤ fuel)%nat ->
  s ≤ scan_down v fuel a pj vp < pj
  ∧ key v a (scan_down v fuel a pj vp) ≤ vp
  ∧ ∀ p, scan_down v fuel a pj vp < p < pj -> vp < key v a p.
Proof.
  revert pj. induction fuel as [|fuel IH]; intros pj Hlt Hs Hfuel; [lia|]. simpl.
  destruct (Z.ltb_spec vp (key v a (pj - 1))) as [Hless|Hstop].
  - assert (pj - 1 ≠ s) by (intros <-; lia).
    destruct (IH (pj - 1)) as (Hr & Hk & Habove); [lia|done|lia|].
    split; [lia|]. split; [done|]. intros p Hp.
    destruct (decide (p = pj - 1)) as [->|]; [done|]. apply Habove. lia.
  - split; [lia|]. split; [done|]. intros p Hp. lia.
Qed.

Lemma key_swap a p q r :
  0 ≤ p < Z.of_nat (length a) -> 0 ≤ q < Z.of_nat (length a) -> 0 ≤ r ->
  key v (INTP_SWAP a p q) r
  = if decide (r = q) then key v a p else if decide (r = p) then key v a q else key v a r.
Proof.
  intros Hp Hq Hr. unfold key. rewrite at_swap by done. by repeat case_decide.
Qed.

Lemma length_swap a p q : length (INTP_SWAP a p q) = length a.
Proof. unfold INTP_SWAP. by rewrite !length_put. Qed.

Lemma partition_spec pl pr vp fuel a pi pj :
  0 ≤ pl -> pr < Z.of_nat (length a) ->
  partitioning v pl pr vp a pi pj ->
  (Z.to_nat (pj - pi) ≤ fuel)%nat ->
  ∃ a' pi', partition v fuel a pi pj vp = (a', pi')
            ∧ reordered a a' pl pr
            ∧ pl < pi' ≤ pr - 1
            ∧ (∀ p, pl ≤ p < pi' -> key v a' p ≤ vp)
            ∧ (∀ p, pi' ≤ p ≤ pr -> vp ≤ key v a' p)
            ∧ key v a' (pr - 1) = vp.
Proof.
  intros Hpl. revert a pi pj. induction fuel as [|fuel IH];
    intros a pi pj Hpr (Hi & Hij & Hj & Hlow & Hhigh & Hpivot) Hfuel; [lia|].
  simpl.
  destruct (scan_up_spec vp pj (length a) a pi) as (Hup & Hupk & Hbelow);
    [lia | apply Hhigh; lia | lia |].
  destruct (scan_down_spec vp pi (length a) a pj) as (Hdown & Hdownk & Habove);
    [lia | apply Hlow; lia | lia |].
  set (pi' := scan_up v (length a) a pi vp) in *.
  set (pj' := scan_down v (length a) a pj vp) in *.
  clearbody pi' pj'.
  destruct (Z.leb_spec pj' pi') as [Hcross|Hswap].
  - exists a, pi'. split; [done|]. split; [done|]. split; [lia|]. split; [|split; [|done]].
    + intros p Hp. destruct (decide (p ≤ pi)); [apply Hlow; lia|].
      apply Z.lt_le_incl, Hbelow. lia.
    + intros p Hp. destruct (decide (p = pi')) as [->|]; [done|].
      destruct (decide (pj ≤ p)); [apply Hhigh; lia|].
      apply Z.lt_le_incl, Habove. lia.
  - destruct (IH (INTP_SWAP a pi' pj') pi' pj') as (a' & r & Hrun & Hre & Hr & Hl & Hh & Hp).
    + by rewrite length_swap.
    + split; [lia|]. split; [lia|]. split; [lia|]. split; [|split].
      * intros p Hp. rewrite key_swap by lia. repeat case_decide; try lia.
        destruct (decide (p ≤ pi)); [apply Hlow; lia|].
        apply Z.lt_le_incl, Hbelow. lia.
      * intros p Hp. rewrite key_swap by lia. repeat case_decide; try lia.
        destruct (decide (pj ≤ p)); [apply Hhigh; lia|].
        apply Z.lt_le_incl, Habove. lia.
      * rewrite key_swap by lia. repeat case_decide; lia.
    + lia.
    + exists a', r. split; [done|]. split; [|done].
      eapply reordered_trans; [|exact Hre]. apply reordered_swap; lia.
Qed.

Lemma split_spec a pl pr :
  0 ≤ pl -> pr < Z.of_nat (length a) -> 2 ≤ pr - pl ->
  ∃ a' pi, split v a pl pr = (a', pi)
           ∧ reordered a a' pl pr
           ∧ pl < pi < pr
           ∧ (∀ p, pl ≤ p < pi -> key v a' p ≤ key v a' pi)
           ∧ (∀ p, pi < p ≤ pr -> key v a' pi ≤ key v a' p).
Proof.
  intros Hpl Hpr Hlong. unfold split.
  assert (Hpm : pl < pl + Z.shiftr (pr - pl) 1 < pr).
  { rewrite Z.shiftr_div_pow2 by lia. change (2 ^ 1) with 2.
    pose proof (Z.div_le_lower_bound (pr - pl) 2 1). 
    pose proof (Z.div_lt_upper_bound (pr - pl) 2 (pr - pl)). lia. }
  set (pm := pl + Z.shiftr (pr - pl) 1) in *.
  set (a1 := if key v a pm <? key v a pl then INTP_SWAP a pm pl else a).
  assert (H1 : reordered a a1 pl pr ∧ key v a1 pl ≤ key v a1 pm).
  { subst a1. destruct (Z.ltb_spec (key v a pm) (key v a pl)).
    - split; [apply reordered_swap; lia|]. rewrite !key_swap by lia.
      repeat case_decide; lia.
    - done. }
  destruct H1 as [Hre1 Hk1].
  assert (Hlen1 : length a1 = length a) by apply Hre1.
  set (a2 := if key v a1 pr <? key v a1 pm then INTP_SWAP a1 pr pm else a1).
  assert (H2 : reordered a1 a2 pl pr ∧ key v a2 pm ≤ key v a2 pr ∧ key v a2 pl ≤ key v a2 pr).
  { subst a2. destruct (Z.ltb_spec (key v a1 pr) (key v a1 pm)).
    - split; [apply reordered_swap; lia|]. rewrite !key_swap by lia.
      repeat case_decide; lia.
    - split; [done|]. lia. }
  destruct H2 as (Hre2 & Hk2 & Hk2').
  assert (Hlen2 : length a2 = length a) by (destruct Hre2; lia).
  set (a3 := if key v a2 pm <? key v a2 pl then INTP_SWAP a2 pm pl else a2).
  assert (H3 : reordered a2 a3 pl pr ∧ key v a3 pl ≤ key v a3 pm ∧ key v a3 pm ≤ key v a3 pr).
  { subst a3. destruct (Z.ltb_spec (key v a2 pm) (key v a2 pl)).
    - split; [apply reordered_swap; lia|]. rewrite !key_swap by lia.
      repeat case_decide; lia.
    - done. }
  destruct H3 as (Hre3 & Hk3 & Hk3').
  assert (Hlen3 : length a3 = length a) by (destruct Hre3; lia).
  set (vp := key v a3 pm).
  set (a4 := INTP_SWAP a3 pm (pr - 1)).
  assert (Hre4 : reordered a3 a4 pl pr) by (apply reordered_swap; lia).
  assert (Hlen4 : length a4 = length a) by (destruct Hre4; lia).
  destruct (partition_spec pl pr vp (length a4) a4 pl (pr - 1))
    as (a5 & pi & Hrun & Hre5 & Hpi & Hlow & Hhigh & Hpivot); [lia|lia| |lia|].
  { split; [lia|]. split; [lia|]. split; [lia|]. subst a4 vp. split; [|split].
    - intros p Hp. assert (p = pl) as -> by lia.
      rewrite key_swap by lia. repeat case_decide; lia.
    - intros p Hp. rewrite key_swap by lia. destruct (decide (p = pr - 1)); [lia|].
      assert (p = pr) as -> by lia. repeat case_decide; lia.
    - rewrite key_swap by lia. repeat case_decide; lia. }
  rewrite Hrun.
  assert (Hlen5 : length a5 = length a) by (destruct Hre5; lia).
  exists (INTP_SWAP a5 pi (pr - 1)), pi. split; [done|]. split; [|split; [lia|split]].
  - eapply reordered_trans; [exact Hre1|]. eapply reordered_trans; [exact Hre2|].
    eapply reordered_trans; [exact Hre3|]. eapply reordered_trans; [exact Hre4|].
    eapply reordered_trans; [exact Hre5|]. apply reordered_swap; lia.
  - intros p Hp. rewrite !key_swap by lia.
    specialize (Hlow p). specialize (Hhigh pi). clearbody vp.
    repeat case_decide; subst; lia.
  - intros p Hp. rewrite !key_swap by lia.
    pose proof (Hhigh p). pose proof (Hhigh pi). clearbody vp.
    repeat case_decide; subst; lia.
Qed.

(** *** The heap sort of a range *)

(** What stands between [lo] and [hi] after a reordering stood there
    before. *)
Lemma reordered_inside a a' lo hi p :
  NoDup a -> reordered a a' lo hi -> 0 ≤ lo ->
  lo ≤ p ≤ hi -> p < Z.of_nat (length a) ->
  ∃ p', lo ≤ p' ≤ hi ∧ p' < Z.of_nat (length a) ∧ at_ a' p = at_ a p'.
Proof.
  intros Hnodup (Hlen & Hperm & Hout) Hlo Hp Hplen.
  assert (Hin : at_ a' p ∈ a).
  { rewrite <- Hperm. apply list_elem_of_lookup. exists (Z.to_nat p). apply at_lookup. lia. }
  apply list_elem_of_lookup in Hin as [i Hi].
  assert (Hilen := lookup_lt_Some _ _ _ Hi).
  assert (Hati : at_ a (Z.of_nat i) = at_ a' p).
  { unfold at_ at 1. by rewrite Nat2Z.id, Hi. }
  destruct (decide (lo ≤ Z.of_nat i ≤ hi)) as [Hinside|Houtside].
  - exists (Z.of_nat i). split; [done|]. split; [lia|done].
  - exfalso. assert (Heq : at_ a' (Z.of_nat i) = at_ a' p).
    { rewrite Hout by lia. done. }
    assert (Hnodup' : NoDup a') by (by rewrite Hperm).
    assert (i = Z.to_nat p); [|lia].
    apply (NoDup_lookup a' _ _ (at_ a' p) Hnodup').
    + rewrite <- Heq. rewrite <- (Nat2Z.id i) at 1. apply at_lookup. lia.
    + apply at_lookup. lia.
Qed.

Lemma reordered_Forall (P : nat -> Prop) a a' lo hi :
  NoDup a -> reordered a a' lo hi -> 0 ≤ lo -> hi < Z.of_nat (length a) ->
  (∀ p, lo ≤ p ≤ hi -> P (at_ a p)) ->
  ∀ p, lo ≤ p ≤ hi -> P (at_ a' p).
Proof.
  intros Hnodup Hre Hlo Hhi HP p Hp.
  destruct (reordered_inside a a' lo hi p Hnodup Hre Hlo Hp) as (p' & Hp' & _ & ->); [lia|].
  by apply HP.
Qed.

Lemma key_put_eq a p x : 0 ≤ p < Z.of_nat (length a) -> key v (put a p x) p = value v x.
Proof. intros Hp. unfold key. by rewrite at_put_eq. Qed.

Lemma key_put_ne a p q x : 0 ≤ p -> 0 ≤ q -> p ≠ q -> key v (put a p x) q = key v a q.
Proof. intros Hp Hq Hne. unfold key. by rewrite at_put_ne. Qed.

Lemma sift_spec base n l tmp fuel a i :
  -1 ≤ base -> base + n < Z.of_nat (length a) -> 1 ≤ l -> l ≤ i ≤ n ->
  heap_except v base n l a i -> hole_fits v base n l tmp a i ->
  (Z.to_nat (n - i + 1) ≤ fuel)%nat ->
  length (sift v fuel a base n tmp i (2 * i)) = length a
  ∧ sift v fuel a base n tmp i (2 * i) ≡ₚ put a (base + i) tmp
  ∧ (∀ p, 0 ≤ p -> p < base + i ∨ base + n < p ->
       at_ (sift v fuel a base n tmp i (2 * i)) p = at_ a p)
  ∧ heap_from v base n l (sift v fuel a base n tmp i (2 * i)).
Proof.
  intros Hbase. revert a i. induction fuel as [|fuel IH];
    intros a i Hn Hl Hi Hheap Hfits Hfuel; [lia|].
  assert (Hstop : (∀ c, child c i -> c ≤ n -> key v a (base + c) ≤ value v tmp) ->
            length (put a (base + i) tmp) = length a
            ∧ put a (base + i) tmp ≡ₚ put a (base + i) tmp
            ∧ (∀ p, 0 ≤ p -> p < base + i ∨ base + n < p ->
                 at_ (put a (base + i) tmp) p = at_ a p)
            ∧ heap_from v base n l (put a (base + i) tmp)).
  { intros Hchildren. split; [apply length_put|]. split; [done|]. split.
    - intros p Hp Hout. apply at_put_ne; lia.
    - intros k c Hk Hc Hcn. destruct (decide (k = i)) as [->|Hki].
      + rewrite key_put_eq by lia. rewrite key_put_ne by (unfold child in Hc; lia).
        by apply Hchildren.
      + rewrite (key_put_ne _ _ (base + k)) by lia.
        destruct (decide (c = i)) as [->|Hci].
        * rewrite key_put_eq by lia.
          destruct Hfits as (pa & Hpa & Hchild & Htmp & _); [unfold child in Hc; lia|].
          assert (pa = k) as -> by (unfold child in *; lia). done.
        * rewrite key_put_ne by (unfold child in Hc; lia). by apply Hheap. }
  simpl. destruct (Z.leb_spec (2 * i) n) as [Hj|Hj].
  - set (j := if (2 * i <? n) && (key v a (base + 2 * i) <? key v a (base + 2 * i + 1))
              then 2 * i + 1 else 2 * i).
    assert (Hjc : child j i ∧ j ≤ n
                  ∧ ∀ c, child c i -> c ≤ n -> key v a (base + c) ≤ key v a (base + j)).
    { subst j. unfold child.
      destruct (Z.ltb_spec (2 * i) n) as [Hlt|Hge]; simpl.
      - destruct (Z.ltb_spec (key v a (base + 2 * i)) (key v a (base + 2 * i + 1))) as [Hk|Hk].
        + split; [lia|]. split; [lia|].
          intros c [->| ->] Hc; rewrite ?(Z.add_assoc base (2 * i) 1); lia.
        + split; [lia|]. split; [lia|].
          intros c [->| ->] Hc; rewrite ?(Z.add_assoc base (2 * i) 1); lia.
      - split; [lia|]. split; [lia|]. intros c [->| ->] Hc; lia. }
    clearbody j. destruct Hjc as (Hchild & Hjn & Hmax).
    assert (Hji : i < j) by (unfold child in Hchild; lia).
    destruct (Z.ltb_spec (value v tmp) (key v a (base + j))) as [Hmove|Hstay].
    + replace (j + j) with (2 * j) by lia.
      set (a1 := put a (base + i) (at_ a (base + j))).
      assert (Hlen1 : length a1 = length a) by apply length_put.
      assert (Hk1 : ∀ k, 1 ≤ k -> k ≠ i -> key v a1 (base + k) = key v a (base + k)).
      { intros k Hk Hne. subst a1. apply key_put_ne; lia. }
      assert (Hki : key v a1 (base + i) = key v a (base + j)).
      { subst a1. apply key_put_eq. lia. }
      destruct (IH a1 j) as (Hlen & Hperm & Hout & Hheap').
      * lia.
      * lia.
      * lia.
      * intros k c Hk Hkj Hc Hcn. destruct (decide (k = i)) as [->|Hki'].
        -- rewrite Hki, Hk1 by (unfold child in Hc; lia). by apply Hmax.
        -- rewrite (Hk1 k) by lia. destruct (decide (c = i)) as [->|Hci].
           ++ rewrite Hki.
              destruct Hfits as (pa & Hpa & Hchild' & _ & Hunder); [unfold child in Hc; lia|].
              assert (pa = k) as -> by (unfold child in *; lia). by apply Hunder.
           ++ rewrite Hk1 by (unfold child in Hc; lia). by apply Hheap.
      * intros _. exists i. split; [lia|]. split; [done|]. rewrite Hki. split; [lia|].
        intros c Hc Hcn. rewrite Hk1 by (unfold child in Hc; lia).
        apply Hheap; [lia|lia|done|done].
      * lia.
      * split; [lia|]. split; [|split; [|done]].
        -- rewrite Hperm. subst a1. apply move_hole; lia.
        -- intros p Hp Hout'. rewrite Hout by lia. subst a1. apply at_put_ne; lia.
    + apply Hstop. intros c Hc Hcn. specialize (Hmax c Hc Hcn). lia.
  - apply Hstop. intros c Hc Hcn. unfold child in Hc. lia.
Qed.

Lemma heap_root_max base n a :
  heap_from v base n 1 a -> ∀ k, 1 ≤ k ≤ n -> key v a (base + k) ≤ key v a (base + 1).
Proof.
  intros Hheap k Hk.
  assert (H : ∀ m : nat, ∀ k, 1 ≤ k ≤ n -> Z.to_nat k = m ->
            key v a (base + k) ≤ key v a (base + 1)).
  { clear k Hk. intros m. induction (lt_wf m) as [m _ IH]. intros k Hk Hm.
    destruct (decide (k = 1)) as [->|Hne]; [done|].
    etrans; [apply (Hheap (k / 2) k)|apply (IH (Z.to_nat (k / 2)))].
    - pose proof (Z.div_mod k 2). pose proof (Z.mod_pos_bound k 2). lia.
    - unfold child. pose proof (Z.div_mod k 2). pose proof (Z.mod_pos_bound k 2). lia.
    - lia.
    - pose proof (Z.div_mod k 2). pose proof (Z.mod_pos_bound k 2). lia.
    - pose proof (Z.div_mod k 2). pose proof (Z.mod_pos_bound k 2). lia.
    - done. }
  by apply (H (Z.to_nat k)).
Qed.

Lemma heapify_spec base n fuel a l :
  -1 ≤ base -> base + n < Z.of_nat (length a) -> 0 ≤ l ≤ n ->
  heap_from v base n (l + 1) a ->
  (Z.to_nat l ≤ fuel)%nat ->
  reordered a (heapify v fuel a base n l) (base + 1) (base + n)
  ∧ heap_from v base n 1 (heapify v fuel a base n l).
Proof.
  intros Hbase. revert a l. induction fuel as [|fuel IH]; intros a l Hn Hl Hheap Hfuel.
  - simpl. split; [done|]. by replace l with 0 in Hheap by lia.
  - simpl. destruct (Z.ltb_spec 0 l) as [Hpos|Hzero].
    + rewrite Z.shiftl_mul_pow2 by lia. change (2 ^ 1) with 2. rewrite (Z.mul_comm l 2).
      destruct (sift_spec base n l (at_ a (base + l)) (length a) a l)
        as (Hlen & Hperm & Hout & Hheap'); [lia|lia|lia|lia| | |lia|].
      { intros k c Hk Hne. apply Hheap. lia. }
      { intros Hfalse. lia. }
      set (a' := sift v (length a) a base n (at_ a (base + l)) l (2 * l)) in *.
      destruct (IH a' (l - 1)) as [Hre Hheap'']; [lia|lia| |lia|].
      { by replace (l - 1 + 1) with l by lia. }
      split; [|done]. eapply reordered_trans; [|exact Hre].
      split; [done|]. split.
      * rewrite Hperm. unfold put. rewrite list_insert_id; [done|]. apply at_lookup. lia.
      * intros p Hp Hout'. apply Hout; lia.
    + split; [done|]. by replace l with 0 in Hheap by lia.
Qed.

(** The second phase: the range up to [n] is a heap, and above it stand
    the greatest keys, in order. *)
Lemma extract_spec base N fuel a n :
  -1 ≤ base -> base + N < Z.of_nat (length a) -> NoDup a -> 0 ≤ n ≤ N ->
  heap_from v base n 1 a ->
  sorted_on v a (base + n + 1) (base + N) ->
  (∀ k m, 1 ≤ k ≤ n -> n < m ≤ N -> key v a (base + k) ≤ key v a (base + m)) ->
  (Z.to_nat n ≤ fuel)%nat ->
  reordered a (extract v fuel a base n) (base + 1) (base + N)
  ∧ sorted_on v (extract v fuel a base n) (base + 1) (base + N).
Proof.
  intros Hbase. revert a n. induction fuel as [|fuel IH];
    intros a n HN Hnodup Hn Hheap Hsorted Hcross Hfuel.
  - simpl. split; [done|]. replace (base + n + 1) with (base + 1) in Hsorted by lia. done.
  - simpl. destruct (Z.ltb_spec 1 n) as [Hmore|Hlast].
    + set (tmp := at_ a (base + n)).
      set (a1 := put a (base + n) (at_ a (base + 1))).
      assert (Hlen1 : length a1 = length a) by apply length_put.
      rewrite Hlen1.
      assert (Hk1 : ∀ k, 1 ≤ k -> k ≠ n -> key v a1 (base + k) = key v a (base + k)).
      { intros k Hk Hne. subst a1. apply key_put_ne; lia. }
      destruct (sift_spec base (n - 1) 1 tmp (length a) a1 1)
        as (Hlen & Hperm & Hout & Hheap'); [lia|lia|lia|lia| | |lia|].
      { intros k c Hk Hne Hc Hcn. rewrite !Hk1 by (unfold child in Hc; lia).
        apply Hheap; [done|done|lia]. }
      { intros Hfalse. lia. }
      change (2 * 1) with 2 in *.
      set (a2 := sift v (length a) a1 base (n - 1) tmp 1 2) in *.
      set (b := INTP_SWAP a (base + n) (base + 1)).
      assert (Hb : reordered a b (base + 1) (base + N)) by (apply reordered_swap; lia).
      assert (Hb2 : reordered b a2 (base + 1) (base + (n - 1))).
      { split; [subst b; rewrite length_swap; lia|]. split; [done|].
        intros p Hp Hout'. rewrite Hout by lia. subst a1 b. unfold INTP_SWAP.
        symmetry. apply at_put_ne; lia. }
      assert (Hnodupb : NoDup b) by (destruct Hb as (_ & -> & _); done).
      assert (Hlenb : length b = length a) by apply Hb.
      assert (Hroot : ∀ k, 1 ≤ k ≤ n -> key v a (base + k) ≤ key v a (base + 1))
        by (by apply heap_root_max).
      assert (Hin2 : ∀ k, 1 ≤ k ≤ n - 1 ->
                key v a2 (base + k) ≤ key v a (base + 1)
                ∧ ∀ m, n < m ≤ N -> key v a2 (base + k) ≤ key v a (base + m)).
      { intros k Hk.
        apply (reordered_Forall
                 (fun x => value v x ≤ key v a (base + 1)
                           ∧ ∀ m, n < m ≤ N -> value v x ≤ key v a (base + m))
                 b a2 (base + 1) (base + (n - 1))); [done|done|lia|lia| |lia].
        intros p Hp. subst b. rewrite at_swap by lia.
        repeat case_decide; try lia.
        - split; [apply (Hroot n); lia|]. intros m Hm. apply Hcross; lia.
        - replace p with (base + (p - base)) by lia.
          split; [apply Hroot; lia|]. intros m Hm. apply Hcross; lia. }
      assert (Ha2n : ∀ p, base + n ≤ p -> key v a2 p
                = if decide (p = base + n) then key v a (base + 1) else key v a p).
      { intros p Hp. unfold key. rewrite Hout by lia. subst a1.
        case_decide as Hpn.
        - rewrite Hpn. by rewrite at_put_eq by lia.
        - by rewrite at_put_ne by lia. }
      destruct (IH a2 (n - 1)) as [Hre Hsorted'].
      * lia.
      * destruct Hb2 as (_ & -> & _). done.
      * lia.
      * done.
      * replace (base + (n - 1) + 1) with (base + n) by lia.
        intros p q Hp Hpq Hq. rewrite !Ha2n by lia.
        repeat case_decide; try lia.
        -- replace q with (base + (q - base)) by lia. apply Hcross; lia.
        -- apply Hsorted; lia.
      * intros k m Hk Hm. destruct (Hin2 k) as [Hmax Hup]; [lia|].
        rewrite (Ha2n (base + m)) by lia. case_decide; [done|]. apply Hup. lia.
      * lia.
      * split; [|done]. eapply reordered_trans; [exact Hb|].
        eapply reordered_trans; [|exact Hre].
        eapply reordered_mono; [| |exact Hb2]; lia.
    + split; [done|]. intros p q Hp Hpq Hq.
      destruct (decide (base + n + 1 ≤ p)); [apply Hsorted; lia|].
      destruct (decide (p = q)) as [->|]; [done|].
      assert (n = 1) as -> by lia. assert (p = base + 1) as -> by lia.
      replace q with (base + (q - base)) by lia. apply Hcross; lia.
Qed.

Lemma aheapsort_spec a tosort n :
  0 ≤ tosort -> 0 ≤ n -> tosort + n ≤ Z.of_nat (length a) -> NoDup a ->
  reordered a (aheapsort v a tosort n) tosort (tosort + n - 1)
  ∧ sorted_on v (aheapsort v a tosort n) tosort (tosort + n - 1).
Proof.
  intros Htosort Hn Hlen Hnodup. unfold aheapsort.
  rewrite Z.shiftr_div_pow2 by lia. change (2 ^ 1) with 2.
  assert (Hhalf : 0 ≤ n / 2 ≤ n ∧ n < 2 * (n / 2) + 2).
  { pose proof (Z.div_mod n 2). pose proof (Z.mod_pos_bound n 2). lia. }
  destruct (heapify_spec (tosort - 1) n (length a) a (n / 2)) as [Hre1 Hheap];
    [lia|lia|lia| |lia|].
  { intros k c Hk Hc Hcn. unfold child in Hc. lia. }
  set (a1 := heapify v (length a) a (tosort - 1) n (n / 2)) in *.
  assert (Hlen1 : length a1 = length a) by apply Hre1.
  destruct (extract_spec (tosort - 1) n (length a) a1 n) as [Hre2 Hsorted];
    [lia|lia| |lia|done| | |lia|].
  { destruct Hre1 as (_ & -> & _). done. }
  { intros p q Hp Hpq Hq. lia. }
  { intros k m Hk Hm. lia. }
  replace (tosort - 1 + 1) with tosort in * by lia.
  replace (tosort - 1 + n) with (tosort + n - 1) in * by lia.
  split; [|done]. by eapply reordered_trans.
Qed.

(** *** The ranges still to sort *)

Lemma budget_cons r rs : budget (r :: rs) = (weight r + budget rs)%nat.
Proof. reflexivity. Qed.

Lemma weight_pos r : (1 ≤ weight r)%nat.
Proof. unfold weight. lia. Qed.

Lemma across_reordered a a1 pl pr d stack rs' :
  NoDup a -> reordered a a1 pl pr -> 0 ≤ pl -> pr < Z.of_nat (length a) ->
  ordered_across v a ((pl, pr, d) :: stack) ->
  Forall (apart (pl, pr, d)) stack ->
  (∀ r, r ∈ stack -> r ∈ rs') ->
  (∀ p q, pl ≤ p -> p < q -> q ≤ pr ->
          (∀ r, r ∈ rs' -> ¬ (inside r p ∧ inside r q)) -> key v a1 p ≤ key v a1 q) ->
  ordered_across v a1 rs'.
Proof.
  intros Hnodup Hre Hpl Hpr Hacross Hapart Hkept Hin p q Hp Hpq Hq Hnot.
  assert (Hlen : length a1 = length a) by apply Hre.
  assert (Hout : ∀ r, 0 ≤ r -> r < pl ∨ pr < r -> key v a1 r = key v a r).
  { intros r Hr Hrout. unfold key. destruct Hre as (_ & _ & Ho). by rewrite Ho. }
  assert (Hstack : ∀ r p', r ∈ stack -> pl ≤ p' ≤ pr -> ¬ inside r p').
  { intros r p' Hr Hp' Hinside.
    apply (proj1 (Forall_forall _ _) Hapart) in Hr. unfold apart, inside, lo, hi in *.
    simpl in *. lia. }
  destruct (decide (pl ≤ p ≤ pr)) as [Hpin|Hpout];
    destruct (decide (pl ≤ q ≤ pr)) as [Hqin|Hqout].
  - apply Hin; [lia|lia|lia|done].
  - rewrite (Hout q) by lia.
    destruct (reordered_inside a a1 pl pr p Hnodup Hre Hpl Hpin) as (p' & Hp' & _ & Heq); [lia|].
    unfold key at 1. rewrite Heq. apply Hacross; [lia|lia|lia|].
    intros r Hr [Hrp Hrq]. apply elem_of_cons in Hr as [->|Hr].
    + unfold inside, lo, hi in Hrq. simpl in Hrq. lia.
    + by apply (Hstack r p').
  - rewrite (Hout p) by lia.
    destruct (reordered_inside a a1 pl pr q Hnodup Hre Hpl Hqin) as (q' & Hq' & _ & Heq); [lia|].
    unfold key at 2. rewrite Heq. apply Hacross; [lia|lia|lia|].
    intros r Hr [Hrp Hrq]. apply elem_of_cons in Hr as [->|Hr].
    + unfold inside, lo, hi in Hrp. simpl in Hrp. lia.
    + by apply (Hstack r q').
  - rewrite (Hout p), (Hout q) by lia. apply Hacross; [lia|lia|lia|].
    intros r Hr [Hrp Hrq]. apply elem_of_cons in Hr as [->|Hr].
    + unfold inside, lo, hi in Hrp. simpl in Hrp. lia.
    + apply (Hnot r); [by apply Hkept|done].
Qed.

(** A range sorted is a range done. *)
Lemma pending_done a0 a a1 pl pr d stack :
  NoDup a0 -> pending v a0 a ((pl, pr, d) :: stack) ->
  reordered a a1 pl pr -> sorted_on v a1 pl pr ->
  pending v a0 a1 stack.
Proof.
  intros Hnodup (Hlen & Hperm & Hwf & [Hapart Hsep] & Hacross) Hre Hsorted.
  apply Forall_cons in Hwf as [(Hlo & Hhi & _) Hwf]. unfold lo, hi in Hlo, Hhi. simpl in *.
  split; [destruct Hre; lia|]. split; [destruct Hre as (_ & -> & _); done|].
  split; [done|]. split; [done|].
  apply (across_reordered a a1 pl pr d stack); try done; try lia.
  - by rewrite Hperm.
  - intros p q Hp Hpq Hq _. apply Hsorted; lia.
Qed.

(** A range split is two ranges to sort. *)
Lemma pending_split a0 a a' pl pr pi d d1 d2 stack :
  NoDup a0 -> pending v a0 a ((pl, pr, d) :: stack) ->
  reordered a a' pl pr -> pl < pi < pr ->
  (∀ p, pl ≤ p < pi -> key v a' p ≤ key v a' pi) ->
  (∀ p, pi < p ≤ pr -> key v a' pi ≤ key v a' p) ->
  pending v a0 a' ((pl, pi - 1, d1) :: (pi + 1, pr, d2) :: stack)
  ∧ pending v a0 a' ((pi + 1, pr, d2) :: (pl, pi - 1, d1) :: stack).
Proof.
  intros Hnodup (Hlen & Hperm & Hwf & [Hapart Hsep] & Hacross) Hre Hpi Hleft Hright.
  apply Forall_cons in Hwf as [(Hlo & Hhi & _) Hwf]. unfold lo, hi in Hlo, Hhi. simpl in *.
  assert (Hsub : ∀ l h e, pl ≤ l -> h ≤ pr -> Forall (apart (l, h, e)) stack).
  { intros l h e Hl Hh. apply (Forall_impl _ _ _ Hapart). intros r.
    unfold apart, lo, hi. simpl. lia. }
  assert (Hin : ∀ rs' : list (Z * Z * Z), (pl, pi - 1, d1) ∈ rs' -> (pi + 1, pr, d2) ∈ rs' ->
            ∀ p q, pl ≤ p -> p < q -> q ≤ pr ->
              (∀ r, r ∈ rs' -> ¬ (inside r p ∧ inside r q)) -> key v a' p ≤ key v a' q).
  { intros rs' Hl Hr p q Hp Hpq Hq Hnot.
    pose proof (Hnot _ Hl) as Hnl. pose proof (Hnot _ Hr) as Hnr.
    unfold inside, lo, hi in Hnl, Hnr. simpl in Hnl, Hnr.
    destruct (decide (p < pi)); [destruct (decide (q = pi)) as [->|]|].
    - apply Hleft. lia.
    - etrans; [apply (Hleft p); lia|apply Hright; lia].
    - assert (p = pi) as -> by lia. apply Hright. lia. }
  assert (Hlen' : length a' = length a0) by (destruct Hre; lia).
  assert (Hperm' : a' ≡ₚ a0) by (destruct Hre as (_ & -> & _); done).
  assert (Hnodupa : NoDup a) by (by rewrite Hperm).
  split.
  - split; [done|]. split; [done|]. split; [|split].
    + repeat apply Forall_cons_2; try done; unfold well_formed, lo, hi; simpl; lia.
    + simpl. split; [|split; [|done]].
      * apply Forall_cons_2; [|apply Hsub; lia]. unfold apart, lo, hi. simpl. lia.
      * apply Hsub; lia.
    + apply (across_reordered a a' pl pr d stack); try done; try lia.
      * intros r Hr. by do 2 apply list_elem_of_further.
      * apply Hin; [left | right; left].
  - split; [done|]. split; [done|]. split; [|split].
    + repeat apply Forall_cons_2; try done; unfold well_formed, lo, hi; simpl; lia.
    + simpl. split; [|split; [|done]].
      * apply Forall_cons_2; [|apply Hsub; lia]. unfold apart, lo, hi. simpl. lia.
      * apply Hsub; lia.
    + apply (across_reordered a a' pl pr d stack); try done; try lia.
      * intros r Hr. by do 2 apply list_elem_of_further.
      * apply Hin; [right; left | left].
Qed.

(** The depth left plays no part. *)
Lemma pending_depth a0 a pl pr d d' stack :
  pending v a0 a ((pl, pr, d) :: stack) -> pending v a0 a ((pl, pr, d') :: stack).
Proof.
  intros (Hlen & Hperm & Hwf & [Hapart Hsep] & Hacross).
  apply Forall_cons in Hwf as [Hwf0 Hwf].
  split; [done|]. split; [done|]. split; [by apply Forall_cons_2|]. split; [done|].
  intros p q Hp Hpq Hq Hnot. apply Hacross; try done.
  intros r Hr. apply elem_of_cons in Hr as [->|Hr].
  - apply (Hnot (pl, pr, d')). left.
  - apply Hnot. by right.
Qed.

(** *** The loops of the sort *)

Lemma quick_spec a0 fuel a pl pr cdepth stack :
  NoDup a0 -> pending v a0 a ((pl, pr, cdepth) :: stack) ->
  ∃ a' pl' pr' stack',
    quick v fuel a pl pr cdepth stack = (a', pl', pr', stack')
    ∧ pending v a0 a' ((pl', pr', cdepth) :: stack')
    ∧ (budget ((pl', pr', cdepth) :: stack') ≤ budget ((pl, pr, cdepth) :: stack))%nat.
Proof.
  intros Hnodup. revert a pl pr cdepth stack.
  induction fuel as [|fuel IH]; intros a pl pr cdepth stack Hpending.
  - by exists a, pl, pr, stack.
  - simpl. destruct (Z.ltb_spec SMALL_QUICKSORT (pr - pl)) as [Hlong|Hshort];
      [|by exists a, pl, pr, stack].
    unfold SMALL_QUICKSORT in Hlong.
    assert (Hwf : well_formed (Z.of_nat (length a0)) (pl, pr, cdepth)).
    { destruct Hpending as (_ & _ & Hwf & _). by apply Forall_cons in Hwf as [? _]. }
    destruct Hwf as (Hlo & Hhi & _). unfold lo, hi in Hlo, Hhi. simpl in Hlo, Hhi.
    assert (Hlen : length a = length a0) by apply Hpending.
    destruct (split_spec a pl pr) as (a' & pi & Hsplit & Hre & Hpi & Hleft & Hright);
      [lia|lia|lia|].
    rewrite Hsplit.
    destruct (pending_split a0 a a' pl pr pi cdepth (cdepth - 1) (cdepth - 1) stack
                Hnodup Hpending Hre Hpi Hleft Hright) as [Hl Hr].
    assert (Hbudget : (weight (pl, pi - 1, cdepth - 1)%Z + weight (pi + 1, pr, cdepth - 1)%Z
                       ≤ weight (pl, pr, cdepth))%nat).
    { unfold weight, lo, hi. simpl. lia. }
    destruct (Z.ltb_spec (pi - pl) (pr - pi)).
    + destruct (IH a' pl (pi - 1) (cdepth - 1) ((pi + 1, pr, cdepth - 1) :: stack) Hl)
        as (a'' & pl' & pr' & stack' & Hrun & Hp & Hb).
      exists a'', pl', pr', stack'. split; [done|].
      split; [by apply (pending_depth _ _ _ _ (cdepth - 1))|].
      unfold budget in *. simpl in *. unfold weight, lo, hi in *. simpl in *. lia.
    + destruct (IH a' (pi + 1) pr (cdepth - 1) ((pl, pi - 1, cdepth - 1) :: stack) Hr)
        as (a'' & pl' & pr' & stack' & Hrun & Hp & Hb).
      exists a'', pl', pr', stack'. split; [done|].
      split; [by apply (pending_depth _ _ _ _ (cdepth - 1))|].
      unfold budget in *. simpl in *. unfold weight, lo, hi in *. simpl in *. lia.
Qed.

Lemma sorted_on_single a p : sorted_on v a p p.
Proof. intros q r Hq Hqr Hr. by replace r with q by lia. Qed.

Lemma run_spec a0 fuel a pl pr cdepth stack :
  NoDup a0 -> pending v a0 a ((pl, pr, cdepth) :: stack) ->
  (budget ((pl, pr, cdepth) :: stack) ≤ fuel)%nat ->
  run v fuel a pl pr cdepth stack ≡ₚ a0
  ∧ sorted_on v (run v fuel a pl pr cdepth stack) 0 (Z.of_nat (length a0) - 1).
Proof.
  intros Hnodup. revert a pl pr cdepth stack.
  induction fuel as [|fuel IH]; intros a pl pr cdepth stack Hpending Hfuel.
  { unfold budget, weight in Hfuel. simpl in Hfuel. lia. }
  simpl.
  assert (Hdone : ∃ a1 stack1,
            (if cdepth <? 0 then (aheapsort v a pl (pr - pl + 1), stack)
             else let '(a, pl, pr, stack) := quick v (length a) a pl pr cdepth stack in
                  (insertion v (length a) a pl (pl + 1) pr, stack)) = (a1, stack1)
            ∧ pending v a0 a1 stack1
            ∧ (budget stack1 ≤ fuel)%nat).
  { assert (Hlen : length a = length a0) by apply Hpending.
    assert (Hnodupa : NoDup a).
    { destruct Hpending as (_ & Hp & _). by rewrite Hp. }
    destruct (Z.ltb_spec cdepth 0).
    - assert (Hb : (budget stack ≤ fuel)%nat).
      { rewrite budget_cons in Hfuel. pose proof (weight_pos (pl, pr, cdepth)). lia. }
      assert (Hwf : well_formed (Z.of_nat (length a0)) (pl, pr, cdepth)).
      { destruct Hpending as (_ & _ & Hwf & _). by apply Forall_cons in Hwf as [? _]. }
      destruct Hwf as (Hlo & Hhi & Hsize). unfold lo, hi in Hlo, Hhi, Hsize. simpl in *.
      destruct (aheapsort_spec a pl (pr - pl + 1)) as [Hre Hsorted]; [lia|lia|lia|done|].
      replace (pl + (pr - pl + 1) - 1) with pr in * by lia.
      eexists _, _. split; [done|]. split; [by eapply pending_done|]. done.
    - destruct (quick_spec a0 (length a) a pl pr cdepth stack Hnodup Hpending)
        as (a' & pl' & pr' & stack' & Hquick & Hpending' & Hbudget).
      rewrite Hquick.
      assert (Hb : (budget stack' ≤ fuel)%nat).
      { rewrite budget_cons in Hbudget. pose proof (weight_pos (pl', pr', cdepth)). lia. }
      assert (Hwf : well_formed (Z.of_nat (length a0)) (pl', pr', cdepth)).
      { destruct Hpending' as (_ & _ & Hwf & _). by apply Forall_cons in Hwf as [? _]. }
      destruct Hwf as (Hlo & Hhi & Hsize). unfold lo, hi in Hlo, Hhi, Hsize. simpl in *.
      assert (Hlen' : length a' = length a0) by apply Hpending'.
      destruct (insertion_spec (length a') a' pl' (pl' + 1) pr') as [Hre Hsorted];
        [lia|lia|lia| |lia|].
      { replace (pl' + 1 - 1) with pl' by lia. apply sorted_on_single. }
      eexists _, _. split; [done|]. split; [by eapply pending_done|]. done. }
  destruct Hdone as (a1 & stack1 & -> & Hpending1 & Hbudget1).
  destruct stack1 as [|[[pl1 pr1] d1] stack1].
  - destruct Hpending1 as (Hlen1 & Hperm1 & _ & _ & Hacross). split; [done|].
    intros p q Hp Hpq Hq. destruct (decide (p = q)) as [->|]; [done|].
    apply Hacross; [lia|lia|lia|]. intros r Hr. by apply elem_of_nil in Hr.
  - by apply IH.
Qed.

Lemma Sorted_lookup_le (l : list Z) :
  (∀ i j x y, (i ≤ j)%nat -> l !! i = Some x -> l !! j = Some y -> x ≤ y) -> Sorted Z.le l.
Proof.
  induction l as [|x l IH]; intros H; [constructor|]. constructor.
  - apply IH. intros i j y z Hij Hi Hj. apply (H (S i) (S j)); [lia|done|done].
  - destruct l as [|y l]; constructor. apply (H 0%nat 1%nat); [lia|done|done].
Qed.

(** On any keys, the sort returns a permutation of the positions that puts
    the keys in order. *)
Lemma aquicksort_sorts_keys : sorts_keys aquicksort v.
Proof.
  unfold sorts_keys, aquicksort. cbv zeta.
  set (n := length v).
  destruct (run_spec (seq 0 n) (S n) (seq 0 n) 0 (Z.of_nat n - 1)
              (npy_get_msb (Z.of_nat n) * 2) []) as [Hperm Hsorted].
  - apply NoDup_seq.
  - split; [done|]. split; [done|]. split; [|split; [done|]].
    + apply Forall_singleton. unfold well_formed, lo, hi. simpl. rewrite length_seq. lia.
    + intros p q Hp Hpq Hq Hnot. exfalso. eapply Hnot; [left|].
      rewrite length_seq in Hq. unfold inside, lo, hi. simpl. lia.
  - unfold budget, weight, lo, hi. simpl. lia.
  - set (r := run v (S n) (seq 0 n) 0 (Z.of_nat n - 1) (npy_get_msb (Z.of_nat n) * 2) []) in *.
    rewrite length_seq in Hsorted. split; [done|].
    assert (Hr : ∀ i x, r !! i = Some x -> v !! x = Some (value v x)).
    { intros i x Hi. assert (Hx : x ∈ seq 0 n).
      { rewrite <- Hperm. apply list_elem_of_lookup. eauto. }
      apply elem_of_seq in Hx. unfold value.
      destruct (lookup_lt_is_Some_2 v x) as [k ->]; [subst n; lia|done]. }
    assert (Htake : take_indices v r = value v <$> r).
    { unfold take_indices. clear Hperm Hsorted.
      induction r as [|x r IH]; [done|]. csimpl. rewrite (Hr 0%nat x) by done. csimpl.
      rewrite IH; [done|]. intros i y Hi. apply (Hr (S i)). done. }
    rewrite Htake. apply Sorted_lookup_le. intros i j x y Hij Hi Hj.
    apply list_lookup_fmap_Some_1 in Hi as (xi & -> & Hi).
    apply list_lookup_fmap_Some_1 in Hj as (xj & -> & Hj).
    assert (Hlen : length r = n) by (by rewrite Hperm, length_seq).
    pose proof (lookup_lt_Some _ _ _ Hj) as Hjlt.
    specialize (Hsorted (Z.of_nat i) (Z.of_nat j)).
    unfold key, at_ in Hsorted. rewrite !Nat2Z.id, Hi, Hj in Hsorted.
    apply Hsorted; lia.
Qed.

End NumpySort.

(** The sort of numpy meets the contract of [argsort]. *)
Lemma aquicksort_sorts : argsort_sorts Numpy.aquicksort.
Proof. intros keys. apply aquicksort_sorts_keys. Qed.

(** ** Dates: conversion and sort *)

Section Sorting.

Lemma take_indices_seq_from {A} (pre l : list A) :
  take_indices (pre ++ l) (seq (length pre) (length l)) = l.
Proof.
  revert pre. induction l as [|x l IH]; intros pre; [done|].
  unfold take_indices in *. simpl.
  rewrite (lookup_app_r pre) by lia. rewrite Nat.sub_diag. simpl. f_equal.
  specialize (IH (pre ++ [x])). rewrite length_app in IH. simpl in IH.
  rewrite <- app_assoc in IH. simpl in IH. by rewrite Nat.add_1_r in IH.
Qed.

Lemma take_indices_seq {A} (l : list A) : take_indices l (seq 0 (length l)) = l.
Proof. apply (take_indices_seq_from [] l). Qed.

Lemma take_indices_nil {A} ix : take_indices (@nil A) ix = [].
Proof. unfold take_indices. induction ix as [|i ix IH]; [done|]. by csimpl. Qed.

Lemma take_indices_Permutation {A} (l : list A) ix :
  ix ≡ₚ seq 0 (length l) -> take_indices l ix ≡ₚ l.
Proof.
  intros H. unfold take_indices. rewrite H. fold (take_indices l (seq 0 (length l))).
  by rewrite take_indices_seq.
Qed.

Lemma take_indices_keys {A} (f : A -> option Z) (l : list A) (ks : list Z) ix :
  f <$> l = Some <$> ks ->
  f <$> take_indices l ix = Some <$> take_indices ks ix.
Proof.
  intros H. unfold take_indices. induction ix as [|i ix IH]; [done|]. csimpl.
  assert (Hi : f <$> (l !! i) = Some <$> (ks !! i))
    by (by rewrite <- !list_lookup_fmap, H).
  destruct (l !! i), (ks !! i); csimpl in *; try discriminate; [|done].
  injection Hi as Hi. by rewrite IH, Hi.
Qed.

Lemma filter_Forall_id {A} (P : A -> Prop) `{!∀ x, Decision (P x)} (l : list A) :
  Forall P l -> filter P l = l.
Proof.
  induction 1 as [|x l Hx _ IH]; [done|]. by rewrite filter_cons_True, IH.
Qed.

Lemma filter_Forall_nil {A} (P : A -> Prop) `{!∀ x, Decision (P x)} (l : list A) :
  Forall P l -> filter (fun x => ¬ P x) l = [].
Proof.
  induction 1 as [|x l Hx _ IH]; [done|]. rewrite filter_cons_False; [done|]. tauto.
Qed.

Lemma omap_filter_is_Some {A} (f : A -> option Z) (l : list A) :
  omap f (filter (fun x => is_Some (f x)) l) = omap f l.
Proof.
  induction l as [|x l IH]; [done|]. rewrite filter_cons. csimpl.
  destruct (f x) as [k|] eqn:Hk.
  - rewrite decide_True by eauto. csimpl. by rewrite Hk, IH.
  - rewrite decide_False by (by intros [? ?]). done.
Qed.

Lemma omap_keys {A} (f : A -> option Z) (l : list A) :
  Forall (fun x => is_Some (f x)) l -> f <$> l = Some <$> omap f l.
Proof.
  induction 1 as [|x l [k Hk] _ IH]; [done|]. csimpl. rewrite Hk. csimpl.
  by rewrite IH.
Qed.

Lemma StronglySorted_lookup_lt {A} (R : relation A) (l : list A) (i j : nat) x y :
  StronglySorted R l -> (i < j)%nat -> l !! i = Some x -> l !! j = Some y -> R x y.
Proof.
  intros Hsorted. revert i j. induction Hsorted as [|z l _ IH Hall]; intros i j Hij Hi Hj.
  - done.
  - destruct j as [|j]; [lia|]. simpl in Hj. destruct i as [|i]; simpl in Hi.
    + injection Hi as <-. apply (proj1 (Forall_forall _ _) Hall).
      apply list_elem_of_lookup. eauto.
    + apply (IH i j); [lia|done|done].
Qed.

Lemma StronglySorted_lt_seq (j n : nat) : StronglySorted lt (seq j n).
Proof.
  revert j. induction n as [|n IH]; intros j; simpl; constructor; [apply IH|].
  apply Forall_seq. lia.
Qed.

Lemma StronglySorted_fmap_inv {A B} (f : A -> B) (R : relation B) (l : list A) :
  StronglySorted R (f <$> l) -> StronglySorted (fun x y => R (f x) (f y)) l.
Proof.
  induction l as [|x l IH]; csimpl; [constructor|].
  intros H. apply StronglySorted_inv in H as [Hl Hx].
  constructor; [by apply IH|]. apply Forall_forall. intros y Hy.
  apply (proj1 (Forall_forall _ _) Hx). by apply list_elem_of_fmap_2.
Qed.

Lemma StronglySorted_filter {A} (R : relation A) (P : A -> Prop) `{!∀ x, Decision (P x)}
    (l : list A) :
  StronglySorted R l -> StronglySorted R (filter P l).
Proof.
  induction 1 as [|x l _ IH Hx]; [constructor|].
  rewrite filter_cons. destruct (decide (P x)); [|done].
  constructor; [done|]. apply Forall_forall. intros y Hy.
  apply list_elem_of_filter in Hy as [_ Hy]. by apply (proj1 (Forall_forall _ _) Hx).
Qed.

End Sorting.

Lemma index_DataFrame_records records :
  index (DataFrame_records records) = seq 0 (length records).
Proof.
  unfold index. simpl. apply list_eq. intros i.
  rewrite list_lookup_fmap, list_lookup_imap.
  destruct (records !! i) as [r|] eqn:Hi; simpl; symmetry.
  - apply lookup_seq. split; [done|]. by apply lookup_lt_Some in Hi.
  - apply lookup_seq_ge. by apply lookup_ge_None in Hi.
Qed.

(** A column of the frame of a list of records: the field of each record,
    [NaN] where it is missing. *)
Lemma column_DataFrame_records c (records : list (list (string * json))) :
  c ∈ union_keys records ->
  column c (DataFrame_records records) = Ok ((fun r => cell_of (dict_get c r)) <$> records).
Proof.
  intros Hc. unfold column. simpl. rewrite bool_decide_eq_true_2 by done. f_equal.
  apply list_eq. intros i. rewrite !list_lookup_fmap, list_lookup_imap.
  destruct (records !! i) as [r|]; [|done]. simpl. by rewrite (row_of_lookup _ _ _ Hc).
Qed.

Lemma row_of_lookup_None cols (r : list (string * json)) c :
  c ∉ cols -> row_of cols r !! c = None.
Proof.
  intros Hc. unfold row_of. apply not_elem_of_list_to_map_1.
  rewrite <- list_fmap_compose. simpl. by rewrite list_fmap_id.
Qed.

Section Conversion.
Context (E : Env).

(** The conversion of the row of a record whose [fecha] is in the columns. *)
Lemma convert_row_of cols (r : list (string * json)) (i : nat) :
  "fecha" ∈ cols ->
  convert_row E "fecha" (i, row_of cols r)
  = (d ← to_datetime_cell E (cell_of (dict_get "fecha" r));
     Some (i, <["fecha" := Datetime d]> (row_of cols r))).
Proof. intros Hin. unfold convert_row. simpl. by rewrite (row_of_lookup _ _ _ Hin). Qed.

(** One record with a [fecha] makes the frame non-empty, with that column. *)
Lemma frame_with_fecha records r :
  r ∈ records -> is_Some (dict_get "fecha" r) ->
  negb (empty (DataFrame_records records)) && has_column "fecha" (DataFrame_records records)
  = true.
Proof.
  intros Hr Hfecha.
  assert (Hcol : has_column "fecha" (DataFrame_records records) = true)
    by (apply has_column_records; eauto).
  rewrite Hcol, andb_true_r. apply negb_true_iff. unfold empty.
  apply orb_false_iff. split; apply bool_decide_eq_false.
  - rewrite rows_DataFrame_records_nil. intros ->. by apply elem_of_nil in Hr.
  - intros Hnil. unfold has_column in Hcol. apply bool_decide_eq_true in Hcol.
    rewrite Hnil in Hcol. by apply elem_of_nil in Hcol.
Qed.

(** One record with a [fecha] that does not parse fails the conversion of
    the column. *)
Lemma to_datetime_column_unparsable records r :
  r ∈ records -> unparsable E r ->
  to_datetime_column E "fecha" (DataFrame_records records) = Raise ValueError.
Proof.
  intros Hr (v & Hv & Hparse). unfold to_datetime_column.
  replace (mapM (convert_row E "fecha") (rows (DataFrame_records records))) with
    (@None (list (nat * gmap string cell))); [done|].
  symmetry. apply mapM_None_2, Exists_exists.
  apply list_elem_of_lookup in Hr as [i Hi].
  exists (i, row_of (union_keys records) r). split.
  - by apply elem_of_rows_DataFrame_records.
  - rewrite convert_row_of.
    + rewrite Hv. simpl cell_of. by rewrite Hparse.
    + apply elem_of_union_keys. exists r. split; [|by rewrite Hv].
      apply list_elem_of_lookup. eauto.
Qed.

(** The conversion raises nothing but the error of the parser. *)
Lemma to_datetime_column_raises col df e :
  to_datetime_column E col df = Raise e -> e = ValueError.
Proof.
  unfold to_datetime_column. destruct (mapM (convert_row E col) _); [|by intros [= <-]].
  destruct (mapM _ _); [done|]. by intros [= <-].
Qed.

(** When the conversion returns, no cell was refused alone, and the rows
    are those read within the column. *)
Lemma to_datetime_column_Ok col df df0 :
  to_datetime_column E col df = Ok df0 ->
  is_Some (mapM (convert_row E col) (rows df))
  ∧ columns df0 = columns df
  ∧ mapM (convert_row_in E ((fun r => default NaN (r.2 !! col)) <$> rows df) col) (rows df)
    = Some (rows df0).
Proof.
  unfold to_datetime_column. destruct (mapM (convert_row E col) _) as [rows'|]; [|done].
  destruct (mapM _ _) as [rows0|]; [|done]. intros [= <-]. eauto.
Qed.

(** Each converted row is the row it comes from, under the same label,
    with a date in the column. *)
Lemma convert_rows_in series col rows0 rows1 :
  mapM (convert_row_in E series col) rows0 = Some rows1 ->
  Forall2 (fun row row' => row'.1 = row.1 ∧ ∃ d, row'.2 = <[col := Datetime d]> row.2)
          rows0 rows1.
Proof.
  intros H. apply mapM_Some_1 in H.
  induction H as [|row row' l l' Hrow _ IH]; constructor; [|done].
  unfold convert_row_in in Hrow. destruct (row.2 !! col) as [c|]; [|done]. simpl in Hrow.
  destruct (to_datetime_cell_in E series c) as [d|]; [|done]. injection Hrow as <-. eauto.
Qed.

(** The converted frame of a list of records: the columns and the labels
    of the records, and in each row a date in place of the [fecha]. *)
Lemma converted_records records df0 :
  to_datetime_column E "fecha" (DataFrame_records records) = Ok df0 ->
  columns df0 = union_keys records
  ∧ index df0 = seq 0 (length records)
  ∧ rows_of_records records df0
  ∧ (records ≠ [] -> "fecha" ∈ union_keys records).
Proof.
  intros Hconv. apply to_datetime_column_Ok in Hconv as (Halone & Hcols & Hin).
  apply convert_rows_in in Hin.
  assert (Hlabels : (rows df0).*1 = (rows (DataFrame_records records)).*1).
  { clear Halone. induction Hin as [|row row' l l' [Hl _] _ IH]; [done|]. csimpl. by rewrite Hl, IH. }
  split; [done|]. split; [|split].
  - unfold index at 1. rewrite Hlabels. apply index_DataFrame_records.
  - unfold rows_of_records. apply Forall_lookup. intros i row' Hrow'.
    destruct (Forall2_lookup_r _ _ _ _ _ Hin Hrow') as (row & Hrow & Hl & d & Hd).
    simpl in Hrow. rewrite list_lookup_imap in Hrow.
    destruct (records !! i) as [r|] eqn:Hr; [|done]. injection Hrow as <-.
    simpl in Hl, Hd. exists r, d. by rewrite Hl.
  - intros Hne. destruct records as [|r records]; [done|].
    destruct (decide ("fecha" ∈ union_keys (r :: records))) as [|Hnot]; [done|].
    destruct Halone as [rows' Halone]. apply mapM_Some_1 in Halone.
    simpl in Halone. apply Forall2_cons_inv_l in Halone as (row' & l' & Hrow & _ & _).
    unfold convert_row in Hrow. simpl in Hrow.
    by rewrite (row_of_lookup_None _ _ _ Hnot) in Hrow.
Qed.

(** When the conversion of the column returns, the builder returns its
    result, sorted. *)
Lemma build_converted records df0 :
  to_datetime_column E "fecha" (DataFrame_records records) = Ok df0 ->
  build E (records_json records) = Ok (sort_values E "fecha" quicksort df0).
Proof.
  intros Hconv. unfold build. rewrite pd_DataFrame_records, bind_Ok.
  destruct records as [|r records].
  - injection Hconv as <-. unfold sort_values. simpl.
    rewrite !filter_nil, take_indices_nil. reflexivity.
  - destruct (converted_records _ _ Hconv) as (_ & _ & _ & Hcol).
    apply elem_of_union_keys in Hcol as (r' & Hr' & Hfecha); [|done].
    by rewrite (frame_with_fecha _ r' Hr' Hfecha), Hconv, bind_Ok.
Qed.

(** The sort of a frame whose rows all have a date. *)
Lemma sort_values_dated kind cols rows0 :
  sorts_keys (argsort E kind) (omap (sort_key "fecha") rows0) ->
  Forall (fun row => is_Some (sort_key "fecha" row)) rows0 ->
  rows (sort_values E "fecha" kind {| columns := cols; rows := rows0 |}) ≡ₚ rows0
  ∧ ∃ ts, dates (sort_values E "fecha" kind {| columns := cols; rows := rows0 |}) = Some <$> ts
          ∧ Sorted Z.le ts.
Proof.
  intros Hsorts Hdated. unfold sort_values, dates. simpl.
  rewrite (filter_Forall_id _ _ Hdated), (filter_Forall_nil _ _ Hdated), app_nil_r.
  set (keys := omap (sort_key "fecha") rows0) in *.
  destruct Hsorts as [Hperm Hsorted].
  assert (Hkeys : sort_key "fecha" <$> rows0 = Some <$> keys) by by apply omap_keys.
  assert (Hlen : length keys = length rows0).
  { apply (f_equal length) in Hkeys. by rewrite !length_fmap in Hkeys. }
  split.
  - apply take_indices_Permutation. by rewrite <- Hlen.
  - exists (take_indices keys (argsort E kind keys)). split; [|done].
    by apply take_indices_keys.
Qed.

(** The sort of any frame: the rows with a date in the order of their
    dates, then the rows without, in the order they had. *)
Lemma sort_values_spec kind (df0 : DataFrame) :
  sorts_keys (argsort E kind) (date_keys df0) ->
  ∃ ts,
    rows (sort_values E "fecha" kind df0) ≡ₚ rows df0
    ∧ dates (sort_values E "fecha" kind df0)
      = (Some <$> ts) ++ replicate (length (rows df0) - length ts) None
    ∧ Sorted Z.le ts
    ∧ (StronglySorted lt (index df0) ->
       Sorted lt (drop (length ts) (index (sort_values E "fecha" kind df0)))).
Proof.
  intros Hsorts. destruct df0 as [cols rows0].
  unfold date_keys in Hsorts. simpl in Hsorts.
  rewrite <- (omap_filter_is_Some (sort_key "fecha") rows0) in Hsorts.
  unfold sort_values, dates, index. simpl.
  set (dated := filter (fun row => is_Some (sort_key "fecha" row)) rows0) in *.
  set (missing := filter (fun row => ¬ is_Some (sort_key "fecha" row)) rows0).
  set (keys := omap (sort_key "fecha") dated) in *.
  set (ix := argsort E kind keys) in *.
  destruct Hsorts as [Hperm Hsorted].
  assert (Hkeys : sort_key "fecha" <$> dated = Some <$> keys).
  { apply omap_keys, Forall_forall. intros row Hrow.
    by apply list_elem_of_filter in Hrow as [? _]. }
  assert (Hklen : length keys = length dated).
  { apply (f_equal length) in Hkeys. by rewrite !length_fmap in Hkeys. }
  assert (Htake : take_indices dated ix ≡ₚ dated).
  { apply take_indices_Permutation. by rewrite <- Hklen. }
  assert (Hsplit : take_indices dated ix ++ missing ≡ₚ rows0).
  { rewrite Htake. apply filter_app_complement. }
  assert (Hdates : sort_key "fecha" <$> take_indices dated ix
                   = Some <$> take_indices keys ix) by by apply take_indices_keys.
  assert (Htslen : length (take_indices keys ix) = length dated).
  { apply (f_equal length) in Hdates. rewrite !length_fmap in Hdates.
    rewrite <- Hdates. by rewrite Htake. }
  assert (Hmlen : (length rows0 - length (take_indices keys ix))%nat = length missing).
  { rewrite Htslen. rewrite <- (Permutation_length (filter_app_complement
      (fun row => is_Some (sort_key "fecha" row)) rows0)).
    fold dated missing. rewrite length_app. lia. }
  exists (take_indices keys ix). split; [done|]. split; [|split; [done|]].
  - rewrite fmap_app, Hdates. f_equal.
    rewrite Hmlen. apply const_fmap. intros i row Hrow.
    assert (Hin : row ∈ missing) by (apply list_elem_of_lookup; eauto).
    apply list_elem_of_filter in Hin as [Hnone _].
    destruct (sort_key "fecha" row); [|done]. destruct Hnone. eauto.
  - intros Hlabels. rewrite fmap_app.
    rewrite drop_app_length' by (by rewrite length_fmap, Htake, Htslen).
    apply StronglySorted_Sorted.
    apply (StronglySorted_fmap _ (fun x y => (x.1 < y.1)%nat)); [done|].
    by apply StronglySorted_filter, StronglySorted_fmap_inv.
Qed.

(** The frame built from a list of records whose column of dates converts,
    row by row. *)
Lemma build_rows_spec records df0 :
  to_datetime_column E "fecha" (DataFrame_records records) = Ok df0 ->
  sorts_keys (argsort E quicksort) (date_keys df0) ->
  ∃ df ts,
    build E (records_json records) = Ok df
    ∧ columns df = columns df0
    ∧ rows df ≡ₚ rows df0
    ∧ index df ≡ₚ seq 0 (length records)
    ∧ rows_of_records records df
    ∧ dates df = (Some <$> ts) ++ replicate (length records - length ts) None
    ∧ Sorted Z.le ts
    ∧ Sorted lt (drop (length ts) (index df)).
Proof.
  intros Hconv Hsorts.
  destruct (converted_records _ _ Hconv) as (Hcols & Hidx & Hrows & _).
  destruct (sort_values_spec quicksort df0 Hsorts) as (ts & Hperm & Hdates & Hsorted & Htail).
  assert (Hlen : length (rows df0) = length records).
  { apply (f_equal length) in Hidx. unfold index in Hidx.
    by rewrite length_fmap, length_seq in Hidx. }
  exists (sort_values E "fecha" quicksort df0), ts.
  split; [by apply build_converted|]. split; [done|]. split; [done|].
  split; [|split; [|split; [|split; [done|]]]].
  - unfold index. rewrite Hperm. fold (index df0). by rewrite Hidx.
  - unfold rows_of_records. rewrite Hperm. exact Hrows.
  - by rewrite Hdates, Hlen.
  - apply Htail. rewrite Hidx. apply StronglySorted_lt_seq.
Qed.

End Conversion.

(** C6: for every record list with at least one record whose [fecha] does
    not parse, the build fails as a whole: the conversion of the column
    raises, no frame is produced, with or without the bad record.
    [get_datos_variable] lets the error through, and
    [get_multiple_variables] is where it is caught: it returns, with the
    empty frame for that identifier. *)
Theorem unparsable_date_fails_build (E : Env) (records : list (list (string * json))) :
  (∃ r, r ∈ records ∧ unparsable E r) ->
  build E (records_json records) = Raise ValueError
  ∧ ∀ id dias_atras data,
      get_variables_monetarias E (Some id)
        (Some (strftime_days_ago E dias_atras)) (Some (strftime_days_ago E 0)) = Ok data ->
      normalize data = Ok (records_json records) ->
      get_datos_variable E id dias_atras = Raise ValueError
      ∧ ∀ ids, id ∈ ids ->
          ∃ m out, get_multiple_variables E ids dias_atras = Ok (m, out)
                   ∧ m !! id = Some empty_frame.
Proof.
  intros (r & Hr & Hbad).
  assert (Hbuild : build E (records_json records) = Raise ValueError).
  { unfold build. rewrite pd_DataFrame_records, bind_Ok.
    rewrite (frame_with_fecha records r Hr).
    - by rewrite (to_datetime_column_unparsable E records r Hr Hbad).
    - destruct Hbad as (v & -> & _). eauto. }
  split; [done|]. intros id dias_atras data Hdata Hnorm.
  assert (Hfetch : get_datos_variable E id dias_atras = Raise ValueError).
  { by rewrite get_datos_variable_pipeline, Hdata, bind_Ok, Hnorm, bind_Ok. }
  split; [done|]. intros ids Hid.
  destruct (get_multiple_variables_loop_spec E dias_atras ids ∅ [])
    as (m & out & Hrun & Hin & _).
  exists m, out. split; [done|]. by rewrite (Hin _ Hid), Hfetch.
Qed.

Lemma unparsable_date_fails_build_witness :
  build (Demo.serving (Demo.always Demo.server_error))
        (records_json [Demo.record "2024-01-02" 5; Demo.record "no date" 3])
  = Raise ValueError.
Proof.
  refine (proj1 (unparsable_date_fails_build (Demo.serving (Demo.always Demo.server_error))
                   [Demo.record "2024-01-02" 5; Demo.record "no date" 3] _)).
  exists (Demo.record "no date" 3). split.
  - apply list_elem_of_In. right. left. reflexivity.
  - exists (JStr "no date"). split; reflexivity.
Defined.

(** Through the whole pipeline: identifier 4 gets a record whose date does
    not parse; its entry is the empty frame, the error is printed, and
    identifier 1 has its series. *)
Lemma bad_date_is_isolated :
  get_datos_variable (Demo.serving Demo.server_bad_date_on_4) 4 30 = Raise ValueError
  ∧ ∃ m, get_multiple_variables (Demo.serving Demo.server_bad_date_on_4) [1; 4] 30
         = Ok (m, [ErrorAlObtenerVariable 4 ValueError])
         ∧ m !! 4 = Some empty_frame
         ∧ index <$> m !! 1 = Some [1; 0]%nat.
Proof. split; [reflexivity|]. eexists. split; [reflexivity|]. by vm_compute. Qed.

(** Dates that parse one by one need not parse together: where pandas
    reads a column in the format of its first value, two records with a
    date each, in two formats, fail the build. *)
Lemma dates_of_two_formats_fail :
  Forall (parsable Demo.reading_two_formats) Demo.two_formats_records
  ∧ build Demo.reading_two_formats (records_json Demo.two_formats_records) = Raise ValueError.
Proof.
  split; [|reflexivity].
  repeat constructor; eexists _, _; split; reflexivity.
Qed.

(** C3, as the specification states it, fails: [sort_values] is called with
    its default [kind], quicksort, which is numpy's introsort and is not
    stable.  Eighteen records of one and the same day, more than the 17
    that numpy sorts by insertion, are partitioned once, and come out with
    the labels 0, 15, 14, ..., 1, 16, 17: in date order, and not in the order
    of the input. *)
Lemma equal_dates_not_in_input_order :
  ∃ df0 df,
    to_datetime_column Demo.offline "fecha" (DataFrame_records Demo.same_day_records) = Ok df0
    ∧ all_dated df0
    ∧ sorts_keys (argsort Demo.offline quicksort) (date_keys df0)
    ∧ build Demo.offline (records_json Demo.same_day_records) = Ok df
    ∧ dates df = replicate 18 (Some 1704153600000000000)
    ∧ index df = [0; 15; 14; 13; 12; 11; 10; 9; 8; 7; 6; 5; 4; 3; 2; 1; 16; 17]%nat
    ∧ ¬ stable_order df.
Proof.
  pose proof (eq_refl : bool_decide (all_dated (frame_or_empty
     (to_datetime_column Demo.offline "fecha" (DataFrame_records Demo.same_day_records))))
     = true) as Hdated.
  apply bool_decide_eq_true in Hdated.
  destruct (to_datetime_column Demo.offline "fecha" (DataFrame_records Demo.same_day_records))
    as [df0|e] eqn:Hconv; [|by vm_compute in Hconv].
  assert (Hindex : index (frame_or_empty
            (build Demo.offline (records_json Demo.same_day_records)))
          = [0; 15; 14; 13; 12; 11; 10; 9; 8; 7; 6; 5; 4; 3; 2; 1; 16; 17]%nat)
    by (by vm_compute).
  assert (Hdates : dates (frame_or_empty
            (build Demo.offline (records_json Demo.same_day_records)))
          = replicate 18 (Some 1704153600000000000)) by (by vm_compute).
  destruct (build Demo.offline (records_json Demo.same_day_records)) as [df|e] eqn:Hb;
    [|by vm_compute in Hb].
  simpl in Hindex, Hdates, Hdated.
  exists df0, df. split; [done|]. split; [done|]. split; [apply aquicksort_sorts|].
  split; [done|]. split; [done|]. split; [done|]. intros Hstable.
  assert (H1 : index df !! 1%nat = Some 15%nat) by (by rewrite Hindex).
  assert (H2 : index df !! 2%nat = Some 14%nat) by (by rewrite Hindex).
  assert (D1 : dates df !! 1%nat = Some (Some 1704153600000000000)) by (by rewrite Hdates).
  assert (D2 : dates df !! 2%nat = Some (Some 1704153600000000000)) by (by rewrite Hdates).
  unfold index in H1, H2. unfold dates in D1, D2.
  apply list_lookup_fmap_Some_1 in H1 as (r1 & Hl1 & Hr1).
  apply list_lookup_fmap_Some_1 in H2 as (r2 & Hl2 & Hr2).
  rewrite list_lookup_fmap, Hr1 in D1. rewrite list_lookup_fmap, Hr2 in D2.
  simpl in D1, D2. injection D1 as D1. injection D2 as D2.
  assert (Hlt := Hstable 1%nat 2%nat r1 r2 ltac:(lia) Hr1 Hr2 ltac:(congruence)).
  lia.
Qed.

(** C3 (amended): for every record list whose column of dates pandas
    converts as a whole (every record has a [fecha], and each is a date
    under the one format of the column), and provided the permutation that
    numpy's argsort returns for those dates, under the default kind of
    [sort_values], is one that sorts them (as the introsort of numpy does,
    [aquicksort_sorts]), the builder returns a frame that has one row per
    record, the converted row of that record, in non-decreasing order of
    date.  Nothing is promised on the order of rows with equal dates. *)
Theorem build_sorts_by_date (E : Env) (records : list (list (string * json)))
    (df0 : DataFrame) :
  to_datetime_column E "fecha" (DataFrame_records records) = Ok df0 ->
  all_dated df0 ->
  sorts_keys (argsort E quicksort) (date_keys df0) ->
  ∃ df,
    build E (records_json records) = Ok df
    ∧ columns df = columns df0
    ∧ rows df ≡ₚ rows df0
    ∧ index df ≡ₚ seq 0 (length records)
    ∧ rows_of_records records df
    ∧ ∃ ts, dates df = Some <$> ts ∧ Sorted Z.le ts.
Proof.
  intros Hconv Hdated Hsorts.
  destruct (converted_records E _ _ Hconv) as (Hcols & Hidx & Hrows & _).
  rewrite (build_converted E _ _ Hconv). destruct df0 as [cols rows0].
  destruct (sort_values_dated E quicksort cols rows0 Hsorts Hdated)
    as (Hperm & ts & Hts & Hsorted).
  eexists. split; [reflexivity|]. split; [done|]. split; [done|]. split; [|split; [|eauto]].
  - unfold index in *. simpl in *. by rewrite Hperm, Hidx.
  - unfold rows_of_records. rewrite Hperm. exact Hrows.
Qed.

Lemma build_sorts_by_date_witness :
  ∃ df0,
    to_datetime_column Demo.offline "fecha" (DataFrame_records Demo.january_records) = Ok df0
    ∧ ∃ df,
        build Demo.offline (records_json Demo.january_records) = Ok df
        ∧ columns df = columns df0
        ∧ rows df ≡ₚ rows df0
        ∧ index df ≡ₚ seq 0 20
        ∧ rows_of_records Demo.january_records df
        ∧ ∃ ts, dates df = Some <$> ts ∧ Sorted Z.le ts.
Proof.
  eexists. split; [vm_compute; reflexivity|].
  apply (build_sorts_by_date Demo.offline Demo.january_records).
  - vm_compute. reflexivity.
  - apply (bool_decide_unpack _). vm_compute. reflexivity.
  - apply aquicksort_sorts.
Defined.

(** On those twenty records the sort of numpy partitions once; the series
    comes out from the 1st to the 20th. *)
Lemma january_records_example :
  let df := frame_or_empty (build Demo.offline (records_json Demo.january_records)) in
  index df = [0; 3; 6; 9; 12; 15; 18; 1; 4; 7; 10; 13; 16; 19; 2; 5; 8; 11; 14; 17]%nat
  ∧ dates df = (fun d => Some ((Demo.days_from_civil 2024 1 1 + Z.of_nat d) * 86400000000000))
               <$> seq 0 20.
Proof. by vm_compute. Qed.

(** The scenario of the specification: the nested envelope with the later
    record first gives the series [(2024-01-01, 3), (2024-01-02, 5)]. *)
Lemma nested_envelope_scenario :
  let E := Demo.serving (Demo.always (Demo.ok_response
             (mapping_envelope [Demo.record "2024-01-02" 5; Demo.record "2024-01-01" 3]))) in
  let df := frame_or_empty (get_datos_variable E 1 30) in
  dates df = [Some (Demo.days_from_civil 2024 1 1 * 86400000000000);
              Some (Demo.days_from_civil 2024 1 2 * 86400000000000)]
  ∧ column "valor" df = Ok [Obj (JInt 3); Obj (JInt 5)].
Proof. by vm_compute. Qed.

(** ** The report input of the dashboard *)

Section Report.
Context (E : Env).

Lemma fetch_one_entries id i datos out datos' out' :
  fetch_one E id i datos out = Ok (datos', out') ->
  datos' = datos
  ∨ ∃ df e, get_datos_variable E id DIAS_ATRAS = Ok df ∧ empty df = false
            ∧ datos' = <[id := e]> datos.
Proof.
  unfold fetch_one.
  destruct (get_datos_variable E id DIAS_ATRAS) as [df|err]; rewrite ?bind_Ok, ?bind_Raise;
    [|done].
  destruct (empty df) eqn:Hempty; simpl negb; cbv iota.
  - intros [= <- _]. by left.
  - destruct (to_csv E _ df); rewrite ?bind_Ok, ?bind_Raise; [|done].
    destruct (column "fecha" df); rewrite ?bind_Ok, ?bind_Raise; [|done].
    destruct (dt_strftime E _); rewrite ?bind_Ok, ?bind_Raise; [|done].
    destruct (column "valor" df); rewrite ?bind_Ok, ?bind_Raise; [|done].
    intros [= <- _]. right. eauto.
Qed.

Lemma fetch_datos_loop_spec variables :
  ∀ datos out, ∃ datos' out',
    fetch_datos_loop E variables datos out = Ok (datos', out')
    ∧ ∀ id, is_Some (datos' !! id) ->
        is_Some (datos !! id)
        ∨ (id ∈ variables.*1
           ∧ ∃ df, get_datos_variable E id DIAS_ATRAS = Ok df ∧ empty df = false).
Proof.
  induction variables as [|[id_var i] variables IH]; intros datos out; simpl.
  - exists datos, out. split; [done|]. by left.
  - set (out1 := out ++ [Consultando (nombre i) id_var]).
    assert (Hst : ∃ datos1 out2,
               try_except (fetch_one E id_var i datos out1)
                          (fun e => Ok (datos, out1 ++ [Error e])) = Ok (datos1, out2)
               ∧ (datos1 = datos
                  ∨ ∃ df e, get_datos_variable E id_var DIAS_ATRAS = Ok df ∧ empty df = false
                            ∧ datos1 = <[id_var := e]> datos)).
    { destruct (fetch_one E id_var i datos out1) as [[datos1 out2]|err] eqn:Hone; simpl.
      - exists datos1, out2. split; [done|]. by apply fetch_one_entries in Hone.
      - exists datos, (out1 ++ [Error err]). split; [done|]. by left. }
    destruct Hst as (datos1 & out2 & -> & Hone). rewrite bind_Ok. simpl.
    destruct (IH datos1 out2) as (datos' & out' & Hloop & Hentries).
    exists datos', out'. split; [done|]. intros id Hid.
    destruct (Hentries id Hid) as [Hold|[Hin Hfetch]].
    + destruct Hone as [->|(df & e & Hfetch & Hempty & ->)]; [by left|].
      destruct (decide (id = id_var)) as [->|Hne].
      * right. split; [left|eauto].
      * left. by rewrite lookup_insert_ne in Hold.
    + right. split; [by right | done].
Qed.

End Report.

(** C8: [fetch_datos] returns, and the mapping it returns has an entry only
    for a requested identifier whose fetch returned a frame that is not
    empty; an identifier whose fetch raised, or returned an empty frame,
    has no entry at all. *)
Theorem report_entries_only_for_data (E : Env) :
  ∃ datos out,
    fetch_datos E = Ok (datos, out)
    ∧ (∀ id, is_Some (datos !! id) ->
         id ∈ VARIABLES.*1
         ∧ ∃ df, get_datos_variable E id DIAS_ATRAS = Ok df ∧ empty df = false)
    ∧ (∀ id e, get_datos_variable E id DIAS_ATRAS = Raise e -> datos !! id = None)
    ∧ (∀ id df, get_datos_variable E id DIAS_ATRAS = Ok df -> empty df = true ->
         datos !! id = None).
Proof.
  destruct (fetch_datos_loop_spec E VARIABLES ∅ []) as (datos & out & Hrun & Hentries).
  assert (Honly : ∀ id, is_Some (datos !! id) ->
            id ∈ VARIABLES.*1
            ∧ ∃ df, get_datos_variable E id DIAS_ATRAS = Ok df ∧ empty df = false).
  { intros id Hid. destruct (Hentries id Hid) as [Hold|?]; [|done].
    rewrite lookup_empty in Hold. by destruct Hold. }
  exists datos, out. split; [done|]. split; [done|]. split.
  - intros id e Hfetch. apply eq_None_not_Some. intros Hid.
    destruct (Honly id Hid) as (_ & df & Hdf & _). congruence.
  - intros id df Hfetch Hempty. apply eq_None_not_Some. intros Hid.
    destruct (Honly id Hid) as (_ & df' & Hdf & Hne). congruence.
Qed.

Lemma report_entries_only_for_data_witness :
  ∃ datos out,
    fetch_datos (Demo.serving Demo.server_failing_on_4) = Ok (datos, out)
    ∧ (∀ id, is_Some (datos !! id) ->
         id ∈ VARIABLES.*1
         ∧ ∃ df, get_datos_variable (Demo.serving Demo.server_failing_on_4) id DIAS_ATRAS = Ok df
                 ∧ empty df = false)
    ∧ (∀ id e, get_datos_variable (Demo.serving Demo.server_failing_on_4) id DIAS_ATRAS
               = Raise e -> datos !! id = None)
    ∧ (∀ id df, get_datos_variable (Demo.serving Demo.server_failing_on_4) id DIAS_ATRAS
                = Ok df -> empty df = true -> datos !! id = None).
Proof. exact (report_entries_only_for_data (Demo.serving Demo.server_failing_on_4)). Defined.

(** On the server that fails on identifier 4, the report has the four other
    variables and no entry for 4. *)
Lemma report_omits_failed_variable :
  ∃ datos out,
    fetch_datos (Demo.serving Demo.server_failing_on_4) = Ok (datos, out)
    ∧ dom datos = {[1; 5; 12; 15]}
    ∧ datos !! 4 = None
    ∧ entry_nombre <$> datos !! 1 = Some "Reservas Internacionales"
    ∧ ultimo <$> datos !! 1 = Some (Some (Obj (JInt 5))).
Proof. eexists _, _. split; [reflexivity|]. by vm_compute. Qed.

(** * Further properties of the code *)

(** ** [get_multiple_variables] on any list of identifiers *)

Lemma size_list_to_set_le (ids : list Z) :
  (size (list_to_set ids : gset Z) ≤ length ids)%nat.
Proof.
  induction ids as [|id ids IH].
  - rewrite list_to_set_nil, size_empty. done.
  - rewrite list_to_set_cons, size_union_alt, size_singleton. simpl.
    assert (Hsub : (list_to_set ids ∖ {[id]} : gset Z) ⊆ list_to_set ids)
      by apply subseteq_difference_l, reflexivity.
    apply subseteq_size in Hsub. lia.
Qed.

Section BatchReport.
Context (E : Env) (dias_atras : Z).

Lemma get_multiple_variables_loop_out ids :
  ∀ resultados out, ∃ m,
    get_multiple_variables_loop E ids dias_atras resultados out
    = Ok (m, out ++ omap (failure_line E dias_atras) ids).
Proof.
  induction ids as [|id ids IH]; intros resultados out; simpl.
  - exists resultados. by rewrite app_nil_r.
  - unfold failure_line at 1.
    destruct (get_datos_variable E id dias_atras) as [df|e]; simpl.
    + apply IH.
    + destruct (IH (<[id := empty_frame]> resultados) (out ++ [ErrorAlObtenerVariable id e]))
        as [m Hm].
      exists m. by rewrite Hm, <- app_assoc.
Qed.

End BatchReport.

(** X1: for every list of identifiers, repeated or not,
    [get_multiple_variables] returns a map whose keys are exactly the
    identifiers of the list, an identifier asked twice having one entry,
    and it prints one line for each request that raised, in the order of
    the requests, with the identifier and the exception, and nothing for
    a request that returned. *)
Theorem batch_report (E : Env) (ids : list Z) (dias_atras : Z) :
  ∃ m,
    get_multiple_variables E ids dias_atras = Ok (m, omap (failure_line E dias_atras) ids)
    ∧ dom m = list_to_set ids
    ∧ (size m ≤ length ids)%nat
    ∧ ∀ id, id ∈ ids ->
        m !! id = Some (frame_or_empty (get_datos_variable E id dias_atras)).
Proof.
  destruct (get_multiple_variables_loop_out E dias_atras ids ∅ []) as [m Hout].
  destruct (get_multiple_variables_loop_spec E dias_atras ids ∅ [])
    as (m' & out' & Hrun & Hin & Hnotin).
  rewrite Hout in Hrun. injection Hrun as <- _.
  assert (Hdom : dom m = list_to_set ids).
  { apply set_eq. intros id. rewrite elem_of_dom, elem_of_list_to_set. split.
    - intros Hsome. destruct (decide (id ∈ ids)) as [|Hnot]; [done|].
      rewrite (Hnotin _ Hnot), lookup_empty in Hsome. by destruct Hsome.
    - intros Hid. rewrite (Hin _ Hid). eauto. }
  exists m. split; [done|]. split; [done|]. split; [|done].
  rewrite <- size_dom, Hdom. apply size_list_to_set_le.
Qed.

Lemma batch_report_example :
  ∃ m,
    get_multiple_variables (Demo.serving Demo.server_failing_on_4) [4; 1; 4] 30
    = Ok (m, [ErrorAlObtenerVariable 4 (HTTPError 500 "Internal Server Error");
              ErrorAlObtenerVariable 4 (HTTPError 500 "Internal Server Error")])
    ∧ size m = 2%nat
    ∧ m !! 4 = Some empty_frame.
Proof. eexists. split; [reflexivity|]. by vm_compute. Qed.

(** ** The failures of the normalizer *)







(** X2: on an envelope whose [results] is a non-empty list, a first element
    that is not a mapping makes the normalizer raise [TypeError] when it is
    [None], a boolean or a number (the membership test is not defined on
    it), and when it is a list or a string in which [in] finds ['detalle']
    (the indexing by key that follows is not defined on it). *)
Theorem normalize_probe_failure (envelope : list (string * json)) :
  first_probe_ok envelope = false ->
  normalize (JObj envelope) = Raise TypeError.
Proof.
  unfold first_probe_ok, normalize. intros Hprobe.
  destruct (dict_get "results" envelope) as [results|] eqn:Hres; [|done].
  destruct results as [| | | | s | items | fields]; try done.
  destruct items as [|first rest]; [done|].
  rewrite (contains_dict_Some _ _ _ Hres), bind_Ok.
  rewrite (getitem_dict_Some _ _ _ Hres), bind_Ok.
  unfold and_then at 1. unfold isinstance_dict. rewrite bind_Ok.
  unfold first_has_detalle, and_then, isinstance_list, len_positive, item0.
  rewrite bind_Ok.
  destruct first as [| | | | s | items | fields]; simpl in Hprobe; try done.
  - apply negb_false_iff in Hprobe. simpl. by rewrite Hprobe.
  - apply negb_false_iff in Hprobe. simpl. by rewrite Hprobe.
Qed.

Lemma normalize_probe_failure_witness :
  normalize (JObj [("results", JArr [JNull; JObj (Demo.record "2024-01-02" 5)])])
  = Raise TypeError.
Proof.
  exact (normalize_probe_failure
           [("results", JArr [JNull; JObj (Demo.record "2024-01-02" 5)])] eq_refl).
Defined.

(** ** The failures of [get_datos_variable] *)

Section Failures.
Context (E : Env).

Lemma get_variables_monetarias_raises id_variable desde hasta e :
  get_variables_monetarias E id_variable desde hasta = Raise e ->
  is_RequestException e = true.
Proof.
  rewrite get_variables_monetarias_steps.
  destruct (session_get E _ _) as [msg|r].
  - by intros [= <-].
  - apply steps_RequestException.
Qed.



End Failures.



(** The three steps, one body each: a number under [results] in a list, a
    string as payload, a date that is not one. *)
Lemma get_datos_variable_raises_examples :
  get_datos_variable (Demo.serving (Demo.always (Demo.ok_response
     (JObj [("results", JArr [JInt 1])])))) 1 30 = Raise TypeError
  ∧ get_datos_variable (Demo.serving (Demo.always (Demo.ok_response
       (JObj [("results", JStr "sin datos")])))) 1 30 = Raise ValueError
  ∧ get_datos_variable (Demo.serving Demo.server_bad_date_on_4) 4 30 = Raise ValueError.
Proof. repeat split. Qed.

(** X4: a body that is JSON and not an object never gives rows: when [in]
    finds no ['results'] in it (a list or a string without it) the result
    is the empty frame, and otherwise ([None], a boolean, a number, or a
    list or string holding ['results']) the call raises [TypeError]. *)
Theorem get_datos_variable_body_not_object (E : Env) (id_variable dias_atras : Z) (data : json) :
  get_variables_monetarias E (Some id_variable)
    (Some (strftime_days_ago E dias_atras)) (Some (strftime_days_ago E 0)) = Ok data ->
  isinstance_dict data = false ->
  (contains "results" data = Ok false ->
     get_datos_variable E id_variable dias_atras = Ok empty_frame)
  ∧ (contains "results" data ≠ Ok false ->
     get_datos_variable E id_variable dias_atras = Raise TypeError).
Proof.
  intros Hget Hnot. unfold get_datos_variable. rewrite Hget, bind_Ok. split.
  - by intros ->.
  - intros Hin. destruct data as [| | | | s | items | fields]; try done; simpl in *.
    + destruct (bool_decide _); [done|]. by destruct Hin.
    + destruct (existsb _ _); [done|]. by destruct Hin.
Qed.

Lemma get_datos_variable_body_not_object_witness :
  get_datos_variable (Demo.serving (Demo.always (Demo.ok_response (JArr [JStr "results"])))) 1 30
  = Raise TypeError
  ∧ get_datos_variable (Demo.serving (Demo.always (Demo.ok_response (JStr "sin datos")))) 1 30
    = Ok empty_frame.
Proof.
  split.
  - refine (proj2 (get_datos_variable_body_not_object
             (Demo.serving (Demo.always (Demo.ok_response (JArr [JStr "results"])))) 1 30
             (JArr [JStr "results"]) eq_refl eq_refl) _).
    discriminate.
  - exact (proj1 (get_datos_variable_body_not_object
             (Demo.serving (Demo.always (Demo.ok_response (JStr "sin datos")))) 1 30
             (JStr "sin datos") eq_refl eq_refl) eq_refl).
Defined.

(** ** Records without a date *)

(** X5: for every record list whose column of dates pandas converts as a
    whole (to a date, or to [NaT] where the field is absent or null), and
    provided the permutation that numpy's argsort returns for the dates is
    one that sorts them, the frame returned has one row per record, the
    converted row of that record under its input label; the rows with a
    date come first, in non-decreasing order of date, and the rows without
    a date follow, in the order of the input. *)
Theorem build_undated_rows_last (E : Env) (records : list (list (string * json)))
    (df0 : DataFrame) :
  to_datetime_column E "fecha" (DataFrame_records records) = Ok df0 ->
  sorts_keys (argsort E quicksort) (date_keys df0) ->
  ∃ df ts,
    build E (records_json records) = Ok df
    ∧ rows df ≡ₚ rows df0
    ∧ index df ≡ₚ seq 0 (length records)
    ∧ rows_of_records records df
    ∧ dates df = (Some <$> ts) ++ replicate (length records - length ts) None
    ∧ Sorted Z.le ts
    ∧ Sorted lt (drop (length ts) (index df)).
Proof.
  intros Hconv Hsorts.
  destruct (build_rows_spec E records df0 Hconv Hsorts)
    as (df & ts & Hbuild & _ & Hperm & Hidx & Hrows & Hdates & Hsorted & Htail).
  exists df, ts. by repeat (split; [done|]).
Qed.

Lemma build_undated_rows_last_witness :
  ∃ df0,
    to_datetime_column (Demo.serving (Demo.always Demo.server_error)) "fecha"
      (DataFrame_records Demo.mixed_records) = Ok df0
    ∧ ∃ df ts,
        build (Demo.serving (Demo.always Demo.server_error)) (records_json Demo.mixed_records)
        = Ok df
        ∧ rows df ≡ₚ rows df0
        ∧ index df ≡ₚ seq 0 4
        ∧ rows_of_records Demo.mixed_records df
        ∧ dates df = (Some <$> ts) ++ replicate (4 - length ts) None
        ∧ Sorted Z.le ts
        ∧ Sorted lt (drop (length ts) (index df)).
Proof.
  eexists. split; [reflexivity|].
  apply (build_undated_rows_last (Demo.serving (Demo.always Demo.server_error))
           Demo.mixed_records).
  - reflexivity.
  - apply aquicksort_sorts.
Defined.

(** On those four records: the two dated rows in date order, then the two
    undated rows in input order. *)
Lemma mixed_records_example :
  let df := frame_or_empty (build (Demo.serving (Demo.always Demo.server_error))
                              (records_json Demo.mixed_records)) in
  index df = [2; 0; 1; 3]%nat
  ∧ dates df = [Some (Demo.days_from_civil 2024 1 1 * 86400000000000);
                Some (Demo.days_from_civil 2024 1 2 * 86400000000000); None; None]
  ∧ column "valor" df = Ok [Obj (JInt 3); Obj (JInt 5); Obj (JInt 7); Obj (JInt 9)].
Proof. by vm_compute. Qed.

(** ** The entries of the report *)

Section ReportEntries.
Context (E : Env).

Lemma fetch_one_produces id i datos out e :
  produces E id i e -> fetch_one E id i datos out = Ok (<[id := e]> datos, out).
Proof.
  intros (df & fecha & Hdf & Hempty & Hcsv & Hfecha & Hfechas & Hvalores & Hult & Hn & Hu).
  unfold fetch_one. rewrite Hdf, bind_Ok, Hempty. simpl negb. cbv iota.
  rewrite Hcsv, bind_Ok, Hfecha, bind_Ok, Hfechas, bind_Ok, Hvalores, bind_Ok.
  destruct e; simpl in *. by subst.
Qed.

Lemma fetch_one_inv id i datos out datos' out' :
  fetch_one E id i datos out = Ok (datos', out') ->
  datos' = datos ∨ ∃ e, produces E id i e ∧ datos' = <[id := e]> datos.
Proof.
  unfold fetch_one.
  destruct (get_datos_variable E id DIAS_ATRAS) as [df|err] eqn:Hdf;
    rewrite ?bind_Ok, ?bind_Raise; [|done].
  destruct (empty df) eqn:Hempty; simpl negb; cbv iota.
  - intros [= <- _]. by left.
  - destruct (to_csv E _ df) as [[]|] eqn:Hcsv; rewrite ?bind_Ok, ?bind_Raise; [|done].
    destruct (column "fecha" df) as [fecha|] eqn:Hfecha; rewrite ?bind_Ok, ?bind_Raise; [|done].
    destruct (dt_strftime E fecha) as [fs|] eqn:Hfs; rewrite ?bind_Ok, ?bind_Raise; [|done].
    destruct (column "valor" df) as [vs|] eqn:Hvs; rewrite ?bind_Ok, ?bind_Raise; [|done].
    intros [= <- _]. right. eexists. split; [|reflexivity].
    exists df, fecha. simpl. by repeat split.
Qed.

Lemma fetch_datos_loop_entries variables :
  ∀ datos out, ∃ datos' out',
    fetch_datos_loop E variables datos out = Ok (datos', out')
    ∧ (∀ id e, datos' !! id = Some e ->
         datos !! id = Some e ∨ ∃ i, (id, i) ∈ variables ∧ produces E id i e)
    ∧ (∀ id, id ∉ variables.*1 -> datos' !! id = datos !! id)
    ∧ (NoDup variables.*1 ->
       ∀ id i e, (id, i) ∈ variables -> produces E id i e -> datos' !! id = Some e).
Proof.
  induction variables as [|[id_var i] variables IH]; intros datos out; simpl.
  - exists datos, out. split; [done|]. split; [by left|]. split; [done|].
    intros _ id i e Hin. by apply elem_of_nil in Hin.
  - set (out1 := out ++ [Consultando (nombre i) id_var]).
    assert (Hst : ∃ datos1 out2,
               try_except (fetch_one E id_var i datos out1)
                          (fun e => Ok (datos, out1 ++ [Error e])) = Ok (datos1, out2)
               ∧ (datos1 = datos ∨ ∃ e, produces E id_var i e ∧ datos1 = <[id_var := e]> datos)
               ∧ (∀ e, produces E id_var i e -> datos1 = <[id_var := e]> datos)).
    { destruct (fetch_one E id_var i datos out1) as [[datos1 out2]|err] eqn:Hone; simpl.
      - exists datos1, out2. split; [done|]. split; [by apply fetch_one_inv in Hone|].
        intros e He. rewrite (fetch_one_produces _ _ _ _ _ He) in Hone. by injection Hone as <- _.
      - exists datos, (out1 ++ [Error err]). split; [done|]. split; [by left|].
        intros e He. by rewrite (fetch_one_produces _ _ _ _ _ He) in Hone. }
    destruct Hst as (datos1 & out2 & -> & Hone & Hdet). rewrite bind_Ok. simpl.
    destruct (IH datos1 out2) as (datos' & out' & Hloop & Hentries & Hframe & Hcomplete).
    exists datos', out'. split; [done|]. split; [|split].
    + intros id e Hid. destruct (Hentries id e Hid) as [Hold|(i' & Hin & Hprod)].
      * destruct Hone as [->|(e1 & Hprod & ->)]; [by left|].
        destruct (decide (id = id_var)) as [->|Hne].
        -- rewrite lookup_insert_eq in Hold. injection Hold as <-.
           right. exists i. split; [left|done].
        -- left. by rewrite lookup_insert_ne in Hold.
      * right. exists i'. split; [by right|done].
    + intros id Hnot. csimpl in Hnot. apply not_elem_of_cons in Hnot as [Hne Hnot].
      rewrite (Hframe _ Hnot).
      destruct Hone as [->|(e1 & _ & ->)]; [done|]. by rewrite lookup_insert_ne.
    + intros Hnodup id i' e Hin Hprod. csimpl in Hnodup.
      apply NoDup_cons in Hnodup as [Hfresh Hnodup].
      apply elem_of_cons in Hin as [[= -> ->]|Hin].
      * rewrite (Hframe _ Hfresh), (Hdet _ Hprod). by rewrite lookup_insert_eq.
      * by apply (Hcomplete Hnodup id i').
Qed.

Lemma column_length col df cs : column col df = Ok cs -> length cs = length (rows df).
Proof.
  unfold column. case_bool_decide; [|done]. intros [= <-]. by rewrite length_fmap.
Qed.

Lemma dt_strftime_length cs fs : dt_strftime E cs = Ok fs -> length fs = length cs.
Proof.
  unfold dt_strftime. destruct (mapM _ cs) as [l|] eqn:HmapM; [|done]. intros [= <-].
  symmetry. by apply (length_mapM _ _ _ HmapM).
Qed.

End ReportEntries.

Lemma NoDup_VARIABLES : NoDup VARIABLES.*1.
Proof. apply (bool_decide_unpack _). reflexivity. Qed.

(** X6: [fetch_datos] returns, and the mapping it returns has an entry for
    an identifier exactly when the body of the loop completes for that
    variable: its fetch returns a frame that is not empty, the CSV is
    written, the frame has a [fecha] column of dates and a [valor] column.
    The entry is the one built from that frame; what happens to the other
    variables changes nothing to it. *)
Theorem report_entry_exactly_when (E : Env) :
  ∃ datos out,
    fetch_datos E = Ok (datos, out)
    ∧ ∀ id e, datos !! id = Some e ↔ ∃ i, (id, i) ∈ VARIABLES ∧ produces E id i e.
Proof.
  destruct (fetch_datos_loop_entries E VARIABLES ∅ [])
    as (datos & out & Hrun & Hentries & _ & Hcomplete).
  exists datos, out. split; [done|]. intros id e. split.
  - intros Hid. destruct (Hentries id e Hid) as [Hold|?]; [|done].
    by rewrite lookup_empty in Hold.
  - intros (i & Hin & Hprod). by apply (Hcomplete NoDup_VARIABLES id i).
Qed.

(** A frame with data and no [valor] column: the fetch succeeds, and the
    variable has no entry in the report. *)
Lemma report_entry_needs_valor :
  let E := Demo.serving (Demo.always (Demo.ok_response
             (flat_envelope [[("fecha", JStr "2024-01-02")]]))) in
  (∃ df, get_datos_variable E 1 DIAS_ATRAS = Ok df ∧ empty df = false)
  ∧ ∃ out, fetch_datos E = Ok (∅, out).
Proof. split; eexists; [split|]; by vm_compute. Qed.

(** X7: every entry of the mapping [fetch_datos] returns has as many dates
    as values, at least one of each, the name and the unit of its variable
    in [VARIABLES], and as [ultimo] the last of its values: the [None] that
    the source provides for an empty list of values is never stored. *)
Theorem report_entry_shape (E : Env) (datos : gmap Z entry) (out : list line)
    (id : Z) (e : entry) :
  fetch_datos E = Ok (datos, out) ->
  datos !! id = Some e ->
  length (fechas e) = length (valores e)
  ∧ (0 < length (valores e))%nat
  ∧ ultimo e = last (valores e)
  ∧ is_Some (ultimo e)
  ∧ ∃ i, (id, i) ∈ VARIABLES ∧ entry_nombre e = nombre i ∧ entry_unidad e = unidad i.
Proof.
  intros Hrun Hid.
  destruct (fetch_datos_loop_entries E VARIABLES ∅ [])
    as (datos' & out' & Hrun' & Hentries & _).
  unfold fetch_datos in Hrun. rewrite Hrun in Hrun'. injection Hrun' as <- <-.
  destruct (Hentries id e Hid) as [Hold|(i & Hin & Hprod)];
    [by rewrite lookup_empty in Hold|].
  destruct Hprod as (df & fecha & Hdf & Hempty & _ & Hfecha & Hfechas & Hvalores & Hult & Hn & Hu).
  assert (Hlenv : length (valores e) = length (rows df)) by by apply column_length in Hvalores.
  assert (Hlenf : length (fechas e) = length (rows df)).
  { apply dt_strftime_length in Hfechas. apply column_length in Hfecha. congruence. }
  assert (Hrows : (0 < length (rows df))%nat).
  { unfold empty in Hempty. apply orb_false_iff in Hempty as [Hrows _].
    apply bool_decide_eq_false in Hrows. destruct (rows df); [done|simpl; lia]. }
  split; [congruence|]. split; [lia|]. split; [done|]. split; [|eauto].
  rewrite Hult. apply last_is_Some. intros Hnil. rewrite Hnil in Hlenv. simpl in Hlenv. lia.
Qed.

Lemma report_entry_shape_witness :
  ∃ datos out e,
    fetch_datos (Demo.serving Demo.server_failing_on_4) = Ok (datos, out)
    ∧ datos !! 1 = Some e
    ∧ length (fechas e) = length (valores e)
    ∧ (0 < length (valores e))%nat
    ∧ ultimo e = last (valores e)
    ∧ is_Some (ultimo e)
    ∧ ∃ i, (1, i) ∈ VARIABLES ∧ entry_nombre e = nombre i ∧ entry_unidad e = unidad i.
Proof.
  eexists _, _, _. split; [reflexivity|]. split; [reflexivity|].
  eapply (report_entry_shape (Demo.serving Demo.server_failing_on_4)); reflexivity.
Defined.

(** ** From the records of the API to the entry of the report *)

Section LatestValue.
Context (E : Env).

Lemma sorted_le_last (ts : list Z) (k : nat) (t' t : Z) :
  Sorted Z.le ts -> ts !! k = Some t' -> last ts = Some t -> t' ≤ t.
Proof.
  intros Hsorted Hk Hlast. rewrite last_lookup in Hlast.
  assert (Hlt := lookup_lt_Some _ _ _ Hk).
  destruct (decide (k = pred (length ts))) as [->|Hne].
  - rewrite Hk in Hlast. injection Hlast as ->. lia.
  - apply (StronglySorted_lookup_lt Z.le ts k (pred (length ts))); try done; [|lia].
    apply Sorted_StronglySorted; [|done]. intros x y z. lia.
Qed.

Lemma dt_strftime_rows (rows1 : list (nat * gmap string cell)) :
  Forall (fun row => ∃ d, row.2 !! "fecha" = Some (Datetime d)) rows1 ->
  dt_strftime E ((fun r => default NaN (r.2 !! "fecha")) <$> rows1)
  = Ok ((fun row => strftime E <$> sort_key "fecha" row) <$> rows1).
Proof.
  intros Hrows. unfold dt_strftime.
  replace (mapM (strftime_cell E) ((fun r => default NaN (r.2 !! "fecha")) <$> rows1))
    with (Some ((fun row => strftime E <$> sort_key "fecha" row) <$> rows1)); [done|].
  symmetry. apply mapM_Some_2, Forall2_fmap, Forall_Forall2_diag.
  apply (Forall_impl _ _ _ Hrows). intros row [d Hd]. unfold sort_key. rewrite Hd. simpl.
  by destruct d.
Qed.

(** The frame built from records whose column of dates converts without a
    missing date: every row stands at its label in the converted frame,
    has the date it has there, and the value the frame of the records has
    at that label. *)
Lemma frame_of_dated_records (records : list (list (string * json))) df0 vs0 :
  sorts_keys (argsort E quicksort) (date_keys df0) ->
  to_datetime_column E "fecha" (DataFrame_records records) = Ok df0 ->
  all_dated df0 ->
  column "valor" (DataFrame_records records) = Ok vs0 ->
  ∃ df ts,
    build E (records_json records) = Ok df
    ∧ columns df = union_keys records
    ∧ rows df ≡ₚ rows df0
    ∧ length (rows df) = length records
    ∧ dates df = Some <$> ts
    ∧ Sorted Z.le ts
    ∧ Forall (fun row => ∃ t d,
                sort_key "fecha" row = Some t
                ∧ row.2 !! "fecha" = Some (Datetime d)
                ∧ rows df0 !! row.1 = Some row
                ∧ vs0 !! row.1 = Some (default NaN (row.2 !! "valor"))) (rows df).
Proof.
  intros Hsorts Hconv Hdated Hvs.
  destruct (build_rows_spec E records df0 Hconv Hsorts)
    as (df & ts & Hbuild & Hcolsdf & Hperm & Hidx & Hrows & Hdates & Hsorted & _).
  destruct (converted_records E _ _ Hconv) as (Hcols0 & Hidx0 & _ & _).
  assert (Hcolv : "valor" ∈ union_keys records).
  { unfold column in Hvs. simpl in Hvs. by case_bool_decide. }
  rewrite (column_DataFrame_records _ _ Hcolv) in Hvs. injection Hvs as <-.
  assert (Hlen : length (rows df) = length records).
  { apply Permutation_length in Hidx. unfold index in Hidx.
    by rewrite length_fmap, length_seq in Hidx. }
  assert (Hpoint : Forall (fun row => ∃ t d,
                sort_key "fecha" row = Some t
                ∧ row.2 !! "fecha" = Some (Datetime d)
                ∧ rows df0 !! row.1 = Some row
                ∧ ((fun r => cell_of (dict_get "valor" r)) <$> records) !! row.1
                  = Some (default NaN (row.2 !! "valor"))) (rows df)).
  { apply Forall_forall. intros row Hrow.
    destruct (proj1 (Forall_forall _ _) Hrows row Hrow) as (r & d & Hr & Hrow2).
    assert (Hin0 : row ∈ rows df0) by (by rewrite <- Hperm).
    destruct (proj1 (Forall_forall _ _) Hdated row Hin0) as [t Ht].
    apply list_elem_of_lookup in Hin0 as [j Hj].
    assert (Hlabel : row.1 = j).
    { assert (Hl : index df0 !! j = Some row.1) by (unfold index; by rewrite list_lookup_fmap, Hj).
      rewrite Hidx0 in Hl. apply lookup_seq in Hl. lia. }
    exists t, d. split; [done|]. split; [by rewrite Hrow2, lookup_insert_eq|].
    split; [by rewrite Hlabel|].
    rewrite list_lookup_fmap, Hr. simpl. rewrite Hrow2, lookup_insert_ne by done.
    by rewrite (row_of_lookup _ _ _ Hcolv). }
  exists df, ts. split; [done|]. split; [by rewrite Hcolsdf|]. split; [done|].
  split; [done|]. split; [|done].
  rewrite Hdates.
  destruct (length records - length ts)%nat as [|k] eqn:Hk; [by rewrite app_nil_r|].
  exfalso.
  assert (Hnone : None ∈ dates df).
  { rewrite Hdates. apply elem_of_app. right. simpl. left. }
  apply list_elem_of_fmap_1 in Hnone as (row & Hkey & Hrow).
  destruct (proj1 (Forall_forall _ _) Hpoint row Hrow) as (t & _ & Ht & _). congruence.
Qed.

End LatestValue.

(** X8: when the API answers, for a variable of the dashboard, with a
    non-empty list of records that have a [valor] column and whose column
    of dates pandas converts as a whole, without a missing date, and the
    CSV is written, the report has an entry for the variable (provided the
    permutation that numpy's argsort returns for the dates is one that
    sorts them).  In that
    entry every point is the date pandas gave one record and the value the
    frame of the records holds for that record, the dates are in
    non-decreasing order, and [ultimo] is the value the frame holds for a
    record with the latest date. *)
Theorem report_latest_value (E : Env) (id : Z) (i : info) (data : json)
    (records : list (list (string * json))) (df0 : DataFrame) (vs0 : list cell) :
  (id, i) ∈ VARIABLES ->
  sorts_keys (argsort E quicksort) (date_keys df0) ->
  get_variables_monetarias E (Some id)
    (Some (strftime_days_ago E DIAS_ATRAS)) (Some (strftime_days_ago E 0)) = Ok data ->
  normalize data = Ok (records_json records) ->
  records ≠ [] ->
  to_datetime_column E "fecha" (DataFrame_records records) = Ok df0 ->
  all_dated df0 ->
  column "valor" (DataFrame_records records) = Ok vs0 ->
  (∀ df, to_csv E ("data/" +:+ archivo i +:+ ".csv") df = Ok tt) ->
  ∃ datos out e ts,
    fetch_datos E = Ok (datos, out)
    ∧ datos !! id = Some e
    ∧ fechas e = (fun t => Some (strftime E t)) <$> ts
    ∧ Sorted Z.le ts
    ∧ length (valores e) = length records
    ∧ Forall2 (fun fecha valor => ∃ j t, dates df0 !! j = Some (Some t)
                                     ∧ fecha = Some (strftime E t)
                                     ∧ vs0 !! j = Some valor)
              (fechas e) (valores e)
    ∧ ∃ j t, dates df0 !! j = Some (Some t)
             ∧ (∀ k t', dates df0 !! k = Some (Some t') -> t' ≤ t)
             ∧ ultimo e = vs0 !! j.
Proof.
  intros Hvar Hsorts Hget Hnorm Hne Hconv Hdated Hvs Hcsv.
  destruct (frame_of_dated_records E records df0 vs0 Hsorts Hconv Hdated Hvs)
    as (df & ts & Hbuild & Hcols & Hperm & Hlen & Hdates & Hsorted & Hpoint).
  destruct (converted_records E _ _ Hconv) as (_ & _ & _ & Hfecha).
  assert (Hfetch : get_datos_variable E id DIAS_ATRAS = Ok df).
  { by rewrite get_datos_variable_pipeline, Hget, bind_Ok, Hnorm, bind_Ok. }
  assert (Hcolv : "valor" ∈ columns df).
  { rewrite Hcols. unfold column in Hvs. simpl in Hvs. by case_bool_decide. }
  assert (Hcolf : "fecha" ∈ columns df) by (rewrite Hcols; by apply Hfecha).
  assert (Hempty : empty df = false).
  { unfold empty. apply orb_false_iff. split; apply bool_decide_eq_false.
    - intros Hnil. rewrite Hnil in Hlen. by destruct records.
    - intros Hnil. rewrite Hnil in Hcolf. by apply elem_of_nil in Hcolf. }
  set (fs := (fun row => strftime E <$> sort_key "fecha" row) <$> rows df).
  set (vs := (fun r : nat * gmap string cell => default NaN (r.2 !! "valor")) <$> rows df).
  set (e := {| entry_nombre := nombre i; entry_unidad := unidad i;
               fechas := fs; valores := vs; ultimo := last vs |}).
  assert (Hprod : produces E id i e).
  { exists df, ((fun r : nat * gmap string cell => default NaN (r.2 !! "fecha")) <$> rows df).
    split; [done|]. split; [done|]. split; [done|]. split; [|split; [|split]].
    - unfold column. by rewrite bool_decide_eq_true_2.
    - apply dt_strftime_rows. apply (Forall_impl _ _ _ Hpoint).
      intros row (t & d & _ & Hcell & _). eauto.
    - unfold column. by rewrite bool_decide_eq_true_2.
    - done. }
  destruct (fetch_datos_loop_entries E VARIABLES ∅ [])
    as (datos & out & Hrun & _ & _ & Hcomplete).
  assert (Hdate0 : ∀ row t, row ∈ rows df -> sort_key "fecha" row = Some t ->
            dates df0 !! row.1 = Some (Some t)).
  { intros row t Hrow Ht.
    destruct (proj1 (Forall_forall _ _) Hpoint row Hrow) as (_ & _ & _ & _ & Hrow0 & _).
    unfold dates. by rewrite list_lookup_fmap, Hrow0; simpl; rewrite Ht. }
  exists datos, out, e, ts. split; [done|].
  split; [by apply (Hcomplete NoDup_VARIABLES id i)|]. split; [|split; [done|split; [|split]]].
  - simpl. unfold fs.
    transitivity (fmap (strftime E) <$> (sort_key "fecha" <$> rows df)).
    + by rewrite <- list_fmap_compose.
    + fold (dates df). by rewrite Hdates, <- list_fmap_compose.
  - simpl. unfold vs. by rewrite length_fmap.
  - simpl. unfold fs, vs. apply Forall2_fmap, Forall_Forall2_diag.
    apply Forall_forall. intros row Hrow.
    destruct (proj1 (Forall_forall _ _) Hpoint row Hrow) as (t & d & Ht & _ & _ & Hval).
    exists row.1, t. split; [by apply Hdate0|]. split; [by rewrite Ht|done].
  - assert (Hlast : is_Some (last (rows df))).
    { apply last_is_Some. intros Hnil. rewrite Hnil in Hlen. by destruct records. }
    destruct Hlast as [lr Hlr].
    assert (Hin : lr ∈ rows df) by (by apply last_Some_elem_of).
    destruct (proj1 (Forall_forall _ _) Hpoint lr Hin) as (t & d & Ht & _ & _ & Hval).
    exists lr.1, t. split; [by apply Hdate0|]. split.
    + intros k t' Hk. unfold dates in Hk. rewrite list_lookup_fmap in Hk.
      destruct (rows df0 !! k) as [row'|] eqn:Hrow'; [|done]. simpl in Hk.
      injection Hk as Hk.
      assert (Hin' : row' ∈ rows df).
      { rewrite Hperm. apply list_elem_of_lookup. eauto. }
      apply list_elem_of_lookup in Hin' as [k' Hk'].
      assert (Hts : ts !! k' = Some t').
      { assert (Hd : dates df !! k' = Some (Some t')).
        { unfold dates. by rewrite list_lookup_fmap, Hk'; simpl; rewrite Hk. }
        rewrite Hdates, list_lookup_fmap in Hd.
        destruct (ts !! k'); [|done]. by injection Hd as ->. }
      apply (sorted_le_last ts k' t' t Hsorted Hts).
      assert (Hl : last (dates df) = Some (Some t)).
      { unfold dates. by rewrite fmap_last, Hlr; simpl; rewrite Ht. }
      rewrite Hdates, fmap_last in Hl. destruct (last ts); [|done]. by injection Hl as ->.
    + simpl. unfold vs. rewrite fmap_last, Hlr. simpl. by rewrite Hval.
Qed.

Lemma report_latest_value_witness :
  ∃ df0 vs0,
    to_datetime_column (Demo.serving Demo.server_failing_on_4) "fecha"
      (DataFrame_records [Demo.record "2024-01-02" 5; Demo.record "2024-01-01" 3]) = Ok df0
    ∧ column "valor"
        (DataFrame_records [Demo.record "2024-01-02" 5; Demo.record "2024-01-01" 3]) = Ok vs0
    ∧ ∃ datos out e ts,
        fetch_datos (Demo.serving Demo.server_failing_on_4) = Ok (datos, out)
        ∧ datos !! 1 = Some e
        ∧ fechas e = (fun t => Some (strftime (Demo.serving Demo.server_failing_on_4) t)) <$> ts
        ∧ Sorted Z.le ts
        ∧ length (valores e) = 2%nat
        ∧ Forall2 (fun fecha valor =>
                     ∃ j t, dates df0 !! j = Some (Some t)
                            ∧ fecha = Some (strftime (Demo.serving Demo.server_failing_on_4) t)
                            ∧ vs0 !! j = Some valor)
                  (fechas e) (valores e)
        ∧ ∃ j t, dates df0 !! j = Some (Some t)
                 ∧ (∀ k t', dates df0 !! k = Some (Some t') -> t' ≤ t)
                 ∧ ultimo e = vs0 !! j.
Proof.
  eexists _, _. split; [reflexivity|]. split; [reflexivity|].
  apply (report_latest_value (Demo.serving Demo.server_failing_on_4) 1
           {| nombre := "Reservas Internacionales"; unidad := "USD millones";
              archivo := "reservas" |}
           (mapping_envelope [Demo.record "2024-01-02" 5; Demo.record "2024-01-01" 3])
           [Demo.record "2024-01-02" 5; Demo.record "2024-01-01" 3]).
  - left.
  - apply aquicksort_sorts.
  - reflexivity.
  - reflexivity.
  - discriminate.
  - reflexivity.
  - apply (bool_decide_unpack _). reflexivity.
  - reflexivity.
  - reflexivity.
Defined.

(** On that server the entry of variable 1 ends with the value of
    2024-01-02, the later of the two dates, which comes first in the
    answer. *)
Lemma report_latest_value_example :
  ∃ datos out,
    fetch_datos (Demo.serving Demo.server_failing_on_4) = Ok (datos, out)
    ∧ valores <$> datos !! 1 = Some [Obj (JInt 3); Obj (JInt 5)]
    ∧ ultimo <$> datos !! 1 = Some (Some (Obj (JInt 5))).
Proof. eexists _, _. split; [reflexivity|]. by vm_compute. Qed.

(** ** [main] of the dashboard *)

(** X9: whatever [generar_html] does, [main] calls it exactly when the
    body of the loop of [fetch_datos] completes for at least one variable,
    with the mapping [fetch_datos] returned, and there is no handler
    around the call: [main] then returns when [generar_html] returns and
    raises what [generar_html] raises.  When every variable yields nothing
    (its fetch raises or gives an empty frame) [generar_html] is not
    called: [main] returns, and an existing [index.html] is left as it
    is. *)
Theorem main_generates_exactly_when (E : Env) (generar_html : gmap Z entry -> result unit) :
  ∃ datos out,
    fetch_datos E = Ok (datos, out)
    ∧ (datos = ∅ ↔ ∀ id i e, (id, i) ∈ VARIABLES -> ¬ produces E id i e)
    ∧ ((∀ id, id ∈ VARIABLES.*1 -> yields_nothing E id) -> datos = ∅)
    ∧ (datos = ∅ -> main E generar_html = Ok (NoSeObtuvieronDatos, out))
    ∧ (datos ≠ ∅ ->
       main E generar_html = (generar_html datos ≫= fun _ => Ok (GenerarHtml datos, out))).
Proof.
  destruct (fetch_datos_loop_entries E VARIABLES ∅ [])
    as (datos & out & Hrun & Hentries & _ & Hcomplete).
  assert (Hnone : datos = ∅ ↔ ∀ id i e, (id, i) ∈ VARIABLES -> ¬ produces E id i e).
  { split.
    - intros -> id i e Hin Hprod.
      pose proof (Hcomplete NoDup_VARIABLES id i e Hin Hprod) as Hl.
      by rewrite lookup_empty in Hl.
    - intros Hno. apply map_eq. intros id. rewrite lookup_empty.
      apply eq_None_not_Some. intros [e He].
      destruct (Hentries id e He) as [Hold|(i & Hin & Hprod)].
      + by rewrite lookup_empty in Hold.
      + by apply (Hno id i e). }
  exists datos, out. split; [done|]. split; [done|]. split; [|split].
  - intros Hnothing. apply Hnone. intros id i e Hin Hprod.
    assert (Hid : id ∈ VARIABLES.*1) by (apply list_elem_of_fmap; by exists (id, i)).
    destruct Hprod as (df & _ & Hdf & Hempty & _).
    destruct (Hnothing id Hid) as [[err Herr]|(df' & Hdf' & Hempty')]; congruence.
  - intros Hdatos. unfold main, fetch_datos. rewrite Hrun, bind_Ok. simpl.
    by rewrite bool_decide_eq_false_2 by (by intros H; apply H).
  - intros Hdatos. unfold main, fetch_datos. rewrite Hrun, bind_Ok. simpl.
    by rewrite bool_decide_eq_true_2.
Qed.

(** A server that fails on every request: nothing is generated, even by a
    [generar_html] that would raise.  A server that fails on identifier 4
    only: [generar_html] gets the four other variables, and its error is
    the error of [main]. *)
Lemma main_examples :
  (∃ out, main (Demo.serving (Demo.always Demo.server_error)) (fun _ => Raise OSError)
          = Ok (NoSeObtuvieronDatos, out))
  ∧ (∃ datos out, main (Demo.serving Demo.server_failing_on_4) (fun _ => Ok tt)
                  = Ok (GenerarHtml datos, out)
                  ∧ dom datos = {[1; 5; 12; 15]})
  ∧ main (Demo.serving Demo.server_failing_on_4) (fun _ => Raise OSError) = Raise OSError.
Proof.
  split; [|split].
  - eexists. reflexivity.
  - eexists _, _. split; [reflexivity|]. by vm_compute.
  - reflexivity.
Qed.

(** ** [listar_variables] *)

Section ListarVariables.
Context (E : Env).

Lemma kept_are_columns (cols l : list string) :
  filter (fun c => c ∉ cols) (filter (fun c => c ∈ cols) l) = [].
Proof.
  induction l as [|c l IH]; [done|].
  rewrite filter_cons. destruct (decide (c ∈ cols)) as [Hin|Hnot]; [|done].
  rewrite filter_cons. destruct (decide (c ∉ cols)); [done|]. apply IH.
Qed.

Lemma select_columns_kept (cols : list string) (df : DataFrame) :
  select_columns (filter (fun c => c ∈ columns df) cols) df
  = Ok {| columns := filter (fun c => c ∈ columns df) cols;
          rows := (fun r => (r.1, filter (fun kv : string * cell =>
                                     kv.1 ∈ filter (fun c => c ∈ columns df) cols) r.2))
                  <$> rows df |}.
Proof. unfold select_columns. by rewrite kept_are_columns. Qed.

Lemma listar_variables_records envelope records :
  get_metodologia E None = Ok (JObj envelope) ->
  dict_get "results" envelope = Some (records_json records) ->
  listar_variables E
  = if negb (empty (DataFrame_records records)) then
      if bool_decide (filter (fun c => c ∈ union_keys records) COLUMNAS ≠ [])
      then select_columns (filter (fun c => c ∈ union_keys records) COLUMNAS)
             (DataFrame_records records)
      else Ok (DataFrame_records records)
    else Ok empty_frame.
Proof.
  intros Hget Hres. unfold listar_variables.
  rewrite Hget, bind_Ok, (contains_dict_Some _ _ _ Hres), bind_Ok.
  rewrite (getitem_dict_Some _ _ _ Hres), bind_Ok, pd_DataFrame_records, bind_Ok.
  reflexivity.
Qed.

End ListarVariables.

(** X10: when the metadata endpoint answers with a flat list of records
    that gives a non-empty frame, [listar_variables] keeps every record,
    under its label, and of the columns only [idVariable], [descripcion]
    and [nombreCorto], those of them that exist, in that order, each with
    the field of every record ([NaN] where a record lacks it); any other
    column is gone.  When none of the three exists the frame is returned
    whole. *)
Theorem listar_variables_columns (E : Env) (envelope : list (string * json))
    (records : list (list (string * json))) :
  get_metodologia E None = Ok (JObj envelope) ->
  dict_get "results" envelope = Some (records_json records) ->
  empty (DataFrame_records records) = false ->
  ∃ df,
    listar_variables E = Ok df
    ∧ index df = seq 0 (length records)
    ∧ (filter (fun c => c ∈ union_keys records) COLUMNAS = [] ->
         df = DataFrame_records records)
    ∧ (filter (fun c => c ∈ union_keys records) COLUMNAS ≠ [] ->
         columns df = filter (fun c => c ∈ union_keys records) COLUMNAS
         ∧ (∀ c, c ∈ columns df ->
              column c df = Ok ((fun r => cell_of (dict_get c r)) <$> records))
         ∧ (∀ c, c ∉ columns df -> column c df = Raise (KeyError c))).
Proof.
  intros Hget Hres Hempty.
  rewrite (listar_variables_records E envelope records Hget Hres), Hempty. simpl negb. cbv iota.
  set (kept := filter (fun c => c ∈ union_keys records) COLUMNAS).
  case_bool_decide as Hkept.
  - pose proof (select_columns_kept COLUMNAS (DataFrame_records records)) as Hsel.
    simpl columns in Hsel. fold kept in Hsel. rewrite Hsel.
    eexists. split; [reflexivity|]. split; [|split; [done|]].
    + unfold index. simpl rows. rewrite <- list_fmap_compose.
      change ((rows (DataFrame_records records)).*1 = seq 0 (length records)).
      apply index_DataFrame_records.
    + intros _. split; [done|]. simpl columns. split.
      * intros c Hc. unfold column. simpl columns. rewrite bool_decide_eq_true_2 by done.
        f_equal. simpl rows. apply list_eq. intros i.
        rewrite !list_lookup_fmap, list_lookup_imap.
        destruct (records !! i) as [r|]; [|done]. simpl.
        assert (Hcol : c ∈ union_keys records)
          by (by apply list_elem_of_filter in Hc as [? _]).
        by rewrite (map_lookup_filter_Some_2 _ _ _ _ (row_of_lookup _ r _ Hcol) Hc).
      * intros c Hc. unfold column. simpl columns. by rewrite bool_decide_eq_false_2.
  - exists (DataFrame_records records). split; [done|].
    split; [apply index_DataFrame_records|]. split; [done|].
    intros Hne. by destruct Hkept.
Qed.

Lemma listar_variables_columns_witness :
  ∃ df,
    listar_variables
      (Demo.serving (Demo.always (Demo.ok_response (flat_envelope Demo.metodologia_records))))
    = Ok df
    ∧ index df = seq 0 2
    ∧ (filter (fun c => c ∈ union_keys Demo.metodologia_records) COLUMNAS = [] ->
         df = DataFrame_records Demo.metodologia_records)
    ∧ (filter (fun c => c ∈ union_keys Demo.metodologia_records) COLUMNAS ≠ [] ->
         columns df = filter (fun c => c ∈ union_keys Demo.metodologia_records) COLUMNAS
         ∧ (∀ c, c ∈ columns df ->
              column c df
              = Ok ((fun r => cell_of (dict_get c r)) <$> Demo.metodologia_records))
         ∧ (∀ c, c ∉ columns df -> column c df = Raise (KeyError c))).
Proof.
  apply (listar_variables_columns
           (Demo.serving (Demo.always (Demo.ok_response
              (flat_envelope Demo.metodologia_records))))
           [("results", records_json Demo.metodologia_records)]
           Demo.metodologia_records); reflexivity.
Defined.

(** On those records: two columns are kept, in the order of the source and
    not of the records, and the category is gone. *)
Lemma listar_variables_example :
  let df := frame_or_empty (listar_variables
              (Demo.serving (Demo.always (Demo.ok_response
                 (flat_envelope Demo.metodologia_records))))) in
  columns df = ["idVariable"; "descripcion"]
  ∧ column "idVariable" df = Ok [Obj (JInt 1); Obj (JInt 4)]
  ∧ column "descripcion" df = Ok [Obj (JStr "Reservas"); NaN]
  ∧ column "categoria" df = Raise (KeyError "categoria").
Proof. by vm_compute. Qed.

(** X11: [listar_variables] has no handler, so an error of the transport
    reaches the caller as it is.  It returns the empty frame when the
    envelope has no [results], and also when the records under [results]
    give an empty frame (no record, or records without any field): the
    rows of such records are dropped, where the builder of
    [get_datos_variable] returns the frame with its rows. *)
Theorem listar_variables_nothing (E : Env) :
  (∀ e, get_metodologia E None = Raise e -> listar_variables E = Raise e)
  ∧ (∀ envelope, get_metodologia E None = Ok (JObj envelope) ->
       dict_get "results" envelope = None -> listar_variables E = Ok empty_frame)
  ∧ (∀ envelope records, get_metodologia E None = Ok (JObj envelope) ->
       dict_get "results" envelope = Some (records_json records) ->
       empty (DataFrame_records records) = true ->
       listar_variables E = Ok empty_frame
       ∧ build E (records_json records) = Ok (DataFrame_records records)
       ∧ length (rows (DataFrame_records records)) = length records).
Proof.
  split; [|split].
  - intros e Hget. unfold listar_variables. by rewrite Hget.
  - intros envelope Hget Hres. unfold listar_variables.
    by rewrite Hget, bind_Ok, (contains_dict_None _ _ Hres), bind_Ok.
  - intros envelope records Hget Hres Hempty. split; [|split].
    + by rewrite (listar_variables_records E envelope records Hget Hres), Hempty.
    + unfold build. by rewrite pd_DataFrame_records, bind_Ok, Hempty.
    + simpl. apply length_imap.
Qed.

Lemma listar_variables_nothing_witness :
  listar_variables (Demo.serving (Demo.always (Demo.ok_response (flat_envelope [[]; []]))))
  = Ok empty_frame
  ∧ build (Demo.serving (Demo.always (Demo.ok_response (flat_envelope [[]; []]))))
      (records_json [[]; []])
    = Ok (DataFrame_records [[]; []])
  ∧ length (rows (DataFrame_records [[]; []])) = 2%nat.
Proof.
  exact (proj2 (proj2 (listar_variables_nothing
           (Demo.serving (Demo.always (Demo.ok_response (flat_envelope [[]; []]))))))
         [("results", records_json [[]; []])] [[]; []] eq_refl eq_refl eq_refl).
Defined.

(** ** The URL of a variable *)

Lemma url_suffix_inj (base path : string) (a b : Z) :
  base +:+ path +:+ pretty a = base +:+ path +:+ pretty b -> a = b.
Proof.
  intros H. apply (inj (String.app base)), (inj (String.app path)) in H.
  by apply (inj pretty) in H.
Qed.

(** X13: the URL of a request determines its identifier: two identifiers
    other than 0 are never requested at the same URL, on either endpoint,
    and an identifier other than 0 is never requested at the URL of the
    collection. *)
Theorem url_determines_id (a b : Z) :
  a ≠ 0 -> b ≠ 0 ->
  (monetarias_url (Some a) = monetarias_url (Some b) -> a = b)
  ∧ (metodologia_url (Some a) = metodologia_url (Some b) -> a = b)
  ∧ monetarias_url (Some a) ≠ monetarias_url None
  ∧ metodologia_url (Some a) ≠ metodologia_url None.
Proof.
  intros Ha Hb. unfold monetarias_url, metodologia_url, truthy_int, format_int.
  destruct (Z.eqb_spec a 0) as [|_]; [done|]. destruct (Z.eqb_spec b 0) as [|_]; [done|].
  simpl negb. cbv iota. split; [|split; [|split]].
  - apply url_suffix_inj.
  - apply url_suffix_inj.
  - intros H. apply (inj (String.app BASE_URL)) in H. simpl in H. discriminate.
  - intros H. apply (inj (String.app BASE_URL)) in H. simpl in H. discriminate.
Qed.

Lemma url_determines_id_witness :
  (monetarias_url (Some 1) = monetarias_url (Some 15) -> 1 = 15)
  ∧ (metodologia_url (Some 1) = metodologia_url (Some 15) -> 1 = 15)
  ∧ monetarias_url (Some 1) ≠ monetarias_url None
  ∧ metodologia_url (Some 1) ≠ metodologia_url None.
Proof. apply (url_determines_id 1 15); discriminate. Defined.
